(** * Signal Desktop database access layer (server/signal-db.js)

    A shallow embedding of the key resolver, the key-unwrapping primitive,
    the SQLCipher session and the message repository of the Signal MCP
    server, together with the properties its specification states.

    JavaScript strings are modelled as byte strings holding their UTF-8
    encoding (the encoding SQLite stores TEXT in), Node [Buffer]s as lists of
    bytes, JavaScript numbers that carry counts and timestamps as [Z]; the
    limit and the offset of a query are numbers that need not be integers. *)

From Stdlib Require Import String Ascii ZArith NArith List Bool Lia.
From Stdlib Require Import Strings.Byte Sorting.Sorted Sorting.Permutation.
Import ListNotations.

Local Open Scope string_scope.
Local Open Scope list_scope.
Local Open Scope Z_scope.

(** ** Exceptions

    Every [throw new Error(...)] of signal-db.js is one class of failure; the
    class records which statement threw, the message is the string the
    statement builds.  Exceptions raised by Node builtins and by the SQLite
    binding are [LibraryError]s. *)

Inductive error_class : Type :=
| UnsupportedOS       (* getDefaultSignalDir: "Unsupported OS: ..." *)
| MalformedKeyBlob    (* decryptKey: "Encrypted key does not start with v10" *)
| KeychainDenied      (* getEncryptionKey: "Cannot access macOS Keychain ..." *)
| DatabaseNotFound    (* open: "Signal database not found at: ..." *)
| KeyNotFound         (* open: "Could not find Signal encryption key. ..." *)
| DatabaseOpenFailed  (* open: "Failed to open Signal database: ..." *)
| InvalidRequest      (* index.js: a required argument is missing, unknown tool *)
| LibraryError.       (* thrown by a builtin or by the database binding *)

Record exn : Type := Throw { thrownAt : error_class; message : string }.

Inductive result (A : Type) : Type :=
| Ok (a : A)
| Err (e : exn).
Arguments Ok {A} a.
Arguments Err {A} e.

Definition error_class_eqb (a b : error_class) : bool :=
  match a, b with
  | UnsupportedOS, UnsupportedOS | MalformedKeyBlob, MalformedKeyBlob
  | KeychainDenied, KeychainDenied | DatabaseNotFound, DatabaseNotFound
  | KeyNotFound, KeyNotFound | DatabaseOpenFailed, DatabaseOpenFailed
  | InvalidRequest, InvalidRequest
  | LibraryError, LibraryError => true
  | _, _ => false
  end.

(** The class of the exception a computation ended with, if it threw. *)
Definition failure_class {A} (r : result A) : option error_class :=
  match r with
  | Ok _ => None
  | Err e => Some (thrownAt e)
  end.

(** ** Buffers *)

Definition Buffer : Type := list byte.

(** [Buffer.from(str)]: the UTF-8 bytes of the string. *)
Definition Buffer_from (s : string) : Buffer := list_byte_of_string s.

(** [buf.equals(other)]. *)
Fixpoint Buffer_equals (a b : Buffer) : bool :=
  match a, b with
  | [], [] => true
  | x :: a', y :: b' => Byte.eqb x y && Buffer_equals a' b'
  | _, _ => false
  end.

(** [buf.subarray(start, end)] and [buf.subarray(start)], for indexes that
    are not negative; an end past the buffer is clamped to its length. *)
Definition subarray (b : Buffer) (start stop : nat) : Buffer :=
  firstn (stop - start) (skipn start b).
Definition subarray_from (b : Buffer) (start : nat) : Buffer := skipn start b.

(** [Buffer.alloc(size, fill)]. *)
Definition Buffer_alloc (size : nat) (fill : byte) : Buffer := repeat fill size.

Definition hex_value (c : byte) : option N :=
  let n := Byte.to_N c in
  if (48 <=? n)%N && (n <=? 57)%N then Some (n - 48)%N
  else if (97 <=? n)%N && (n <=? 102)%N then Some (n - 87)%N
  else if (65 <=? n)%N && (n <=? 70)%N then Some (n - 55)%N
  else None.

(** [Buffer.from(str, "hex")]: pairs of hexadecimal digits are decoded until
    the first pair that is not hexadecimal; a trailing single digit is
    dropped. *)
Fixpoint hex_decode (cs : list byte) : Buffer :=
  match cs with
  | hi :: lo :: rest =>
      match hex_value hi, hex_value lo with
      | Some h, Some l =>
          match Byte.of_N (16 * h + l) with
          | Some b => b :: hex_decode rest
          | None => []
          end
      | _, _ => []
      end
  | _ => []
  end.
Definition Buffer_from_hex (s : string) : Buffer :=
  hex_decode (list_byte_of_string s).

Definition hex_digit (n : N) : byte :=
  match Byte.of_N (if (n <? 10)%N then n + 48 else n + 87)%N with
  | Some b => b
  | None => x30
  end.

(** [buf.toString("hex")]. *)
Definition hex_encode (b : Buffer) : list byte :=
  flat_map (fun x => [hex_digit (Byte.to_N x / 16); hex_digit (Byte.to_N x mod 16)]) b.
Definition Buffer_toString_hex (b : Buffer) : string :=
  string_of_list_byte (hex_encode b).

Definition xor_byte (a b : byte) : byte :=
  let '(a0, (a1, (a2, (a3, (a4, (a5, (a6, a7))))))) := Byte.to_bits a in
  let '(b0, (b1, (b2, (b3, (b4, (b5, (b6, b7))))))) := Byte.to_bits b in
  Byte.of_bits (xorb a0 b0, (xorb a1 b1, (xorb a2 b2, (xorb a3 b3,
               (xorb a4 b4, (xorb a5 b5, (xorb a6 b6, xorb a7 b7))))))).

Fixpoint xor_Buffer (a b : Buffer) : Buffer :=
  match a, b with
  | x :: a', y :: b' => xor_byte x y :: xor_Buffer a' b'
  | _, _ => []
  end.

(** ** The AES-128-CBC decipher of [crypto.createDecipheriv]

    The block primitive is the library's; the chaining and the removal of the
    PKCS padding are written out. *)

Definition block_size : nat := 16.

(** The [count] leading 16-byte blocks of a buffer. *)
Fixpoint blocks (count : nat) (b : Buffer) : list Buffer :=
  match count with
  | O => []
  | S c => firstn block_size b :: blocks c (skipn block_size b)
  end.

Definition lib_error (msg : string) : exn := Throw LibraryError msg.

(** Removal of the padding by [decipher.final()]: the last byte [n] must lie
    in 1..16 and the last [n] bytes must all equal [n]. *)
Definition pkcs_unpad (plain : Buffer) : result Buffer :=
  match rev plain with
  | [] => Err (lib_error "wrong final block length")
  | lastb :: _ =>
      let n := N.to_nat (Byte.to_N lastb) in
      if (Nat.leb 1 n && Nat.leb n block_size
          && Buffer_equals (skipn (List.length plain - n) plain) (repeat lastb n))%bool
      then Ok (firstn (List.length plain - n) plain)
      else Err (lib_error "bad decrypt")
  end.

(** ** SQLite scalar semantics used by the queries *)

(** *** Text as the LIKE operator reads it

    The operator works on C strings: the pattern and the text end at their
    first NUL byte.  It reads them one character at a time (sqlite3Utf8Read):
    a byte below 0xC0 is a character by itself; a lead byte, 0xC0 and above,
    takes every continuation byte (0x80-0xBF) that follows it, six bits each
    into a 32-bit accumulator, and a result below 0x80, in the surrogate
    range or equal to 0xFFFE or 0xFFFF reads as U+FFFD. *)

Fixpoint c_string (s : list byte) : list byte :=
  match s with
  | [] => []
  | c :: s' => if Byte.eqb c x00 then [] else c :: c_string s'
  end.

Definition byte_value (c : byte) : Z := Z.of_N (Byte.to_N c).

Definition is_continuation (c : byte) : bool :=
  (128 <=? byte_value c) && (byte_value c <=? 191).

Definition is_lead (c : byte) : bool := 192 <=? byte_value c.

(** sqlite3Utf8Trans1: the payload bits of a lead byte. *)
Definition lead_bits (c : byte) : Z :=
  let n := byte_value c in
  if n <? 224 then n - 192
  else if n <? 240 then n - 224
  else if n <? 248 then n - 240
  else if n <? 252 then n - 248
  else if n <? 254 then n - 252
  else 0.

(** [c = (c << 6) + (0x3f & byte)] on an unsigned 32-bit [c]. *)
Definition read_continuation (c : Z) (b : byte) : Z :=
  (c * 64 + Z.land 63 (byte_value b)) mod 4294967296.

(** The character a lead byte and its continuation bytes are read as. *)
Definition close_char (c : Z) : Z :=
  if (c <? 128) || ((55296 <=? c) && (c <=? 57343)) || (c =? 65534) || (c =? 65535)
  then 65533
  else c.

(** The characters of a byte string; [pending] is the accumulator of the
    lead byte being read, if any. *)
Fixpoint utf8_chars (pending : option Z) (s : list byte) : list Z :=
  match s with
  | [] =>
      match pending with
      | Some c => [close_char c]
      | None => []
      end
  | b :: s' =>
      match pending with
      | Some c =>
          if is_continuation b then utf8_chars (Some (read_continuation c b)) s'
          else
            close_char c
            :: (if is_lead b then utf8_chars (Some (lead_bits b)) s'
                else byte_value b :: utf8_chars None s')
      | None =>
          if is_lead b then utf8_chars (Some (lead_bits b)) s'
          else byte_value b :: utf8_chars None s'
      end
  end.

(** The characters the LIKE operator reads in a TEXT value. *)
Definition sql_chars (s : string) : list Z :=
  utf8_chars None (c_string (list_byte_of_string s)).

(** ASCII case folding of the LIKE operator (sqlite3Tolower); characters
    outside A-Z are kept. *)
Definition to_lower (c : Z) : Z :=
  if (65 <=? c) && (c <=? 90) then c + 32 else c.

(** A character of the pattern that is not a wildcard matches itself, and
    below 0x80 also the character that differs from it in ASCII case only. *)
Definition same_char (p c : Z) : bool :=
  (p =? c) || ((p <? 128) && (c <? 128) && (to_lower p =? to_lower c)).

(** [text LIKE pattern] without an ESCAPE clause (patternCompare), on the
    characters of the two strings: [%] (37) matches any run of characters,
    [_] (95) exactly one character, every other character itself up to
    ASCII case. *)
Fixpoint like (pattern text : list Z) : bool :=
  match pattern with
  | [] => match text with [] => true | _ :: _ => false end
  | p :: pattern' =>
      if p =? 37 then
        (fix star (t : list Z) : bool :=
           like pattern' t
           || match t with
              | [] => false
              | _ :: t' => star t'
              end) text
      else
        match text with
        | c :: text' => ((p =? 95) || same_char p c) && like pattern' text'
        | [] => false
        end
  end.

(** [body LIKE ?] on a nullable TEXT column, for a pattern bound as a
    string.  The function refuses a pattern of more than 50000 bytes
    (SQLITE_MAX_LIKE_PATTERN_LENGTH) before it looks at the column; NULL
    never satisfies the WHERE clause. *)
Definition sql_like (column : option string) (pattern : string) : result bool :=
  if 50000 <? Z.of_nat (String.length pattern) then
    Err (lib_error "LIKE or GLOB pattern too complex")
  else
    Ok match column with
       | Some text => like (sql_chars pattern) (sql_chars text)
       | None => false
       end.

(** [column = ?] on a nullable TEXT column. *)
Definition sql_text_eq (column : option string) (value : string) : bool :=
  match column with
  | Some text => String.eqb text value
  | None => false
  end.

(** *** LIMIT and OFFSET

    A JavaScript number handed over as limit or offset: an integer, or a
    finite number that is not one, strictly between [floor] and
    [floor + 1]. *)
Inductive number : Type :=
| Integer (z : Z)
| Fraction (floor : Z).

(** [if (n)] and [n > 0]. *)
Definition number_truthy (n : number) : bool :=
  match n with
  | Integer z => negb (z =? 0)
  | Fraction _ => true
  end.

Definition number_positive (n : number) : bool :=
  match n with
  | Integer z => 0 <? z
  | Fraction floor => 0 <=? floor
  end.

(** The number spliced into the query text after LIMIT or OFFSET.  The
    engine reads the digits of an integer of magnitude below 2^63 as an
    INTEGER; the text of any other number is a REAL to it, which LIMIT and
    OFFSET refuse (SQLITE_MISMATCH).  (From 2^53 on, the digits JavaScript
    prints for a number can name a neighbouring integer; the two select the
    same rows on every table of fewer than 2^53 rows.) *)
Definition sql_integer (n : number) : result Z :=
  match n with
  | Integer z =>
      if (- 2 ^ 63 <? z) && (z <? 2 ^ 63) then Ok z
      else Err (lib_error "datatype mismatch")
  | Fraction _ => Err (lib_error "datatype mismatch")
  end.

(** The rows [LIMIT limit OFFSET offset] keeps: a negative limit is no
    limit, a negative offset is no offset. *)
Definition sql_window {A} (limit offset : Z) (rows : list A) : list A :=
  let rest := skipn (Z.to_nat offset) rows in
  if limit <? 0 then rest else firstn (Z.to_nat limit) rest.

(** [LIMIT ${limit} OFFSET ${offset}]: the limit is evaluated first. *)
Definition sql_limit_offset {A} (limit offset : number) (rows : list A)
  : result (list A) :=
  match sql_integer limit with
  | Ok k =>
      match sql_integer offset with
      | Ok o => Ok (sql_window k o rows)
      | Err e => Err e
      end
  | Err e => Err e
  end.

(** [ORDER BY key DESC], as a stable insertion sort: rows of equal key keep
    the order they have in the table. *)
Fixpoint insert_desc {A} (key : A -> Z) (x : A) (sorted : list A) : list A :=
  match sorted with
  | [] => [x]
  | y :: rest =>
      if key y <=? key x then x :: sorted else y :: insert_desc key x rest
  end.

Fixpoint order_by_desc {A} (key : A -> Z) (rows : list A) : list A :=
  match rows with
  | [] => []
  | x :: rest => insert_desc key x (order_by_desc key rest)
  end.

(** ** JavaScript values

    What [JSON.parse] returns and what the dynamically typed fields of the
    program hold.  Numbers are the integers. *)

#[warnings="-register-all"] Inductive jsval : Type :=
| JUndefined
| JNull
| JBool (b : bool)
| JNum (n : Z)
| JStr (s : string)
| JArr (items : list jsval)
| JObj (fields : list (string * jsval)).

Local Infix "+++" := String.append (right associativity, at level 60).

Definition truthy (v : jsval) : bool :=
  match v with
  | JUndefined | JNull => false
  | JBool b => b
  | JNum n => negb (n =? 0)
  | JStr s => negb (String.eqb s EmptyString)
  | JArr _ | JObj _ => true
  end.

(** [a || b]. *)
Definition js_or (a b : jsval) : jsval := if truthy a then a else b.

(** [a === b].  Arrays and objects are equal only to themselves; the program
    compares a database column or a literal with a parsed value, never an
    object with itself. *)
Definition strict_eq (a b : jsval) : bool :=
  match a, b with
  | JUndefined, JUndefined => true
  | JNull, JNull => true
  | JBool x, JBool y => Bool.eqb x y
  | JNum x, JNum y => x =? y
  | JStr x, JStr y => String.eqb x y
  | _, _ => false
  end.

Fixpoint lookup_field (k : string) (fields : list (string * jsval)) : jsval :=
  match fields with
  | [] => JUndefined
  | (k', v) :: rest => if String.eqb k' k then v else lookup_field k rest
  end.

(** [v.k]: a TypeError on [null] and [undefined], [undefined] on the other
    values that are not objects (none of the names the program reads is a
    property of a string, number, boolean or array). *)
Definition get (v : jsval) (k : string) : result jsval :=
  match v with
  | JUndefined =>
      Err (lib_error ("Cannot read properties of undefined (reading '" +++ k +++ "')"))
  | JNull =>
      Err (lib_error ("Cannot read properties of null (reading '" +++ k +++ "')"))
  | JObj fields => Ok (lookup_field k fields)
  | _ => Ok JUndefined
  end.

(** A nullable TEXT column as the value the binding hands to JavaScript. *)
Definition of_text (column : option string) : jsval :=
  match column with
  | Some s => JStr s
  | None => JNull
  end.

Definition of_integer (column : option Z) : jsval :=
  match column with
  | Some n => JNum n
  | None => JNull
  end.

(** [haystack.includes(needle)]. *)
Fixpoint starts_with (needle haystack : list byte) : bool :=
  match needle, haystack with
  | [], _ => true
  | n :: needle', h :: haystack' => Byte.eqb n h && starts_with needle' haystack'
  | _ :: _, [] => false
  end.

Fixpoint contains (needle haystack : list byte) : bool :=
  starts_with needle haystack
  || match haystack with
     | [] => false
     | _ :: haystack' => contains needle haystack'
     end.

Definition includes (haystack needle : string) : bool :=
  contains (list_byte_of_string needle) (list_byte_of_string haystack).

(** [str.trim()]: the white space and line terminators of ECMAScript, in
    UTF-8. *)
Definition white_space : list (list byte) :=
  [ [x09]; [x0a]; [x0b]; [x0c]; [x0d]; [x20]; [xc2; xa0]; [xe1; x9a; x80];
    [xe2; x80; x80]; [xe2; x80; x81]; [xe2; x80; x82]; [xe2; x80; x83];
    [xe2; x80; x84]; [xe2; x80; x85]; [xe2; x80; x86]; [xe2; x80; x87];
    [xe2; x80; x88]; [xe2; x80; x89]; [xe2; x80; x8a]; [xe2; x80; xa8];
    [xe2; x80; xa9]; [xe2; x80; xaf]; [xe2; x81; x9f]; [xe3; x80; x80];
    [xef; xbb; xbf] ].

Fixpoint strip_one (spaces : list (list byte)) (s : list byte) : option (list byte) :=
  match spaces with
  | [] => None
  | sp :: spaces' =>
      if starts_with sp s then Some (skipn (List.length sp) s)
      else strip_one spaces' s
  end.

Fixpoint strip_leading (spaces : list (list byte)) (fuel : nat) (s : list byte) : list byte :=
  match fuel with
  | O => s
  | S fuel' =>
      match strip_one spaces s with
      | Some s' => strip_leading spaces fuel' s'
      | None => s
      end
  end.

Definition trim (s : string) : string :=
  let b := list_byte_of_string s in
  let b1 := strip_leading white_space (List.length b) b in
  let r := rev b1 in
  string_of_list_byte
    (rev (strip_leading (map (@rev byte) white_space) (List.length r) r)).

(** [str.split(",")]. *)
Fixpoint split_comma_bytes (current : list byte) (s : list byte) : list (list byte) :=
  match s with
  | [] => [rev current]
  | c :: s' =>
      if Byte.eqb c x2c then rev current :: split_comma_bytes [] s'
      else split_comma_bytes (c :: current) s'
  end.

Definition split_comma (s : string) : list string :=
  map string_of_list_byte (split_comma_bytes [] (list_byte_of_string s)).

(** ** Rows, projections and the host *)

Record ConversationRow : Type := {
  conv_id : string;
  conv_serviceId : option string;
  conv_name : option string;
  conv_profileName : option string;
  conv_e164 : option string;
  conv_type : string;
  conv_json : option string
}.

Record MessageRow : Type := {
  msg_id : string;
  msg_conversationId : string;
  msg_timestamp : Z;
  msg_sentAt : option Z;
  msg_source : option string;
  msg_sourceServiceId : option string;
  msg_body : option string;
  msg_json : option string;
  msg_hasAttachments : bool;
  msg_type : string
}.

Record FormattedMessage : Type := {
  date : string;
  sender : jsval;
  body : string;
  quote : jsval;
  sticker : jsval;
  reactions : jsval;
  attachments : string
}.

Record ChatInfo : Type := {
  chat_id : string;
  chat_serviceId : jsval;
  chat_name : jsval;
  chat_number : option string;
  chat_profileName : option string;
  chat_type : string;
  totalMessages : Z
}.

(** The builtins of Node the program calls. *)
Record Runtime : Type := {
  JSON_parse : string -> result jsval;
  toISOString : Z -> result string;          (* new Date(ts).toISOString() *)
  join : list string -> string;              (* path.join *)
  pbkdf2Sync : string -> Buffer -> nat -> nat -> string -> Buffer;
  aes128_decrypt_block : Buffer -> Buffer -> Buffer;   (* key, block *)
  Buffer_toString_utf8 : Buffer -> string;   (* buf.toString("utf-8") *)
  (* Buffer.from(value, "hex") on a value that is not a string: the bytes of
     an array or of an array-like object, a TypeError on the other values *)
  Buffer_from_object : jsval -> result Buffer
}.

(** The statements [open] sends through [db.pragma]. *)
Inductive Pragma : Type :=
| PragmaKey (encKey : jsval)          (* key = "x'${encKey}'" *)
| PragmaSet (setting : string).

(** A connection of the SQLite binding: the file it was created on and the
    pragmas applied so far. *)
Record Handle : Type := {
  handle_path : string;
  handle_pragmas : list Pragma
}.

(** The machine the server runs on: operating system, environment, files,
    keychain, and what the SQLCipher engine answers on a connection. *)
Record Host : Type := {
  platform : string;
  homedir : string;
  env_SIGNAL_SOURCE_DIR : option string;
  env_SIGNAL_KEY : option string;
  existsSync : string -> bool;
  readFileSync : string -> result string;
  (* execSync('security find-generic-password -ws "Signal Safe Storage"') *)
  security_find_generic_password : result string;
  Database_new : string -> result unit;
  Database_pragma : Handle -> Pragma -> result unit;
  select_1 : Handle -> result unit;
  (* SELECT json FROM items WHERE id = 'uuid_id': no row, or its json column *)
  select_uuid_id : Handle -> result (option (option string));
  table_conversations : Handle -> result (list ConversationRow);
  table_messages : Handle -> result (list MessageRow)
}.

(** The fields of a [SignalDatabase] instance. *)
Record SignalDatabase : Type := {
  password : option string;
  key : option string;
  db : option Handle;
  sourceDir : string;
  selfServiceId : jsval
}.

Definition set_db (this : SignalDatabase) (h : option Handle) : SignalDatabase :=
  {| password := password this; key := key this; db := h;
     sourceDir := sourceDir this; selfServiceId := selfServiceId this |}.

Definition set_selfServiceId (this : SignalDatabase) (v : jsval) : SignalDatabase :=
  {| password := password this; key := key this; db := db this;
     sourceDir := sourceDir this; selfServiceId := v |}.

(** An optional argument or environment variable: absent is [undefined]. *)
Definition of_optional (v : option string) : jsval :=
  match v with
  | Some s => JStr s
  | None => JUndefined
  end.

(** ** Fallible and stateful computations *)

Definition bind {A B} (r : result A) (k : A -> result B) : result B :=
  match r with
  | Ok a => k a
  | Err e => Err e
  end.

Notation "x <- c ;; k" := (bind c (fun x => k))
  (at level 61, c at next level, right associativity).

(** [WHERE p] over the rows of a table, for a test that can throw. *)
Fixpoint filter_result {A} (p : A -> result bool) (l : list A) : result (list A) :=
  match l with
  | [] => Ok []
  | x :: rest =>
      keep <- p x ;;
      kept <- filter_result p rest ;;
      Ok (if keep then x :: kept else kept)
  end.

Fixpoint map_result {A B} (f : A -> result B) (l : list A) : result (list B) :=
  match l with
  | [] => Ok []
  | x :: rest =>
      y <- f x ;;
      ys <- map_result f rest ;;
      Ok (y :: ys)
  end.

(** A method of the instance: it reads and updates the fields and returns
    or throws. *)
Definition Method (A : Type) : Type := SignalDatabase -> SignalDatabase * result A.

Definition mbind {A B} (m : Method A) (k : A -> Method B) : Method B :=
  fun this =>
    match m this with
    | (this', Ok a) => k a this'
    | (this', Err e) => (this', Err e)
    end.

Notation "x <~ m ;; k" := (mbind m (fun x => k))
  (at level 61, m at next level, right associativity).

Definition mret {A} (a : A) : Method A := fun this => (this, Ok a).
Definition mthrow {A} (e : exn) : Method A := fun this => (this, Err e).
Definition the_fields : Method SignalDatabase := fun this => (this, Ok this).
Definition lift {A} (r : result A) : Method A := fun this => (this, r).

(** [try { body } finally { cleanup }]. *)
Definition finally {A} (body : Method A) (cleanup : Method unit) : Method A :=
  fun this =>
    let (this1, r) := body this in
    match cleanup this1 with
    | (this2, Ok _) => (this2, r)
    | (this2, Err e) => (this2, Err e)
    end.

(** [a || b] on optional strings: absent and empty are falsy. *)
Definition or_optional (a b : option string) : option string :=
  match a with
  | Some s => if String.eqb s EmptyString then b else a
  | None => b
  end.

(** The value of an optional string that was tested truthy. *)
Definition text_of (v : option string) : string :=
  match v with
  | Some s => s
  | None => EmptyString
  end.

Definition provided (v : option string) : bool :=
  match v with
  | Some s => negb (String.eqb s EmptyString)
  | None => false
  end.

Definition dquote : string := String (Ascii.ascii_of_nat 34) EmptyString.
Definition newline : string := String (Ascii.ascii_of_nat 10) EmptyString.

(** The reference cipher the key blobs are produced with: PKCS padding, then
    CBC chaining over a block encryption [enc key block]. *)
Definition pkcs_pad (plain : Buffer) : Buffer :=
  let n := (block_size - Nat.modulo (List.length plain) block_size)%nat in
  match Byte.of_N (N.of_nat n) with
  | Some b => plain ++ repeat b n
  | None => plain
  end.

Fixpoint cbc_encrypt_blocks (enc : Buffer -> Buffer -> Buffer)
    (key prev : Buffer) (plain_blocks : list Buffer) : list Buffer :=
  match plain_blocks with
  | [] => []
  | p :: rest =>
      let c := enc key (xor_Buffer p prev) in
      c :: cbc_encrypt_blocks enc key c rest
  end.

Definition cbc_encrypt (enc : Buffer -> Buffer -> Buffer)
    (key iv plain : Buffer) : Buffer :=
  let padded := pkcs_pad plain in
  List.concat (cbc_encrypt_blocks enc key iv
            (blocks (Nat.div (List.length padded) block_size) padded)).

(** ** The program *)

Section Program.

Variable node : Runtime.
Variable host : Host.

(** *** signal-db.js, module level *)

Definition getDefaultSignalDir : result string :=
  let home := homedir host in
  let os := platform host in
  if String.eqb os "win32" then Ok (join node [home; "AppData"; "Roaming"; "Signal"])
  else if String.eqb os "darwin" then
    Ok (join node [home; "Library"; "Application Support"; "Signal"])
  else if String.eqb os "linux" then
    let flatpakPath :=
      join node [home; ".var"; "app"; "org.signal.Signal"; "config"; "Signal"] in
    if existsSync host flatpakPath then Ok flatpakPath
    else Ok (join node [home; ".config"; "Signal"])
  else Err (Throw UnsupportedOS ("Unsupported OS: " +++ os)).

(** [Buffer.from(value, "hex")].  The encoding applies to a string; on
    another value of config.json the builtin ignores it and takes the bytes
    of an array or array-like object, or throws. *)
Definition Buffer_from_hex_value (v : jsval) : result Buffer :=
  match v with
  | JStr s => Ok (Buffer_from_hex s)
  | _ => Buffer_from_object node v
  end.

Fixpoint cbc_decrypt_blocks (key prev : Buffer) (cipher_blocks : list Buffer) : Buffer :=
  match cipher_blocks with
  | [] => []
  | c :: rest =>
      xor_Buffer (aes128_decrypt_block node key c) prev
        ++ cbc_decrypt_blocks key c rest
  end.

(** [createDecipheriv("aes-128-cbc", key, iv)], then [update(ciphertext)]
    followed by [final()]. *)
Definition aes_128_cbc_decipher (key iv ciphertext : Buffer) : result Buffer :=
  if negb (Nat.eqb (length key) 16) then Err (lib_error "Invalid key length")
  else if negb (Nat.eqb (length iv) block_size) then
    Err (lib_error "Invalid initialization vector")
  else if negb (Nat.eqb (Nat.modulo (length ciphertext) block_size) 0) then
    Err (lib_error "wrong final block length")
  else
    pkcs_unpad
      (cbc_decrypt_blocks key iv
         (blocks (Nat.div (length ciphertext) block_size) ciphertext)).

Definition decryptKey (password : string) (encryptedKeyHex : jsval) : result string :=
  encryptedKey <- Buffer_from_hex_value encryptedKeyHex ;;
  let prefix := Buffer_from "v10" in
  if negb (Buffer_equals (subarray encryptedKey 0 3) prefix) then
    Err (Throw MalformedKeyBlob "Encrypted key does not start with v10")
  else
    let ciphertext := subarray_from encryptedKey 3 in
    let salt := Buffer_from "saltysalt" in
    let iterations := 1003%nat in
    let key := pbkdf2Sync node password salt iterations 16 "sha1" in
    let iv := Buffer_alloc 16 x20 in
    decrypted <- aes_128_cbc_decipher key iv ciphertext ;;
    Ok (Buffer_toString_utf8 node decrypted).

Definition keychain_error : exn :=
  Throw KeychainDenied
    ("Cannot access macOS Keychain to retrieve Signal encryption key. "
     +++ "This often happens in sandboxed environments. "
     +++ "To fix this, run the following command in Terminal to get your key:"
     +++ newline +++ newline
     +++ "  security find-generic-password -ws " +++ dquote
     +++ "Signal Safe Storage" +++ dquote +++ newline +++ newline
     +++ "Then enter the key in the extension's " +++ dquote
     +++ "Encryption Key" +++ dquote +++ " setting.").

(** The body of the [try] that reads config.json: [Ok JNull] when control
    leaves the block without a [return]. *)
Definition read_config_key (configPath : string) : result jsval :=
  text <- readFileSync host configPath ;;
  config <- JSON_parse node text ;;
  plain <- get config "key" ;;
  if truthy plain then Ok plain
  else
    encrypted <- get config "encryptedKey" ;;
    if truthy encrypted && String.eqb (platform host) "darwin" then
      match
        (out <- security_find_generic_password host ;;
         decryptKey (trim out) encrypted)
      with
      | Ok k => Ok (JStr k)
      | Err _ => Err keychain_error
      end
    else Ok JNull.

Definition getEncryptionKey (sourceDir : string) (providedKey : option string)
  : result jsval :=
  if provided providedKey then Ok (of_optional providedKey)
  else
    let configPath := join node [sourceDir; "config.json"] in
    if existsSync host configPath then
      match read_config_key configPath with
      | Ok k => Ok k
      | Err configError =>
          if includes (message configError) "Keychain" then Err configError
          else Ok JNull
      end
    else Ok JNull.

(** *** class SignalDatabase *)

Definition constructor (sourceDir password key : option string) : result SignalDatabase :=
  dir <- match or_optional sourceDir (env_SIGNAL_SOURCE_DIR host) with
         | Some d => if String.eqb d EmptyString then getDefaultSignalDir else Ok d
         | None => getDefaultSignalDir
         end ;;
  Ok {| password := password; key := key; db := None;
        sourceDir := dir; selfServiceId := JNull |}.

(** The text [JSON.parse] receives for a nullable column. *)
Definition json_text (column : option string) : string :=
  match column with
  | Some s => s
  | None => "null"
  end.

Definition loadSelfContact : Method unit :=
  fun this =>
    match db this with
    | None => (this, Ok tt)
    | Some h =>
        match
          (row <- select_uuid_id host h ;;
           match row with
           | Some json =>
               data <- JSON_parse node (json_text json) ;;
               value <- get data "value" ;;
               Ok (Some (js_or value JNull))
           | None => Ok None
           end)
        with
        | Ok (Some v) => (set_selfServiceId this v, Ok tt)
        | Ok None => (this, Ok tt)
        | Err _ => (this, Ok tt)
        end
    end.

(** [this.db.pragma(p)]. *)
Definition pragma (p : Pragma) : Method unit :=
  fun this =>
    match db this with
    | Some h =>
        match Database_pragma host h p with
        | Ok _ =>
            (set_db this (Some {| handle_path := handle_path h;
                                  handle_pragmas := handle_pragmas h ++ [p] |}),
             Ok tt)
        | Err e => (this, Err e)
        end
    | None => (this, Err (lib_error "Cannot read properties of null (reading 'pragma')"))
    end.

(** The body of the [try] block of [open]. *)
Definition open_session (dbPath : string) (encKey : jsval) : Method Handle :=
  _ <~ (fun this =>
          match Database_new host dbPath with
          | Ok _ =>
              (set_db this (Some {| handle_path := dbPath; handle_pragmas := [] |}),
               Ok tt)
          | Err e => (this, Err e)
          end) ;;
  _ <~ pragma (PragmaKey encKey) ;;
  _ <~ pragma (PragmaSet "cipher_page_size = 4096") ;;
  _ <~ pragma (PragmaSet "kdf_iter = 64000") ;;
  _ <~ pragma (PragmaSet "cipher_hmac_algorithm = HMAC_SHA512") ;;
  _ <~ pragma (PragmaSet "cipher_kdf_algorithm = PBKDF2_HMAC_SHA512") ;;
  _ <~ (fun this =>
          match db this with
          | Some h => (this, select_1 host h)
          | None => (this, Err (lib_error "Cannot read properties of null (reading 'prepare')"))
          end) ;;
  _ <~ loadSelfContact ;;
  fun this =>
    match db this with
    | Some h => (this, Ok h)
    | None => (this, Err (lib_error "no connection"))
    end.

Definition open_failed (error : exn) : exn :=
  Throw DatabaseOpenFailed
    ("Failed to open Signal database: " +++ message error +++ ". "
     +++ "Make sure Signal Desktop is closed before accessing.").

Definition open : Method Handle :=
  fun this =>
    match db this with
    | Some h => (this, Ok h)
    | None =>
        let dbPath := join node [sourceDir this; "sql"; "db.sqlite"] in
        if negb (existsSync host dbPath) then
          (this, Err (Throw DatabaseNotFound ("Signal database not found at: " +++ dbPath)))
        else
          match getEncryptionKey (sourceDir this)
                  (or_optional (key this) (env_SIGNAL_KEY host)) with
          | Err e => (this, Err e)
          | Ok encKey =>
              if negb (truthy encKey) then
                (this,
                 Err (Throw KeyNotFound
                        ("Could not find Signal encryption key. "
                         +++ "Make sure config.json exists in " +++ sourceDir this
                         +++ " or provide the key manually.")))
              else
                match open_session dbPath encKey this with
                | (this', Ok h) => (this', Ok h)
                | (this', Err error) => (this', Err (open_failed error))
                end
          end
    end.

Definition close : Method unit :=
  fun this =>
    match db this with
    | Some _ => (set_db this None, Ok tt)
    | None => (this, Ok tt)
    end.

(** The display name of a conversation row: [name || profileName], and when
    that is falsy the names of the JSON payload (the block the three
    repository methods share). *)
Definition displayName (conv : ConversationRow) : jsval :=
  let contactName := js_or (of_text (conv_name conv)) (of_text (conv_profileName conv)) in
  if negb (truthy contactName) && provided (conv_json conv) then
    match
      (jsonData <- JSON_parse node (json_text (conv_json conv)) ;;
       n <- get jsonData "name" ;;
       p <- get jsonData "profileName" ;;
       g <- get jsonData "groupName" ;;
       Ok (js_or (js_or n p) g))
    with
    | Ok v => v
    | Err _ => contactName
    end
  else contactName.

(** The ISO date of [ts = msg.sentAt || msg.timestamp], the empty string
    when [ts] is falsy. *)
Definition message_date (msg : MessageRow) : result string :=
  let ts := js_or (of_integer (msg_sentAt msg)) (JNum (msg_timestamp msg)) in
  match ts with
  | JNum t => if truthy ts then toISOString node t else Ok EmptyString
  | _ => Ok EmptyString
  end.

(** [jsonLoaded]: the parsed payload, or [{}] when the column is empty or
    does not parse. *)
Definition message_payload (msg : MessageRow) : jsval :=
  if provided (msg_json msg) then
    match JSON_parse node (json_text (msg_json msg)) with
    | Ok v => v
    | Err _ => JObj []
    end
  else JObj [].

Definition formatMessage (this : SignalDatabase) (msg : MessageRow) (contactName : jsval)
  : result FormattedMessage :=
  date <- message_date msg ;;
  let isFromSelf :=
    strict_eq (of_text (msg_sourceServiceId msg)) (selfServiceId this)
    || String.eqb (msg_type msg) "outgoing" in
  let sender := if isFromSelf then JStr "Me" else contactName in
  let jsonLoaded := message_payload msg in
  r <- get jsonLoaded "reactions" ;;
  let reactions := if truthy r then r else JArr [] in
  q <- get jsonLoaded "quote" ;;
  quote <- (if truthy q then
              t <- get q "text" ;; Ok (js_or t (JStr EmptyString))
            else Ok (JStr EmptyString)) ;;
  s <- get jsonLoaded "sticker" ;;
  sticker <- (if truthy s then
                e <- get s "emoji" ;;
                p <- get s "packId" ;;
                Ok (js_or (js_or e p) (JStr EmptyString))
              else Ok (JStr EmptyString)) ;;
  Ok {| date := date;
        sender := sender;
        body := match msg_body msg with Some b => b | None => EmptyString end;
        quote := quote;
        sticker := sticker;
        reactions := reactions;
        attachments := if msg_hasAttachments msg then "yes" else EmptyString |}.

(** [WHERE name = ? OR profileName = ? LIMIT 1]. *)
Definition find_conversation (chatName : string) (convs : list ConversationRow)
  : option ConversationRow :=
  find (fun c => sql_text_eq (conv_name c) chatName
                 || sql_text_eq (conv_profileName c) chatName) convs.

(** [WHERE conversationId = ?]. *)
Definition messages_of (conversationId : string) (msgs : list MessageRow)
  : list MessageRow :=
  filter (fun m => String.eqb (msg_conversationId m) conversationId) msgs.

Definition listChats (chats : option string) (includeEmpty : option bool)
  : Method (list ChatInfo) :=
  db <~ open ;;
  lift
    (convs <- table_conversations host db ;;
     msgs <- table_messages host db ;;
     let includeEmpty := match includeEmpty with Some b => b | None => false end in
     let conversations :=
       filter (fun c => String.eqb (conv_type c) "private"
                        || String.eqb (conv_type c) "group") convs in
     let chatInfos :=
       flat_map
         (fun conv =>
            let messageCount := Z.of_nat (length (messages_of (conv_id conv) msgs)) in
            if negb includeEmpty && (messageCount =? 0) then []
            else
              [ {| chat_id := conv_id conv;
                   chat_serviceId := js_or (of_text (conv_serviceId conv)) (JStr (conv_id conv));
                   chat_name := js_or (displayName conv) JNull;
                   chat_number := conv_e164 conv;
                   chat_profileName := conv_profileName conv;
                   chat_type := conv_type conv;
                   totalMessages := messageCount |} ])
         conversations in
     if provided chats then
       let chatIds := map trim (split_comma (text_of chats)) in
       Ok (filter
             (fun c => existsb (String.eqb (chat_id c)) chatIds
                       || existsb (fun i => strict_eq (JStr i) (chat_serviceId c)) chatIds)
             chatInfos)
     else Ok chatInfos).

(** [if (limit)] on the optional limit: absent and zero are falsy. *)
Definition limit_given (limit : option number) : bool :=
  match limit with
  | Some k => number_truthy k
  | None => false
  end.

(** The rows of a conversation as [ORDER BY timestamp DESC] lists them. *)
Definition all_messages (conversationId : string) (msgs : list MessageRow)
  : list MessageRow :=
  order_by_desc msg_timestamp (messages_of conversationId msgs).

(** The rows [getChatMessages] reads: ordered by timestamp, most recent
    first, then cut by [LIMIT ... OFFSET ...] as the query text is built;
    the query throws when a number spliced into it is not an INTEGER to the
    engine. *)
Definition select_messages (limit offset : option number) (conversationId : string)
    (msgs : list MessageRow) : result (list MessageRow) :=
  let offset := match offset with Some o => o | None => Integer 0 end in
  let ordered := all_messages conversationId msgs in
  if limit_given limit then
    sql_limit_offset (match limit with Some k => k | None => Integer 0 end) offset ordered
  else if number_positive offset then sql_limit_offset (Integer (-1)) offset ordered
  else Ok ordered.

Definition getChatMessages (chatName : string) (limit offset : option number)
  : Method (list FormattedMessage) :=
  db <~ open ;;
  this <~ the_fields ;;
  lift
    (convs <- table_conversations host db ;;
     match find_conversation chatName convs with
     | None => Ok []
     | Some conversation =>
         let contactName := displayName conversation in
         msgs <- table_messages host db ;;
         messages <- select_messages limit offset (conv_id conversation) msgs ;;
         map_result
           (fun msg => formatMessage this msg (js_or contactName (JStr "Unknown")))
           messages
     end).

(** The rows [searchChat] reads: the conversation's rows whose body is
    [LIKE '%query%'], most recent first, cut by [LIMIT] when one is given.
    The limit is evaluated before the first row is read, the LIKE operator
    on every row of the conversation. *)
Definition matching_messages (query : string) (conversationId : string)
    (msgs : list MessageRow) : result (list MessageRow) :=
  matching <- filter_result (fun m => sql_like (msg_body m) ("%" +++ query +++ "%"))
                (messages_of conversationId msgs) ;;
  Ok (order_by_desc msg_timestamp matching).

Definition search_messages (query : string) (limit : option number)
    (conversationId : string) (msgs : list MessageRow) : result (list MessageRow) :=
  if limit_given limit then
    k <- sql_integer (match limit with Some k => k | None => Integer 0 end) ;;
    ordered <- matching_messages query conversationId msgs ;;
    Ok (sql_window k 0 ordered)
  else matching_messages query conversationId msgs.

Definition searchChat (chatName query : string) (limit : option number)
  : Method (list FormattedMessage) :=
  db <~ open ;;
  this <~ the_fields ;;
  lift
    (convs <- table_conversations host db ;;
     match find_conversation chatName convs with
     | None => Ok []
     | Some conversation =>
         let contactName := displayName conversation in
         msgs <- table_messages host db ;;
         messages <- search_messages query limit (conv_id conversation) msgs ;;
         map_result
           (fun msg => formatMessage this msg (js_or contactName (JStr "Unknown")))
           messages
     end).

(** *** index.js: the tool-call handler *)

Record ToolArgs : Type := {
  arg_source_dir : option string;
  arg_key : option string;
  arg_chats : option string;
  arg_include_empty : option bool;
  arg_chat_name : option string;
  arg_query : option string;
  arg_limit : option number;
  arg_offset : option number
}.

Inductive ToolOutput : Type :=
| ChatList (chats : list ChatInfo)
| MessageList (messages : list FormattedMessage).

(** The [switch] on the tool name. *)
Definition dispatch (name : string) (args : ToolArgs) : Method ToolOutput :=
  if String.eqb name "signal_list_chats" then
    chats <~ listChats (arg_chats args) (arg_include_empty args) ;;
    mret (ChatList chats)
  else if String.eqb name "signal_get_chat_messages" then
    let chatName := arg_chat_name args in
    if negb (provided chatName) then
      mthrow (Throw InvalidRequest "chat_name is required")
    else
      messages <~ getChatMessages (text_of chatName) (arg_limit args) (arg_offset args) ;;
      mret (MessageList messages)
  else if String.eqb name "signal_search_chat" then
    let chatName := arg_chat_name args in
    let query := arg_query args in
    if negb (provided chatName) then
      mthrow (Throw InvalidRequest "chat_name is required")
    else if negb (provided query) then
      mthrow (Throw InvalidRequest "query is required")
    else
      messages <~ searchChat (text_of chatName) (text_of query) (arg_limit args) ;;
      mret (MessageList messages)
  else mthrow (Throw InvalidRequest ("Unknown tool: " +++ name)).

(** A tool call: a fresh instance, the operation, and [db.close()] in the
    [finally] block.  The instance the call leaves behind is returned next
    to the outcome ([None] when the constructor threw). *)
Definition callTool (name : string) (args : ToolArgs)
  : option SignalDatabase * result ToolOutput :=
  let sourceDir := or_optional (arg_source_dir args) (env_SIGNAL_SOURCE_DIR host) in
  let key := or_optional (arg_key args) (env_SIGNAL_KEY host) in
  match constructor sourceDir None key with
  | Err e => (None, Err e)
  | Ok db =>
      let (db', r) := finally (dispatch name args) close db in
      (Some db', r)
  end.

(** The message the handler's [catch] shows for an error message. *)
Definition userMessage (errorMessage : string) : string :=
  if includes errorMessage "database not found" then
    "Signal database not found. Make sure Signal Desktop is installed and has been "
    +++ "run at least once. " +++ errorMessage
  else if includes errorMessage "encryption key" || includes errorMessage "SQLITE_NOTADB" then
    "Could not decrypt Signal database. On macOS, make sure Signal Desktop has been "
    +++ "opened at least once so the key is stored in Keychain. On other platforms, "
    +++ "you may need to provide the encryption key. " +++ errorMessage
  else if includes errorMessage "SQLITE_BUSY" || includes errorMessage "database is locked" then
    "Signal database is locked. Please close Signal Desktop before accessing messages. "
    +++ errorMessage
  else errorMessage.

End Program.

(** The key blob the reference cipher produces for a password and a
    plaintext: the version tag, then the AES-128-CBC encryption of the
    padded plaintext under the key PBKDF2 derives from the password with
    salt "saltysalt", 1003 iterations and SHA-1, and an IV of 16 spaces. *)
Definition reference_key_blob (node : Runtime) (enc : Buffer -> Buffer -> Buffer)
    (password plaintext : string) : Buffer :=
  Buffer_from "v10"
  ++ cbc_encrypt enc
       (pbkdf2Sync node password (Buffer_from "saltysalt") 1003 16 "sha1")
       (Buffer_alloc 16 x20)
       (Buffer_from plaintext).

Definition is_Ok {A} (r : result A) : bool :=
  match r with
  | Ok _ => true
  | Err _ => false
  end.

(** Rows in non-increasing order of a key: every row is followed only by
    rows whose key is not larger. *)
Definition descending {A} (key : A -> Z) (rows : list A) : Prop :=
  StronglySorted (fun a b => key b <= key a) rows.

(** The name the repository methods hand to [formatMessage]:
    [contactName || "Unknown"]. *)
Definition shown_name (node : Runtime) (conversation : ConversationRow) : jsval :=
  js_or (displayName node conversation) (JStr "Unknown").

(** [out] is the list of the projections of [rows], row by row. *)
Definition formatted (node : Runtime) (this : SignalDatabase) (contactName : jsval)
    (rows : list MessageRow) (out : list FormattedMessage) : Prop :=
  Forall2 (fun m fm => formatMessage node this m contactName = Ok fm) rows out.

(** Every row of the list can be projected: its time value is in the range
    of [Date] and its payload does not parse to [null]. *)
Definition projectable (node : Runtime) (this : SignalDatabase) (contactName : jsval)
    (rows : list MessageRow) : bool :=
  forallb (fun m => is_Ok (formatMessage node this m contactName)) rows.

(** The row has a body (the column is not NULL). *)
Definition has_body (m : MessageRow) : bool :=
  match msg_body m with
  | Some _ => true
  | None => false
  end.

(** Literal search up to ASCII case, on characters as the LIKE operator
    reads them: [needle] occurs in [haystack]. *)
Fixpoint starts_with_nocase (needle haystack : list Z) : bool :=
  match needle, haystack with
  | [], _ => true
  | n :: needle', h :: haystack' =>
      same_char n h && starts_with_nocase needle' haystack'
  | _ :: _, [] => false
  end.

Fixpoint contains_nocase (needle haystack : list Z) : bool :=
  starts_with_nocase needle haystack
  || match haystack with
     | [] => false
     | _ :: haystack' => contains_nocase needle haystack'
     end.

(** The query has no byte the LIKE operator reads as a wildcard or as the
    end of the pattern: no percent sign, no underscore, no NUL. *)
Definition wildcard_free (query : list byte) : Prop :=
  Forall (fun c => c <> x25 /\ c <> x5f /\ c <> x00) query.

(** The text of the response the handler's [catch] answers with. *)
Definition errorResponse (error : exn) : string :=
  "Error: " +++ userMessage (message error).

(** The characters of the body, up to its first NUL, contain the
    characters of the text, up to ASCII case. *)
Definition body_contains (text : string) (m : MessageRow) : bool :=
  match msg_body m with
  | Some b => contains_nocase (sql_chars text) (sql_chars b)
  | None => false
  end.

(** The WHERE clause of [searchChat] on the body of a row, for a pattern
    the LIKE operator accepts. *)
Definition body_like (query : string) (m : MessageRow) : bool :=
  match msg_body m with
  | Some b => like (sql_chars ("%" +++ query +++ "%")) (sql_chars b)
  | None => false
  end.

(** The pattern [searchChat] builds from the query is within the length the
    LIKE operator accepts. *)
Definition pattern_fits (query : string) : Prop :=
  Z.of_nat (String.length query) + 2 <= 50000.

(** The numbers the engine reads as an INTEGER when they are spliced into
    the text of a query. *)
Definition sql_range (z : Z) : Prop := - 2 ^ 63 < z < 2 ^ 63.

Definition z_out_of_range (z : Z) : Prop := z <= - 2 ^ 63 \/ 2 ^ 63 <= z.





(** The shape every projected message has: a sender that is not empty, a
    list of reactions, a quote and a sticker that are a value of the payload
    or the empty string, and the two-valued attachment marker. *)
Definition well_shaped (fm : FormattedMessage) : Prop :=
  truthy (sender fm) = true
  /\ truthy (reactions fm) = true
  /\ (truthy (quote fm) = true \/ quote fm = JStr EmptyString)
  /\ (truthy (sticker fm) = true \/ sticker fm = JStr EmptyString)
  /\ (attachments fm = "yes" \/ attachments fm = EmptyString).

(** ** A concrete runtime and concrete hosts

    Used to run the program on explicit inputs.  Dates and paths are
    computed as Node computes them; [JSON.parse] is given by its value on the
    texts the examples store; the block cipher is a stand-in with the one
    property the decipher relies on. *)

Definition digit (n : Z) : string :=
  String (Ascii.ascii_of_N (48 + Z.to_N n)) EmptyString.

Definition pad2 (n : Z) : string := digit (n / 10 mod 10) +++ digit (n mod 10).
Definition pad3 (n : Z) : string := digit (n / 100 mod 10) +++ pad2 n.
Definition pad4 (n : Z) : string := pad2 (n / 100) +++ pad2 n.
Definition pad6 (n : Z) : string := pad2 (n / 10000) +++ pad4 n.

(** Year, month and day of a day number counted from 1970-01-01. *)
Definition civil_from_days (days : Z) : Z * Z * Z :=
  let z := days + 719468 in
  let era := z / 146097 in
  let doe := z - era * 146097 in
  let yoe := (doe - doe / 1460 + doe / 36524 - doe / 146096) / 365 in
  let doy := doe - (365 * yoe + yoe / 4 - yoe / 100) in
  let mp := (5 * doy + 2) / 153 in
  let d := doy - (153 * mp + 2) / 5 + 1 in
  let m := if mp <? 10 then mp + 3 else mp - 9 in
  let y := yoe + era * 400 + (if m <=? 2 then 1 else 0) in
  (y, m, d).

(** [new Date(t).toISOString()] for an integral time value. *)
Definition Date_toISOString (t : Z) : result string :=
  if 8640000000000000 <? Z.abs t then Err (lib_error "Invalid time value")
  else
    let '(y, m, d) := civil_from_days (t / 86400000) in
    let ms := t mod 86400000 in
    let year :=
      if (0 <=? y) && (y <=? 9999) then pad4 y
      else if y <? 0 then "-" +++ pad6 (- y) else "+" +++ pad6 y in
    Ok (year +++ "-" +++ pad2 m +++ "-" +++ pad2 d +++ "T"
        +++ pad2 (ms / 3600000) +++ ":" +++ pad2 (ms / 60000 mod 60) +++ ":"
        +++ pad2 (ms / 1000 mod 60) +++ "." +++ pad3 (ms mod 1000) +++ "Z").

(** [path.join] on segments that need no normalisation. *)
Fixpoint posix_join (segments : list string) : string :=
  match segments with
  | [] => "."
  | [s] => s
  | s :: rest => s +++ "/" +++ posix_join rest
  end.

(** [JSON.parse] on the texts the examples use; every other text is treated
    as a syntax error. *)
Definition config_with_key : string :=
  "{" +++ dquote +++ "key" +++ dquote +++ ":" +++ dquote
  +++ "00112233445566778899aabbccddeeff" +++ dquote +++ "}".

Definition owner_item : string :=
  "{" +++ dquote +++ "value" +++ dquote +++ ":" +++ dquote
  +++ "owner-aci" +++ dquote +++ "}".

Definition stand_in_encrypt (key block : Buffer) : Buffer := xor_Buffer block key.

Definition stand_in_pbkdf2 (password : string) (salt : Buffer) (iterations keylen : nat)
    (digest : string) : Buffer :=
  firstn keylen (list_byte_of_string password ++ salt ++ repeat x00 keylen).

(** The encrypted key of the sample config: the blob of the reference cipher
    for the keychain password "safe storage" and a database key. *)
Definition sample_encryptedKey : string :=
  Buffer_toString_hex
    (Buffer_from "v10"
     ++ cbc_encrypt stand_in_encrypt
          (stand_in_pbkdf2 "safe storage" (Buffer_from "saltysalt") 1003 16 "sha1")
          (Buffer_alloc 16 x20)
          (Buffer_from "ffeeddccbbaa99887766554433221100")).

Definition config_with_encryptedKey : string :=
  "{" +++ dquote +++ "encryptedKey" +++ dquote +++ ":" +++ dquote
  +++ sample_encryptedKey +++ dquote +++ "}".

Definition sample_JSON_parse (text : string) : result jsval :=
  if String.eqb text "null" then Ok JNull
  else if String.eqb text "{}" then Ok (JObj [])
  else if String.eqb text config_with_key then
    Ok (JObj [("key", JStr "00112233445566778899aabbccddeeff")])
  else if String.eqb text config_with_encryptedKey then
    Ok (JObj [("encryptedKey", JStr sample_encryptedKey)])
  else if String.eqb text owner_item then
    Ok (JObj [("value", JStr "owner-aci")])
  else Err (lib_error "Unexpected token in JSON").

(** [Buffer.from] on an array of integers: each one modulo 256.  Every
    other value that is not a string is treated as the TypeError the builtin
    raises for a number. *)
Fixpoint bytes_of_integers (items : list jsval) : option Buffer :=
  match items with
  | [] => Some []
  | JNum n :: rest =>
      match Byte.of_N (Z.to_N (n mod 256)), bytes_of_integers rest with
      | Some b, Some bs => Some (b :: bs)
      | _, _ => None
      end
  | _ :: _ => None
  end.

Definition sample_Buffer_from_object (v : jsval) : result Buffer :=
  match v with
  | JArr items =>
      match bytes_of_integers items with
      | Some bs => Ok bs
      | None => Err (lib_error "The first argument must be of type string")
      end
  | _ => Err (lib_error "The first argument must be of type string")
  end.

Definition sample_node : Runtime := {|
  JSON_parse := sample_JSON_parse;
  toISOString := Date_toISOString;
  join := posix_join;
  pbkdf2Sync := stand_in_pbkdf2;
  aes128_decrypt_block := fun key block => xor_Buffer block key;
  Buffer_toString_utf8 := string_of_list_byte;
  Buffer_from_object := sample_Buffer_from_object
|}.

Definition signal_dir : string := "/home/alice/.config/Signal".
Definition signal_db : string := "/home/alice/.config/Signal/sql/db.sqlite".
Definition signal_config : string := "/home/alice/.config/Signal/config.json".

(** A machine with a Signal directory: the operating system, the SIGNAL_KEY
    variable, the text of config.json if the file exists, the answer of the
    keychain, the answer of the engine to the probe query, the [uuid_id]
    item and the two tables. *)
Definition a_host (os : string) (env_key : option string) (config : option string)
    (keychain : result string) (probe : result unit)
    (uuid_item : option (option string))
    (convs : list ConversationRow) (msgs : list MessageRow) : Host := {|
  platform := os;
  homedir := "/home/alice";
  env_SIGNAL_SOURCE_DIR := Some signal_dir;
  env_SIGNAL_KEY := env_key;
  existsSync := fun path =>
    String.eqb path signal_db
    || (String.eqb path signal_config
        && match config with Some _ => true | None => false end);
  readFileSync := fun path =>
    match config with
    | Some text =>
        if String.eqb path signal_config then Ok text
        else Err (lib_error "ENOENT: no such file or directory")
    | None => Err (lib_error "ENOENT: no such file or directory")
    end;
  security_find_generic_password := keychain;
  Database_new := fun path =>
    if String.eqb path signal_db then Ok tt
    else Err (lib_error "unable to open database file");
  Database_pragma := fun _ _ => Ok tt;
  select_1 := fun _ => probe;
  select_uuid_id := fun _ => Ok uuid_item;
  table_conversations := fun _ => Ok convs;
  table_messages := fun _ => Ok msgs
|}.

Definition fresh (key : option string) : SignalDatabase := {|
  password := None; key := key; db := None;
  sourceDir := signal_dir; selfServiceId := JNull
|}.

Definition alice : ConversationRow := {|
  conv_id := "c1"; conv_serviceId := Some "alice-aci"; conv_name := Some "Alice";
  conv_profileName := None; conv_e164 := Some "+15550100"; conv_type := "private";
  conv_json := Some "{}"
|}.

Definition a_message (id : string) (timestamp : Z) (sourceServiceId : option string)
    (body : option string) (type : string) : MessageRow := {|
  msg_id := id; msg_conversationId := "c1"; msg_timestamp := timestamp;
  msg_sentAt := Some timestamp; msg_source := None;
  msg_sourceServiceId := sourceServiceId; msg_body := body;
  msg_json := Some "{}"; msg_hasAttachments := false; msg_type := type
|}.

Definition no_keychain : result string :=
  Err (lib_error "Command failed: security find-generic-password").

(** A Linux machine, key passed explicitly, database readable. *)
Definition linux_host (uuid_item : option (option string))
    (msgs : list MessageRow) : Host :=
  a_host "linux" None None no_keychain (Ok tt) uuid_item [alice] msgs.

Definition explicit_key : option string := Some "00112233445566778899aabbccddeeff".

(** Three messages of the conversation with Alice, stored oldest first: one
    received, one sent, and a received attachment without a body. *)
Definition m_hello : MessageRow :=
  a_message "m1" 1700000000000 (Some "alice-aci") (Some "hello") "incoming".
Definition m_reply : MessageRow :=
  a_message "m2" 1700000060000 None (Some "hi Alice") "outgoing".
Definition m_photo : MessageRow :=
  a_message "m3" 1700000120000 (Some "alice-aci") None "incoming".

Definition three_messages : list MessageRow := [m_hello; m_reply; m_photo].

Definition opened_handle : Handle := {|
  handle_path := signal_db;
  handle_pragmas :=
    [ PragmaKey (JStr "00112233445566778899aabbccddeeff");
      PragmaSet "cipher_page_size = 4096";
      PragmaSet "kdf_iter = 64000";
      PragmaSet "cipher_hmac_algorithm = HMAC_SHA512";
      PragmaSet "cipher_kdf_algorithm = PBKDF2_HMAC_SHA512" ]
|}.

(** The instance after a successful [open] with the explicit key, on a
    database whose [uuid_id] item names the owner. *)
Definition opened (self : jsval) : SignalDatabase := {|
  password := None; key := explicit_key; db := Some opened_handle;
  sourceDir := signal_dir; selfServiceId := self
|}.

Definition formatted_message (ts : string) (who body : string) : FormattedMessage := {|
  date := ts; sender := JStr who; body := body;
  quote := JStr EmptyString; sticker := JStr EmptyString;
  reactions := JArr []; attachments := EmptyString
|}.

(** The database of the owner "owner-aci" with the three messages. *)
Definition alice_host : Host := linux_host (Some (Some owner_item)) three_messages.

(** A database without the [uuid_id] item, holding the first two messages. *)
Definition two_message_host : Host := linux_host None [m_hello; m_reply].

(** A message that carries the owner's identifier and is stored with the
    tag "incoming". *)
Definition m_synced : MessageRow :=
  a_message "m4" 1700000180000 (Some "owner-aci") (Some "sent from my phone") "incoming".

(** A message without a sender service identifier, received from a contact
    known by phone number only. *)
Definition m_unidentified : MessageRow := {|
  msg_id := "m5"; msg_conversationId := "c1"; msg_timestamp := 1700000240000;
  msg_sentAt := Some 1700000240000; msg_source := Some "+15550100";
  msg_sourceServiceId := None; msg_body := Some "are you there?";
  msg_json := Some "{}"; msg_hasAttachments := false; msg_type := "incoming"
|}.

(** A database that has no [uuid_id] item and holds that message. *)
Definition ownerless_host : Host := linux_host None [m_unidentified].

(** A message that mentions a room number but no percentage. *)
Definition m_room : MessageRow :=
  a_message "m6" 1700000300000 (Some "alice-aci") (Some "room 501") "incoming".

Definition room_host : Host := linux_host (Some (Some owner_item)) [m_hello; m_room].

(** Machines on which the engine rejects the probe query: the key does not
    decrypt the file, or another process holds the database. *)
Definition wrong_key_host : Host :=
  a_host "linux" None None no_keychain (Err (lib_error "file is not a database"))
    None [alice] three_messages.

Definition locked_host : Host :=
  a_host "linux" None None no_keychain (Err (lib_error "database is locked"))
    None [alice] three_messages.

(** The instance a failed probe leaves behind: the connection is still in
    the [db] field. *)
Definition left_open : SignalDatabase := opened JNull.

(** Machines without an explicit key: config.json holds the plain key; on
    macOS config.json holds the encrypted key and the keychain answers with
    the password and a line break; there is no config.json. *)
Definition config_key_host : Host :=
  a_host "linux" None (Some config_with_key) no_keychain (Ok tt) None [alice] three_messages.

Definition keychain_host : Host :=
  a_host "darwin" None (Some config_with_encryptedKey) (Ok ("safe storage" +++ newline))
    (Ok tt) None [alice] three_messages.

Definition keyless_host : Host :=
  a_host "linux" None None no_keychain (Ok tt) None [alice] three_messages.

(** A group nobody has written to yet, and an internal row that is neither a
    private chat nor a group. *)
Definition book_club : ConversationRow := {|
  conv_id := "c2"; conv_serviceId := None; conv_name := Some "Book club";
  conv_profileName := None; conv_e164 := None; conv_type := "group";
  conv_json := Some "{}"
|}.

Definition release_notes : ConversationRow := {|
  conv_id := "c3"; conv_serviceId := None; conv_name := Some "Signal";
  conv_profileName := None; conv_e164 := None; conv_type := "system";
  conv_json := None
|}.

Definition three_chat_host : Host :=
  a_host "linux" None None no_keychain (Ok tt) (Some (Some owner_item))
    [alice; book_club; release_notes] three_messages.

(** A Mac whose keychain refuses the lookup, as in a sandbox. *)
Definition sandboxed_mac : Host :=
  a_host "darwin" None (Some config_with_encryptedKey) no_keychain (Ok tt)
    None [alice] three_messages.

(** A message row whose payload column is NULL. *)
Definition m_bare : MessageRow := {|
  msg_id := "m7"; msg_conversationId := "c1"; msg_timestamp := 1700000000000;
  msg_sentAt := None; msg_source := None;
  msg_sourceServiceId := Some "alice-aci"; msg_body := None;
  msg_json := None; msg_hasAttachments := true; msg_type := "incoming"
|}.

(** A machine with no Signal directory configured, running an operating
    system the server does not know. *)
Definition bsd_host : Host := {|
  platform := "freebsd";
  homedir := "/home/alice";
  env_SIGNAL_SOURCE_DIR := None;
  env_SIGNAL_KEY := None;
  existsSync := fun _ => false;
  readFileSync := fun _ => Err (lib_error "ENOENT: no such file or directory");
  security_find_generic_password := no_keychain;
  Database_new := fun _ => Err (lib_error "unable to open database file");
  Database_pragma := fun _ _ => Ok tt;
  select_1 := fun _ => Ok tt;
  select_uuid_id := fun _ => Ok None;
  table_conversations := fun _ => Ok [];
  table_messages := fun _ => Ok []
|}.

Definition no_args : ToolArgs := {|
  arg_source_dir := None; arg_key := None; arg_chats := None;
  arg_include_empty := None; arg_chat_name := None; arg_query := None;
  arg_limit := None; arg_offset := None
|}.

(** Arguments that name a chat and a directory where no database is. *)
Definition elsewhere_args : ToolArgs := {|
  arg_source_dir := Some "/tmp/empty"; arg_key := explicit_key; arg_chats := None;
  arg_include_empty := None; arg_chat_name := Some "Alice"; arg_query := Some "hello";
  arg_limit := None; arg_offset := None
|}.

Definition elsewhere : SignalDatabase := {|
  password := None; key := explicit_key; db := None;
  sourceDir := "/tmp/empty"; selfServiceId := JNull
|}.

(** A conversation known by its profile name only, with an empty name and a
    payload that is not JSON. *)
Definition carol : ConversationRow := {|
  conv_id := "c4"; conv_serviceId := Some "carol-aci"; conv_name := Some EmptyString;
  conv_profileName := Some "Carol"; conv_e164 := None; conv_type := "private";
  conv_json := Some "not json"
|}.

(** A conversation without any name and with a payload that is not JSON. *)
Definition nameless : ConversationRow := {|
  conv_id := "c5"; conv_serviceId := None; conv_name := None;
  conv_profileName := None; conv_e164 := Some "+15550111"; conv_type := "private";
  conv_json := Some "not json"
|}.

(** Two messages of a group, from two members. *)
Definition g_first : MessageRow := {|
  msg_id := "g1"; msg_conversationId := "c2"; msg_timestamp := 1700000400000;
  msg_sentAt := None; msg_source := None; msg_sourceServiceId := Some "alice-aci";
  msg_body := Some "chapter 3 tonight"; msg_json := None;
  msg_hasAttachments := false; msg_type := "incoming"
|}.

Definition g_second : MessageRow := {|
  msg_id := "g2"; msg_conversationId := "c2"; msg_timestamp := 1700000460000;
  msg_sentAt := None; msg_source := None; msg_sourceServiceId := Some "carol-aci";
  msg_body := Some "I am in"; msg_json := None;
  msg_hasAttachments := false; msg_type := "incoming"
|}.

Definition group_host : Host :=
  a_host "linux" None None no_keychain (Ok tt) (Some (Some owner_item))
    [alice; book_club] [g_first; g_second].

(** A message that carries the owner's identifier and whose payload column
    holds the JSON text [null]. *)
Definition m_null_payload : MessageRow := {|
  msg_id := "m8"; msg_conversationId := "c1"; msg_timestamp := 1700000500000;
  msg_sentAt := Some 1700000500000; msg_source := None;
  msg_sourceServiceId := Some "owner-aci"; msg_body := Some "note to self";
  msg_json := Some "null"; msg_hasAttachments := false; msg_type := "outgoing"
|}.

(** A Mac whose Signal directory was restored under a folder named after the
    keychain, with a config.json the server may not read. *)
Definition restored_dir : string := "/Users/alice/Keychain backup/Signal".

Definition unreadable_config : exn :=
  lib_error ("EACCES: permission denied, open "
             +++ "'/Users/alice/Keychain backup/Signal/config.json'").

Definition restored_mac : Host := {|
  platform := "darwin";
  homedir := "/Users/alice";
  env_SIGNAL_SOURCE_DIR := Some restored_dir;
  env_SIGNAL_KEY := None;
  existsSync := fun path =>
    String.eqb path "/Users/alice/Keychain backup/Signal/sql/db.sqlite"
    || String.eqb path "/Users/alice/Keychain backup/Signal/config.json";
  readFileSync := fun _ => Err unreadable_config;
  security_find_generic_password := no_keychain;
  Database_new := fun _ => Ok tt;
  Database_pragma := fun _ _ => Ok tt;
  select_1 := fun _ => Ok tt;
  select_uuid_id := fun _ => Ok None;
  table_conversations := fun _ => Ok [alice];
  table_messages := fun _ => Ok three_messages
|}.

Definition restored : SignalDatabase := {|
  password := None; key := None; db := None;
  sourceDir := restored_dir; selfServiceId := JNull
|}.





(** * Properties *)

(** ** Buffers and the hexadecimal codec *)

Lemma Buffer_equals_refl (b : Buffer) : Buffer_equals b b = true.
Proof.
  induction b as [|x b IH]; simpl; [reflexivity|].
  now rewrite (Byte.byte_dec_lb (eq_refl x)), IH.
Qed.

Lemma Buffer_equals_eq (a b : Buffer) : Buffer_equals a b = true -> a = b.
Proof.
  revert b; induction a as [|x a IH]; intros [|y b]; simpl; try discriminate; auto.
  intros H. apply andb_true_iff in H as [Hxy Hab].
  apply Byte.byte_dec_bl in Hxy. f_equal; auto.
Qed.

Lemma Buffer_equals_neq (a b : Buffer) : a <> b -> Buffer_equals a b = false.
Proof.
  intros Hne. destruct (Buffer_equals a b) eqn:E; [|reflexivity].
  now apply Buffer_equals_eq in E.
Qed.

Lemma hex_decode_pair (x : byte) (rest : list byte) :
  hex_decode (hex_digit (Byte.to_N x / 16) :: hex_digit (Byte.to_N x mod 16) :: rest)
  = x :: hex_decode rest.
Proof. destruct x; reflexivity. Qed.

Lemma hex_decode_encode (b : Buffer) : hex_decode (hex_encode b) = b.
Proof.
  induction b as [|x b IH]; [reflexivity|].
  unfold hex_encode in *. cbn [flat_map app].
  now rewrite hex_decode_pair, IH.
Qed.

Lemma Buffer_from_hex_toString (b : Buffer) :
  Buffer_from_hex (Buffer_toString_hex b) = b.
Proof.
  unfold Buffer_from_hex, Buffer_toString_hex.
  now rewrite list_byte_of_string_of_list_byte, hex_decode_encode.
Qed.

(** ** Exclusive or and CBC chaining *)

Lemma xor_byte_cancel (a b : byte) : xor_byte (xor_byte a b) b = a.
Proof.
  unfold xor_byte.
  rewrite <- (Byte.of_bits_to_bits a) at 2.
  destruct (Byte.to_bits a) as (a0 & a1 & a2 & a3 & a4 & a5 & a6 & a7).
  destruct (Byte.to_bits b) as (b0 & b1 & b2 & b3 & b4 & b5 & b6 & b7).
  rewrite Byte.to_bits_of_bits.
  now rewrite !xorb_assoc, !xorb_nilpotent, !xorb_false_r.
Qed.

Lemma xor_Buffer_cancel (p prev : Buffer) :
  length p = length prev -> xor_Buffer (xor_Buffer p prev) prev = p.
Proof.
  revert prev; induction p as [|x p IH]; intros [|y prev]; simpl; try discriminate; auto.
  intros H. injection H as H. now rewrite xor_byte_cancel, IH.
Qed.

Lemma xor_Buffer_length (p prev : Buffer) :
  length p = length prev -> length (xor_Buffer p prev) = length p.
Proof.
  revert prev; induction p as [|x p IH]; intros [|y prev]; simpl; try discriminate; auto.
Qed.

Lemma blocks_concat (bs : list Buffer) (rest : Buffer) :
  Forall (fun b => length b = block_size) bs ->
  blocks (length bs) (List.concat bs ++ rest) = bs.
Proof.
  induction 1 as [|b bs Hb _ IH]; [reflexivity|].
  cbn [length blocks List.concat]. rewrite <- app_assoc.
  assert (Hfirst : firstn block_size (b ++ List.concat bs ++ rest) = b).
  { rewrite <- Hb, firstn_app, Nat.sub_diag, firstn_all, firstn_O. apply app_nil_r. }
  assert (Hskip : skipn block_size (b ++ List.concat bs ++ rest) = List.concat bs ++ rest).
  { rewrite <- Hb, skipn_app, Nat.sub_diag, skipn_all, skipn_O. reflexivity. }
  now rewrite Hfirst, Hskip, IH.
Qed.

Lemma concat_blocks (n : nat) (b : Buffer) :
  length b = (n * block_size)%nat -> List.concat (blocks n b) = b.
Proof.
  revert b; induction n as [|n IH]; intros b Hb.
  - destruct b; [reflexivity|discriminate].
  - cbn [blocks List.concat]. rewrite IH.
    + apply firstn_skipn.
    + rewrite length_skipn, Hb. unfold block_size. lia.
Qed.

Lemma blocks_Forall (n : nat) (b : Buffer) :
  length b = (n * block_size)%nat ->
  Forall (fun c => length c = block_size) (blocks n b).
Proof.
  revert b; induction n as [|n IH]; intros b Hb; cbn [blocks]; constructor.
  - rewrite length_firstn, Hb. unfold block_size. lia.
  - apply IH. rewrite length_skipn, Hb. unfold block_size. lia.
Qed.

Lemma blocks_length (n : nat) (b : Buffer) : length (blocks n b) = n.
Proof. revert b; induction n as [|n IH]; intros b; simpl; auto. Qed.

Lemma cbc_encrypt_blocks_length enc key prev (ps : list Buffer) :
  length (cbc_encrypt_blocks enc key prev ps) = length ps.
Proof. revert prev; induction ps as [|p ps IH]; intros prev; simpl; auto. Qed.

Lemma cbc_encrypt_blocks_Forall enc key prev (ps : list Buffer) :
  (forall b, length b = block_size -> length (enc key b) = block_size) ->
  length prev = block_size ->
  Forall (fun p => length p = block_size) ps ->
  Forall (fun c => length c = block_size) (cbc_encrypt_blocks enc key prev ps).
Proof.
  intros Henc Hprev Hps. revert prev Hprev.
  induction Hps as [|p ps Hp _ IH]; intros prev Hprev; cbn [cbc_encrypt_blocks];
    constructor.
  - apply Henc. rewrite xor_Buffer_length; congruence.
  - apply IH, Henc. rewrite xor_Buffer_length; congruence.
Qed.

(** CBC decryption undoes CBC encryption, block by block, once the block
    decryption undoes the block encryption. *)
Lemma cbc_decrypt_encrypt_blocks node enc key prev (ps : list Buffer) :
  (forall b, length b = block_size -> length (enc key b) = block_size) ->
  (forall b, length b = block_size -> aes128_decrypt_block node key (enc key b) = b) ->
  length prev = block_size ->
  Forall (fun p => length p = block_size) ps ->
  cbc_decrypt_blocks node key prev (cbc_encrypt_blocks enc key prev ps)
  = List.concat ps.
Proof.
  intros Hlen Hinv Hprev Hps. revert prev Hprev.
  induction Hps as [|p ps Hp _ IH]; intros prev Hprev; [reflexivity|].
  cbn [cbc_encrypt_blocks cbc_decrypt_blocks List.concat].
  assert (Hx : length (xor_Buffer p prev) = block_size)
    by (rewrite xor_Buffer_length; congruence).
  rewrite Hinv by exact Hx.
  rewrite xor_Buffer_cancel by congruence.
  f_equal. apply IH, Hlen, Hx.
Qed.

(** ** PKCS padding *)

Lemma pad_byte (n : nat) :
  (n <= 255)%nat ->
  exists b, Byte.of_N (N.of_nat n) = Some b /\ N.to_nat (Byte.to_N b) = n.
Proof.
  intros Hn. destruct (Byte.of_N (N.of_nat n)) as [b|] eqn:E.
  - exists b. split; [reflexivity|].
    apply Byte.to_of_N in E. rewrite E. apply Nat2N.id.
  - apply Byte.of_N_None_iff in E. lia.
Qed.

Lemma pkcs_pad_spec (plain : Buffer) :
  exists b n,
    pkcs_pad plain = plain ++ repeat b n
    /\ N.to_nat (Byte.to_N b) = n
    /\ (1 <= n <= block_size)%nat
    /\ (length plain + n = (length plain / block_size + 1) * block_size)%nat.
Proof.
  unfold pkcs_pad.
  set (n := (block_size - length plain mod block_size)%nat).
  assert (Hmod : (length plain mod block_size < block_size)%nat)
    by (apply Nat.mod_upper_bound; discriminate).
  assert (Hdiv := Nat.div_mod_eq (length plain) block_size).
  assert (Hn : (1 <= n <= block_size)%nat) by (subst n; lia).
  destruct (pad_byte n) as (b & Hb & Hto); [unfold block_size in *; lia|].
  rewrite Hb. exists b, n. repeat split; try tauto. subst n. lia.
Qed.

Lemma pkcs_unpad_pad (plain : Buffer) : pkcs_unpad (pkcs_pad plain) = Ok plain.
Proof.
  destruct (pkcs_pad_spec plain) as (b & n & -> & Hto & Hn & _).
  unfold pkcs_unpad.
  assert (Hrev : exists tl, rev (plain ++ repeat b n) = b :: tl).
  { destruct n as [|m]; [lia|].
    rewrite rev_app_distr, rev_repeat. cbn [repeat app]. eauto. }
  destruct Hrev as (tl & ->). cbv beta iota zeta.
  rewrite Hto, length_app, repeat_length.
  replace (length plain + n - n)%nat with (length plain) by lia.
  rewrite skipn_app, Nat.sub_diag, skipn_all, skipn_O. cbn [app].
  rewrite firstn_app, Nat.sub_diag, firstn_all, firstn_O, app_nil_r.
  rewrite Buffer_equals_refl.
  destruct (Nat.leb_spec 1 n); [|lia].
  destruct (Nat.leb_spec n block_size); [|lia].
  reflexivity.
Qed.

Lemma concat_length_blocks (cs : list Buffer) :
  Forall (fun c => length c = block_size) cs ->
  length (List.concat cs) = (length cs * block_size)%nat.
Proof.
  induction 1 as [|c cs Hc _ IH]; [reflexivity|].
  cbn [List.concat length]. rewrite length_app, IH, Hc. lia.
Qed.

Lemma pkcs_pad_length (plain : Buffer) :
  length (pkcs_pad plain) = ((length plain / block_size + 1) * block_size)%nat.
Proof.
  destruct (pkcs_pad_spec plain) as (b & n & -> & _ & _ & Hlen).
  now rewrite length_app, repeat_length.
Qed.

(** The decipher undoes the reference encryption. *)
Lemma aes_128_cbc_decipher_encrypt node enc (key iv plain : Buffer) :
  (forall b, length b = block_size -> length (enc key b) = block_size) ->
  (forall b, length b = block_size -> aes128_decrypt_block node key (enc key b) = b) ->
  length key = 16%nat ->
  length iv = block_size ->
  aes_128_cbc_decipher node key iv (cbc_encrypt enc key iv plain) = Ok plain.
Proof.
  intros Hlen Hinv Hkey Hiv.
  unfold aes_128_cbc_decipher, cbc_encrypt.
  set (padded := pkcs_pad plain).
  set (n := (length plain / block_size + 1)%nat).
  assert (Hpad : length padded = (n * block_size)%nat) by apply pkcs_pad_length.
  assert (Hn : (length padded / block_size)%nat = n)
    by (rewrite Hpad; apply Nat.div_mul; discriminate).
  rewrite Hn.
  set (cs := cbc_encrypt_blocks enc key iv (blocks n padded)).
  assert (Hcs : Forall (fun c => length c = block_size) cs)
    by (apply cbc_encrypt_blocks_Forall; auto using blocks_Forall).
  assert (Hcount : length cs = n)
    by (unfold cs; now rewrite cbc_encrypt_blocks_length, blocks_length).
  rewrite Hkey, Hiv, (concat_length_blocks cs Hcs), Hcount.
  rewrite Nat.Div0.mod_mul, Nat.div_mul by discriminate.
  cbn [Nat.eqb negb block_size].
  rewrite <- Hcount at 1.
  rewrite <- (app_nil_r (List.concat cs)), (blocks_concat cs [] Hcs).
  unfold cs.
  rewrite cbc_decrypt_encrypt_blocks by auto using blocks_Forall.
  rewrite concat_blocks by exact Hpad.
  apply pkcs_unpad_pad.
Qed.

Lemma subarray_tag (tag rest : Buffer) :
  subarray (tag ++ rest) 0 (length tag) = tag.
Proof.
  unfold subarray. rewrite Nat.sub_0_r, skipn_O, firstn_app, Nat.sub_diag, firstn_all, firstn_O.
  apply app_nil_r.
Qed.

Lemma subarray_from_tag (tag rest : Buffer) :
  subarray_from (tag ++ rest) (length tag) = rest.
Proof.
  unfold subarray_from. now rewrite skipn_app, Nat.sub_diag, skipn_all, skipn_O.
Qed.

(** ** Ordering, LIMIT and OFFSET *)

Lemma insert_desc_perm {A} (key : A -> Z) (x : A) (l : list A) :
  Permutation (x :: l) (insert_desc key x l).
Proof.
  induction l as [|y l IH]; cbn [insert_desc]; [reflexivity|].
  destruct (key y <=? key x); [reflexivity|].
  rewrite perm_swap. now constructor.
Qed.

Lemma order_by_desc_perm {A} (key : A -> Z) (l : list A) :
  Permutation l (order_by_desc key l).
Proof.
  induction l as [|x l IH]; cbn [order_by_desc]; [constructor|].
  rewrite <- insert_desc_perm. now constructor.
Qed.

Lemma order_by_desc_length {A} (key : A -> Z) (l : list A) :
  length (order_by_desc key l) = length l.
Proof. symmetry. apply Permutation_length, order_by_desc_perm. Qed.

Lemma order_by_desc_In {A} (key : A -> Z) (l : list A) (x : A) :
  In x (order_by_desc key l) <-> In x l.
Proof.
  split; apply Permutation_in; [symmetry|]; apply order_by_desc_perm.
Qed.

Lemma insert_desc_descending {A} (key : A -> Z) (x : A) (l : list A) :
  descending key l -> descending key (insert_desc key x l).
Proof.
  unfold descending. induction 1 as [|y l Hl IH Hy]; cbn [insert_desc].
  - repeat constructor.
  - destruct (Z.leb_spec (key y) (key x)) as [Hle|Hgt].
    + constructor; [now constructor|].
      constructor; [lia|].
      eapply Forall_impl; [|exact Hy]. cbn. intros; lia.
    + constructor; [exact IH|].
      eapply Permutation_Forall; [apply insert_desc_perm|].
      constructor; [lia|exact Hy].
Qed.

Lemma order_by_desc_descending {A} (key : A -> Z) (l : list A) :
  descending key (order_by_desc key l).
Proof.
  induction l as [|x l IH]; cbn [order_by_desc].
  - constructor.
  - now apply insert_desc_descending.
Qed.

(** Rows of equal key stay in the order of the table: sorting a table that
    is already in non-increasing order returns it as it is. *)
Lemma order_by_desc_sorted {A} (key : A -> Z) (l : list A) :
  descending key l -> order_by_desc key l = l.
Proof.
  unfold descending. induction 1 as [|x l Hl IH Hx]; [reflexivity|].
  cbn [order_by_desc]. rewrite IH.
  destruct l as [|y l]; [reflexivity|]. cbn [insert_desc].
  inversion Hx as [|? ? Hy _]; subst.
  destruct (Z.leb_spec (key y) (key x)); [reflexivity|lia].
Qed.

Lemma descending_skipn {A} (key : A -> Z) (n : nat) (l : list A) :
  descending key l -> descending key (skipn n l).
Proof.
  unfold descending. revert l; induction n as [|n IH]; intros l Hl; [exact Hl|].
  destruct l as [|x l]; [exact Hl|]. cbn [skipn].
  apply IH. now inversion Hl.
Qed.

Lemma descending_firstn {A} (key : A -> Z) (n : nat) (l : list A) :
  descending key l -> descending key (firstn n l).
Proof.
  unfold descending. revert l; induction n as [|n IH]; intros l Hl; [constructor|].
  destruct l as [|x l]; [constructor|]. cbn [firstn].
  inversion Hl as [|? ? Hl' Hx]; subst. constructor; [now apply IH|].
  apply Forall_forall. intros y Hy.
  rewrite Forall_forall in Hx. apply Hx.
  rewrite <- (firstn_skipn n l). apply in_or_app. now left.
Qed.

Lemma descending_window {A} (key : A -> Z) (limit offset : Z) (l : list A) :
  descending key l -> descending key (sql_window limit offset l).
Proof.
  intros Hl. unfold sql_window.
  destruct (limit <? 0); auto using descending_skipn, descending_firstn.
Qed.

Lemma incl_window {A} (limit offset : Z) (l : list A) :
  incl (sql_window limit offset l) l.
Proof.
  unfold sql_window. intros x Hx.
  assert (Hskip : In x (skipn (Z.to_nat offset) l)).
  { destruct (limit <? 0); [exact Hx|].
    rewrite <- (firstn_skipn (Z.to_nat limit) (skipn _ l)).
    apply in_or_app. now left. }
  rewrite <- (firstn_skipn (Z.to_nat offset) l). apply in_or_app. now right.
Qed.

(** A page of [limit] rows after [offset] rows, out of [length l]. *)
Lemma sql_window_length {A} (limit offset : Z) (l : list A) :
  0 <= limit -> 0 <= offset ->
  Z.of_nat (length (sql_window limit offset l))
  = Z.min limit (Z.max 0 (Z.of_nat (length l) - offset)).
Proof.
  intros Hk Ho. unfold sql_window.
  destruct (Z.ltb_spec limit 0); [lia|].
  rewrite length_firstn, length_skipn. lia.
Qed.

Lemma sql_window_page {A} (limit offset : Z) (l : list A) :
  0 <= limit ->
  sql_window limit offset l = firstn (Z.to_nat limit) (skipn (Z.to_nat offset) l).
Proof.
  intros Hk. unfold sql_window. destruct (Z.ltb_spec limit 0); [lia|reflexivity].
Qed.

Lemma sql_window_unbounded {A} (limit offset : Z) (l : list A) :
  limit < 0 -> sql_window limit offset l = skipn (Z.to_nat offset) l.
Proof.
  intros Hk. unfold sql_window. destruct (Z.ltb_spec limit 0); [reflexivity|lia].
Qed.

Lemma sql_integer_Ok (z : Z) : sql_range z -> sql_integer (Integer z) = Ok z.
Proof.
  unfold sql_range, sql_integer. intros [Hlo Hhi].
  destruct (Z.ltb_spec (- 2 ^ 63) z); [|lia].
  destruct (Z.ltb_spec z (2 ^ 63)); [reflexivity|lia].
Qed.

Lemma sql_integer_range (n : number) (z : Z) :
  sql_integer n = Ok z -> n = Integer z /\ sql_range z.
Proof.
  unfold sql_range, sql_integer. destruct n as [i|f]; [|discriminate].
  destruct (Z.ltb_spec (- 2 ^ 63) i) as [Hlo|_]; [|discriminate].
  destruct (Z.ltb_spec i (2 ^ 63)) as [Hhi|_]; [|discriminate].
  cbn [andb]. intros Heq. injection Heq as <-. auto.
Qed.

Lemma sql_limit_offset_Ok {A} (k o : Z) (l : list A) :
  sql_range k -> sql_range o ->
  sql_limit_offset (Integer k) (Integer o) l = Ok (sql_window k o l).
Proof.
  intros Hk Ho. unfold sql_limit_offset. now rewrite !sql_integer_Ok.
Qed.

Lemma sql_limit_offset_rows {A} (limit offset : number) (l rows : list A) :
  sql_limit_offset limit offset l = Ok rows ->
  exists k o, rows = sql_window k o l.
Proof.
  unfold sql_limit_offset.
  destruct (sql_integer limit) as [k|e]; [|discriminate].
  destruct (sql_integer offset) as [o|e]; [|discriminate].
  intros H. injection H as <-. eauto.
Qed.

(** ** Running a method *)

Lemma mbind_Ok {A B} (m : Method A) (k : A -> Method B) this this' (b : B) :
  mbind m k this = (this', Ok b) ->
  exists a this1, m this = (this1, Ok a) /\ k a this1 = (this', Ok b).
Proof.
  unfold mbind. destruct (m this) as [this1 [a|e]]; [eauto|discriminate].
Qed.

Lemma map_result_Ok {A B} (f : A -> result B) (l : list A) (out : list B) :
  map_result f l = Ok out -> Forall2 (fun x y => f x = Ok y) l out.
Proof.
  revert out; induction l as [|x l IH]; cbn [map_result]; intros out H.
  - injection H as <-. constructor.
  - destruct (f x) as [y|e] eqn:Hy; [|discriminate]. cbn [bind] in H.
    destruct (map_result f l) as [ys|e]; [|discriminate]. cbn [bind] in H.
    injection H as <-. constructor; auto.
Qed.

Lemma map_result_app {A B} (f : A -> result B) (l1 l2 : list A) out1 out2 :
  map_result f l1 = Ok out1 ->
  map_result f l2 = Ok out2 ->
  map_result f (l1 ++ l2) = Ok (out1 ++ out2).
Proof.
  revert out1; induction l1 as [|x l1 IH]; cbn [map_result app]; intros out1 H1 H2.
  - injection H1 as <-. exact H2.
  - destruct (f x) as [y|e]; [|discriminate]. cbn [bind] in *.
    destruct (map_result f l1) as [ys|e]; [|discriminate]. cbn [bind] in *.
    injection H1 as <-. now rewrite (IH ys eq_refl H2).
Qed.

(** ** Projection and selection of a list of rows *)

Lemma map_result_Forall2 {A B} (f : A -> result B) (l : list A) :
  forallb (fun x => is_Ok (f x)) l = true ->
  exists out, map_result f l = Ok out /\ Forall2 (fun x y => f x = Ok y) l out.
Proof.
  induction l as [|x l IH]; cbn [forallb map_result]; intros H.
  - exists []. split; [reflexivity|constructor].
  - apply andb_true_iff in H as [Hx Hl].
    destruct (IH Hl) as (out & Hout & Hall).
    destruct (f x) as [y|e] eqn:Hy; [|discriminate].
    exists (y :: out). cbn [bind]. rewrite Hout. split; [reflexivity|].
    now constructor.
Qed.

Lemma map_result_firstn {A B} (f : A -> result B) (n : nat) (l : list A) out :
  map_result f l = Ok out -> map_result f (firstn n l) = Ok (firstn n out).
Proof.
  revert l out; induction n as [|n IH]; intros l out H; [reflexivity|].
  destruct l as [|x l]; cbn [map_result firstn] in *.
  - now injection H as <-.
  - destruct (f x) as [y|e]; [|discriminate]. cbn [bind] in *.
    destruct (map_result f l) as [ys|e] eqn:Hys; [|discriminate]. cbn [bind] in *.
    injection H as <-. cbn [firstn]. now rewrite (IH l ys Hys).
Qed.

Lemma map_result_skipn {A B} (f : A -> result B) (n : nat) (l : list A) out :
  map_result f l = Ok out -> map_result f (skipn n l) = Ok (skipn n out).
Proof.
  revert l out; induction n as [|n IH]; intros l out H; [exact H|].
  destruct l as [|x l]; cbn [map_result skipn] in *.
  - now injection H as <-.
  - destruct (f x) as [y|e]; [|discriminate]. cbn [bind] in *.
    destruct (map_result f l) as [ys|e] eqn:Hys; [|discriminate]. cbn [bind] in *.
    injection H as <-. cbn [skipn]. now apply IH.
Qed.

Lemma map_result_window {A B} (f : A -> result B) (k o : Z) (l : list A) out :
  map_result f l = Ok out ->
  map_result f (sql_window k o l) = Ok (sql_window k o out).
Proof.
  intros H. unfold sql_window.
  destruct (k <? 0); auto using map_result_firstn, map_result_skipn.
Qed.

Lemma filter_result_Ok {A} (p : A -> result bool) (q : A -> bool) (l : list A) :
  (forall x, p x = Ok (q x)) -> filter_result p l = Ok (filter q l).
Proof.
  intros Hp. induction l as [|x l IH]; [reflexivity|].
  cbn [filter_result filter]. rewrite Hp, IH. reflexivity.
Qed.

Lemma filter_result_incl {A} (p : A -> result bool) (l kept : list A) :
  filter_result p l = Ok kept -> incl kept l.
Proof.
  revert kept; induction l as [|x l IH]; cbn [filter_result]; intros kept H.
  - injection H as <-. apply incl_refl.
  - destruct (p x) as [keep|e]; [|discriminate]. cbn [bind] in H.
    destruct (filter_result p l) as [kept'|e]; [|discriminate]. cbn [bind] in H.
    injection H as <-. specialize (IH kept' eq_refl).
    destruct keep; intros y Hy; [destruct Hy as [<-|Hy]|]; cbn; auto.
Qed.

Lemma forallb_incl {A} (p : A -> bool) (l l' : list A) :
  incl l' l -> forallb p l = true -> forallb p l' = true.
Proof.
  intros Hincl Hl. rewrite forallb_forall in *. auto.
Qed.

(** ** The repository methods on an opened database *)

Lemma getChatMessages_rows node host this this' h convs msgs chatName conversation
    limit offset :
  open node host this = (this', Ok h) ->
  table_conversations host h = Ok convs ->
  table_messages host h = Ok msgs ->
  find_conversation chatName convs = Some conversation ->
  getChatMessages node host chatName limit offset this
  = (this',
     rows <- select_messages limit offset (conv_id conversation) msgs ;;
     map_result
       (fun msg => formatMessage node this' msg
                     (js_or (displayName node conversation) (JStr "Unknown")))
       rows).
Proof.
  intros Hopen Hconvs Hmsgs Hfind.
  unfold getChatMessages, mbind, the_fields, lift.
  rewrite Hopen, Hconvs. cbn [bind]. now rewrite Hfind, Hmsgs.
Qed.

Lemma searchChat_rows node host this this' h convs msgs chatName conversation
    query limit :
  open node host this = (this', Ok h) ->
  table_conversations host h = Ok convs ->
  table_messages host h = Ok msgs ->
  find_conversation chatName convs = Some conversation ->
  searchChat node host chatName query limit this
  = (this',
     rows <- search_messages query limit (conv_id conversation) msgs ;;
     map_result
       (fun msg => formatMessage node this' msg
                     (js_or (displayName node conversation) (JStr "Unknown")))
       rows).
Proof.
  intros Hopen Hconvs Hmsgs Hfind.
  unfold searchChat, mbind, the_fields, lift.
  rewrite Hopen, Hconvs. cbn [bind]. now rewrite Hfind, Hmsgs.
Qed.

Lemma all_messages_incl cid msgs : incl (all_messages cid msgs) (messages_of cid msgs).
Proof. intros m Hm. now apply (order_by_desc_In msg_timestamp). Qed.

Lemma all_messages_perm cid msgs :
  Permutation (all_messages cid msgs) (messages_of cid msgs).
Proof. symmetry. apply order_by_desc_perm. Qed.

Lemma all_messages_descending cid msgs : descending msg_timestamp (all_messages cid msgs).
Proof. apply order_by_desc_descending. Qed.

Lemma all_messages_length cid msgs :
  length (all_messages cid msgs) = length (messages_of cid msgs).
Proof. apply order_by_desc_length. Qed.

(** The listing of a conversation projects row by row when the rows of the
    conversation do. *)
Lemma listing_projects node this contactName cid msgs :
  projectable node this contactName (messages_of cid msgs) = true ->
  exists out,
    map_result (fun msg => formatMessage node this msg contactName) (all_messages cid msgs)
    = Ok out
    /\ formatted node this contactName (all_messages cid msgs) out.
Proof.
  intros Hproj. apply map_result_Forall2.
  eapply forallb_incl; [apply all_messages_incl|exact Hproj].
Qed.

(** With a limit [k >= 1], or a negative one, the query carries
    [LIMIT k OFFSET o]. *)
Lemma select_messages_limit k o cid msgs :
  k <> 0 -> sql_range k -> sql_range o ->
  select_messages (Some (Integer k)) (Some (Integer o)) cid msgs
  = Ok (sql_window k o (all_messages cid msgs)).
Proof.
  intros Hk Hrk Hro. unfold select_messages. cbn [limit_given number_truthy].
  destruct (Z.eqb_spec k 0); [contradiction|]. cbn [negb].
  now apply sql_limit_offset_Ok.
Qed.

(** Without a limit and without an offset the query carries no clause. *)
Lemma select_messages_all limit offset cid msgs :
  limit = None \/ limit = Some (Integer 0) ->
  offset = None \/ offset = Some (Integer 0) ->
  select_messages limit offset cid msgs = Ok (all_messages cid msgs).
Proof.
  intros [->| ->] [->| ->]; reflexivity.
Qed.

(** Without a limit, an offset [o] drops the [o] most recent rows. *)
Lemma select_messages_offset o cid msgs :
  sql_range o ->
  select_messages None (Some (Integer o)) cid msgs
  = Ok (skipn (Z.to_nat o) (all_messages cid msgs)).
Proof.
  intros Ho. unfold select_messages. cbn [limit_given number_positive].
  destruct (Z.ltb_spec 0 o).
  - rewrite sql_limit_offset_Ok by (unfold sql_range; lia || exact Ho).
    now rewrite sql_window_unbounded by lia.
  - replace (Z.to_nat o) with 0%nat by lia. reflexivity.
Qed.

(** Whatever the limit and the offset, the rows the query returns are rows
    of the listing, in its order. *)
Lemma select_messages_rows limit offset cid msgs rows :
  select_messages limit offset cid msgs = Ok rows ->
  rows = all_messages cid msgs \/ exists k o, rows = sql_window k o (all_messages cid msgs).
Proof.
  unfold select_messages. intros H.
  destruct (limit_given limit).
  - right. now apply sql_limit_offset_rows in H.
  - destruct (number_positive _).
    + right. now apply sql_limit_offset_rows in H.
    + left. now injection H as <-.
Qed.

(** ** Projection of one row *)

Lemma get_truthy (v : jsval) (k : string) :
  truthy v = true -> exists w, get v k = Ok w.
Proof. destruct v; cbn; try discriminate; eauto. Qed.

Lemma get_defined (v : jsval) (k : string) :
  v <> JNull -> v <> JUndefined -> exists w, get v k = Ok w.
Proof. destruct v; cbn; try congruence; eauto. Qed.

(** [formatMessage] returns whenever the time value is in the range of
    [Date] and the payload did not parse to [null]; what it returns for the
    sender is decided by the identifier test, then by the type tag. *)
Lemma formatMessage_returns node this msg contactName :
  is_Ok (message_date node msg) = true ->
  message_payload node msg <> JNull ->
  message_payload node msg <> JUndefined ->
  exists fm,
    formatMessage node this msg contactName = Ok fm
    /\ sender fm
       = if strict_eq (of_text (msg_sourceServiceId msg)) (selfServiceId this)
            || String.eqb (msg_type msg) "outgoing"
         then JStr "Me" else contactName.
Proof.
  intros Hdate Hnull Hundef. unfold formatMessage.
  destruct (message_date node msg) as [d|e]; [|discriminate]. cbn [bind].
  destruct (get_defined _ "reactions" Hnull Hundef) as (r & ->).
  destruct (get_defined _ "quote" Hnull Hundef) as (q & ->).
  destruct (get_defined _ "sticker" Hnull Hundef) as (s & ->).
  cbn [bind].
  destruct (truthy q) eqn:Hq.
  - destruct (get_truthy q "text" Hq) as (t & ->). cbn [bind].
    destruct (truthy s) eqn:Hs.
    + destruct (get_truthy s "emoji" Hs) as (e & ->).
      destruct (get_truthy s "packId" Hs) as (p & ->).
      cbn [bind]. eexists. split; reflexivity.
    + cbn [bind]. eexists. split; reflexivity.
  - cbn [bind].
    destruct (truthy s) eqn:Hs.
    + destruct (get_truthy s "emoji" Hs) as (e & ->).
      destruct (get_truthy s "packId" Hs) as (p & ->).
      cbn [bind]. eexists. split; reflexivity.
    + cbn [bind]. eexists. split; reflexivity.
Qed.

(** ** Strings *)

Lemma append_length (a b : string) :
  String.length (a +++ b) = (String.length a + String.length b)%nat.
Proof. induction a as [|c a IH]; cbn; [reflexivity|now rewrite IH]. Qed.

Lemma append_cancel_l (p a b : string) : p +++ a = p +++ b -> a = b.
Proof.
  induction p as [|c p IH]; cbn; intros H; [exact H|].
  injection H as H. auto.
Qed.

Lemma append_cancel_r (a b s : string) : a +++ s = b +++ s -> a = b.
Proof.
  intros H.
  assert (Hlen : String.length a = String.length b).
  { apply (f_equal String.length) in H. rewrite !append_length in H. lia. }
  revert b H Hlen. induction a as [|c a IH]; intros [|d b] H Hlen; cbn in *;
    try discriminate; [reflexivity|].
  injection H as -> H. f_equal. apply IH; [exact H|lia].
Qed.

(** ** The LIKE operator *)

Lemma list_byte_of_string_append (a b : string) :
  list_byte_of_string (a +++ b) = list_byte_of_string a ++ list_byte_of_string b.
Proof.
  induction a as [|c a IH]; [reflexivity|].
  cbn [String.append]. change (list_byte_of_string (String c (a +++ b)))
    with (byte_of_ascii c :: list_byte_of_string (a +++ b)).
  now rewrite IH.
Qed.

Lemma byte_eqb_neq (a b : byte) : a <> b -> Byte.eqb a b = false.
Proof.
  intros Hne. destruct (Byte.eqb a b) eqn:E; [|reflexivity].
  now apply Byte.byte_dec_bl in E.
Qed.

Lemma like_percent (text : list Z) : like [37] text = true.
Proof.
  induction text as [|c text IH]; [reflexivity|].
  change (like [37] (c :: text)) with (like [] (c :: text) || like [37] text).
  rewrite IH. apply orb_true_r.
Qed.

Lemma like_percent_percent (text : list Z) : like [37; 37] text = true.
Proof.
  destruct text as [|c text]; [reflexivity|].
  change (like [37; 37] (c :: text))
    with (like [37] (c :: text) || like [37; 37] text).
  now rewrite like_percent.
Qed.

(** The pattern built from a query that fits is accepted by the operator. *)
Lemma sql_like_fits (column : option string) (query : string) :
  pattern_fits query ->
  sql_like column ("%" +++ query +++ "%")
  = Ok match column with
       | Some text => like (sql_chars ("%" +++ query +++ "%")) (sql_chars text)
       | None => false
       end.
Proof.
  unfold pattern_fits, sql_like. intros Hfits.
  assert (Hlen : String.length ("%" +++ query +++ "%")
                 = S (String.length query + 1)).
  { cbn [String.append String.length]. now rewrite append_length. }
  rewrite Hlen.
  destruct (Z.ltb_spec 50000 (Z.of_nat (S (String.length query + 1)))); [lia|].
  reflexivity.
Qed.

Lemma body_like_sql (query : string) (m : MessageRow) :
  pattern_fits query ->
  sql_like (msg_body m) ("%" +++ query +++ "%") = Ok (body_like query m).
Proof. intros Hfits. now rewrite sql_like_fits. Qed.

Lemma matching_messages_fits query cid msgs :
  pattern_fits query ->
  matching_messages query cid msgs
  = Ok (order_by_desc msg_timestamp (filter (body_like query) (messages_of cid msgs))).
Proof.
  intros Hfits. unfold matching_messages.
  rewrite (filter_result_Ok _ (body_like query)) by (intros m; now apply body_like_sql).
  reflexivity.
Qed.

Lemma empty_query_fits : pattern_fits EmptyString.
Proof. unfold pattern_fits. cbn. lia. Qed.

Lemma body_like_empty_query (m : MessageRow) : body_like EmptyString m = has_body m.
Proof.
  unfold body_like, has_body. destruct (msg_body m) as [b|]; [|reflexivity].
  change (sql_chars ("%" +++ EmptyString +++ "%")) with [37; 37].
  apply like_percent_percent.
Qed.

(** The rows an empty query matches: the rows that have a body. *)
Lemma matching_messages_empty_query cid msgs :
  matching_messages EmptyString cid msgs
  = Ok (order_by_desc msg_timestamp (filter has_body (messages_of cid msgs))).
Proof.
  rewrite matching_messages_fits by apply empty_query_fits.
  now rewrite (filter_ext _ _ body_like_empty_query).
Qed.

Lemma search_messages_unlimited query limit cid msgs :
  limit = None \/ limit = Some (Integer 0) ->
  search_messages query limit cid msgs = matching_messages query cid msgs.
Proof. intros [-> | ->]; reflexivity. Qed.

Lemma search_messages_limit query k cid msgs :
  0 < k -> sql_range k ->
  search_messages query (Some (Integer k)) cid msgs
  = (ordered <- matching_messages query cid msgs ;;
     Ok (firstn (Z.to_nat k) ordered)).
Proof.
  intros Hk Hrange. unfold search_messages. cbn [limit_given number_truthy].
  destruct (Z.eqb_spec k 0); [lia|]. cbn [negb].
  rewrite sql_integer_Ok by exact Hrange. cbn [bind].
  destruct (matching_messages query cid msgs) as [ordered|e]; [|reflexivity].
  cbn [bind]. rewrite sql_window_page by lia. reflexivity.
Qed.

(** *** Characters of a query without wildcards *)

Lemma c_string_id (s : list byte) :
  Forall (fun c => c <> x00) s -> c_string s = s.
Proof.
  induction 1 as [|c s Hc _ IH]; [reflexivity|].
  cbn [c_string]. now rewrite (byte_eqb_neq _ _ Hc), IH.
Qed.

Lemma utf8_chars_percent (pending : option Z) (s : list byte) :
  utf8_chars pending (s ++ [x25]) = utf8_chars pending s ++ [37].
Proof.
  revert pending; induction s as [|b s IH]; intros pending.
  - destruct pending; reflexivity.
  - cbn [app utf8_chars]. destruct pending as [c|].
    + destruct (is_continuation b); [apply IH|].
      destruct (is_lead b); cbn [app]; now rewrite IH.
    + destruct (is_lead b); cbn [app]; now rewrite IH.
Qed.

Lemma close_char_high (c : Z) : 128 <= close_char c.
Proof.
  unfold close_char. destruct (Z.ltb_spec c 128); cbn [orb]; [lia|].
  match goal with |- context [if ?b then _ else _] => destruct b end; lia.
Qed.

Lemma byte_value_percent (b : byte) : byte_value b = 37 -> b = x25.
Proof. destruct b; cbv; intros H; first [reflexivity|discriminate H]. Qed.

Lemma byte_value_underscore (b : byte) : byte_value b = 95 -> b = x5f.
Proof. destruct b; cbv; intros H; first [reflexivity|discriminate H]. Qed.

Lemma utf8_chars_wildcard_free (pending : option Z) (s : list byte) :
  wildcard_free s ->
  Forall (fun c => c <> 37 /\ c <> 95) (utf8_chars pending s).
Proof.
  intros Hs. revert pending.
  induction Hs as [|b s (Hpct & Hund & _) _ IH]; intros pending.
  - destruct pending as [c|]; cbn [utf8_chars]; constructor; [|constructor].
    pose proof (close_char_high c). lia.
  - assert (Hb : byte_value b <> 37 /\ byte_value b <> 95).
    { split; intros H; [apply byte_value_percent in H|apply byte_value_underscore in H];
        contradiction. }
    cbn [utf8_chars]. destruct pending as [c|].
    + destruct (is_continuation b); [apply IH|].
      constructor; [pose proof (close_char_high c); lia|].
      destruct (is_lead b); [apply IH|constructor; [exact Hb|apply IH]].
    + destruct (is_lead b); [apply IH|constructor; [exact Hb|apply IH]].
Qed.

Lemma sql_chars_pattern (query : string) :
  wildcard_free (list_byte_of_string query) ->
  sql_chars ("%" +++ query +++ "%") = 37 :: sql_chars query ++ [37].
Proof.
  intros Hq. unfold sql_chars.
  assert (Hnul : Forall (fun c => c <> x00) (list_byte_of_string query)).
  { eapply Forall_impl; [|exact Hq]. cbn. tauto. }
  rewrite !list_byte_of_string_append.
  change (list_byte_of_string "%") with [x25]. cbn [app].
  rewrite (c_string_id (list_byte_of_string query)) by exact Hnul.
  rewrite c_string_id.
  - cbn [utf8_chars]. change (is_lead x25) with false. cbv iota.
    change (byte_value x25) with 37. now rewrite utf8_chars_percent.
  - constructor; [discriminate|]. apply Forall_app. split; [exact Hnul|].
    constructor; [discriminate|constructor].
Qed.

Lemma like_literal_prefix (query text : list Z) :
  Forall (fun c => c <> 37 /\ c <> 95) query ->
  like (query ++ [37]) text = starts_with_nocase query text.
Proof.
  intros Hq. revert text. induction Hq as [|c query [Hpct Hund] _ IH]; intros text.
  - apply like_percent.
  - cbn [app like starts_with_nocase].
    destruct (Z.eqb_spec c 37); [contradiction|].
    destruct (Z.eqb_spec c 95); [contradiction|].
    destruct text as [|d text]; [reflexivity|]. cbn [orb]. now rewrite IH.
Qed.

Lemma like_literal (query text : list Z) :
  Forall (fun c => c <> 37 /\ c <> 95) query ->
  like (37 :: query ++ [37]) text = contains_nocase query text.
Proof.
  intros Hq. induction text as [|d text IH].
  - change (like (37 :: query ++ [37]) [])
      with (like (query ++ [37]) [] || false).
    cbn [contains_nocase]. now rewrite like_literal_prefix.
  - change (like (37 :: query ++ [37]) (d :: text))
      with (like (query ++ [37]) (d :: text) || like (37 :: query ++ [37]) text).
    cbn [contains_nocase]. now rewrite like_literal_prefix, IH.
Qed.

(** Without wildcards in the query the filter of [searchChat] is the literal,
    ASCII-case-insensitive test on the characters of the body. *)
Lemma body_like_literal (query : string) (m : MessageRow) :
  wildcard_free (list_byte_of_string query) ->
  body_like query m = body_contains query m.
Proof.
  intros Hq. unfold body_like, body_contains.
  destruct (msg_body m) as [b|]; [|reflexivity].
  rewrite sql_chars_pattern by exact Hq.
  apply like_literal. unfold sql_chars.
  rewrite c_string_id by (eapply Forall_impl; [|exact Hq]; cbn; tauto).
  now apply utf8_chars_wildcard_free.
Qed.

(** ** The session *)

Lemma close_releases (this : SignalDatabase) :
  db (fst (close this)) = None /\ snd (close this) = Ok tt.
Proof. unfold close. destruct (db this) eqn:E; split; cbn; auto. Qed.

Lemma finally_close {A} (body : Method A) (this : SignalDatabase) :
  db (fst (finally body close this)) = None
  /\ snd (finally body close this) = snd (body this).
Proof.
  unfold finally. destruct (body this) as [this1 r]. cbn [snd].
  destruct (close_releases this1) as [Hdb Hret].
  destruct (close this1) as [this2 [u|e]]; cbn [fst snd] in *;
    [auto|discriminate].
Qed.

Lemma pragma_Ok host (p : Pragma) this this' (u : unit) :
  pragma host p this = (this', Ok u) ->
  exists h,
    db this = Some h
    /\ Database_pragma host h p = Ok tt
    /\ this' = set_db this (Some {| handle_path := handle_path h;
                                    handle_pragmas := handle_pragmas h ++ [p] |}).
Proof.
  unfold pragma. destruct (db this) as [h|]; [|discriminate].
  destruct (Database_pragma host h p) as [[]|e] eqn:Hp; [|discriminate].
  intros H. injection H as <-. eauto.
Qed.

Lemma loadSelfContact_fields node host this :
  snd (loadSelfContact node host this) = Ok tt
  /\ db (fst (loadSelfContact node host this)) = db this
  /\ key (fst (loadSelfContact node host this)) = key this
  /\ password (fst (loadSelfContact node host this)) = password this
  /\ sourceDir (fst (loadSelfContact node host this)) = sourceDir this.
Proof.
  unfold loadSelfContact. destruct (db this) as [h|] eqn:Hdb; [|auto].
  destruct (select_uuid_id host h) as [[json|]|e]; cbn [bind]; auto.
  destruct (JSON_parse node (json_text json)) as [data|e]; cbn [bind]; auto.
  destruct (get data "value") as [v|e]; cbn [bind fst snd]; auto.
Qed.

Lemma open_session_Ok node host dbPath encKey this this' h :
  open_session node host dbPath encKey this = (this', Ok h) ->
  h = {| handle_path := dbPath;
         handle_pragmas :=
           [ PragmaKey encKey;
             PragmaSet "cipher_page_size = 4096";
             PragmaSet "kdf_iter = 64000";
             PragmaSet "cipher_hmac_algorithm = HMAC_SHA512";
             PragmaSet "cipher_kdf_algorithm = PBKDF2_HMAC_SHA512" ] |}
  /\ db this' = Some h
  /\ select_1 host h = Ok tt
  /\ key this' = key this
  /\ password this' = password this
  /\ sourceDir this' = sourceDir this.
Proof.
  unfold open_session. intros H.
  apply mbind_Ok in H as (u0 & s0 & H0 & H).
  destruct (Database_new host dbPath) as [[]|e]; [|discriminate].
  injection H0 as <- _.
  apply mbind_Ok in H as (u1 & s1 & H1 & H).
  apply pragma_Ok in H1 as (h1 & Hdb1 & _ & ->). cbn in Hdb1. injection Hdb1 as <-.
  apply mbind_Ok in H as (u2 & s2 & H2 & H).
  apply pragma_Ok in H2 as (h2 & Hdb2 & _ & ->). cbn in Hdb2. injection Hdb2 as <-.
  apply mbind_Ok in H as (u3 & s3 & H3 & H).
  apply pragma_Ok in H3 as (h3 & Hdb3 & _ & ->). cbn in Hdb3. injection Hdb3 as <-.
  apply mbind_Ok in H as (u4 & s4 & H4 & H).
  apply pragma_Ok in H4 as (h4 & Hdb4 & _ & ->). cbn in Hdb4. injection Hdb4 as <-.
  apply mbind_Ok in H as (u5 & s5 & H5 & H).
  apply pragma_Ok in H5 as (h5 & Hdb5 & _ & ->). cbn in Hdb5. injection Hdb5 as <-.
  apply mbind_Ok in H as (u6 & s6 & H6 & H).
  cbn in H6. injection H6 as <- Hprobe.
  apply mbind_Ok in H as (u7 & s7 & H7 & H).
  match type of H7 with
  | loadSelfContact _ _ ?s = _ =>
      destruct (loadSelfContact_fields node host s) as (_ & Hdb & Hkey & Hpw & Hdir);
      rewrite H7 in Hdb, Hkey, Hpw, Hdir; cbn in Hdb, Hkey, Hpw, Hdir
  end.
  rewrite Hdb in H. injection H as <- <-.
  destruct u6. repeat split; assumption.
Qed.




(** A failing keychain lookup, or a secret that does not unwrap the
    encrypted key, makes [open] throw the keychain error. *)
Lemma keychain_failure_rethrown node host this text config plain encrypted :
  db this = None ->
  existsSync host (join node [sourceDir this; "sql"; "db.sqlite"]) = true ->
  provided (or_optional (key this) (env_SIGNAL_KEY host)) = false ->
  existsSync host (join node [sourceDir this; "config.json"]) = true ->
  readFileSync host (join node [sourceDir this; "config.json"]) = Ok text ->
  JSON_parse node text = Ok config ->
  get config "key" = Ok plain ->
  truthy plain = false ->
  get config "encryptedKey" = Ok encrypted ->
  truthy encrypted = true ->
  platform host = "darwin" ->
  (forall secret,
      security_find_generic_password host = Ok secret ->
      is_Ok (decryptKey node (trim secret) encrypted) = false) ->
  open node host this = (this, Err keychain_error).
Proof.
  intros Hdb Hfile Hnone Hconfig Hread Hparse Hget Hplain Hget' Henc Hos Hfail.
  assert (Hkey : getEncryptionKey node host (sourceDir this)
                   (or_optional (key this) (env_SIGNAL_KEY host)) = Err keychain_error).
  { unfold getEncryptionKey, read_config_key.
    rewrite Hnone, Hconfig, Hread. cbn [bind]. rewrite Hparse. cbn [bind].
    rewrite Hget. cbn [bind]. rewrite Hplain, Hget'. cbn [bind].
    rewrite Henc, Hos. cbn [andb String.eqb Ascii.eqb Bool.eqb].
    assert (Hinc : includes (message keychain_error) "Keychain" = true)
      by (vm_compute; reflexivity).
    destruct (security_find_generic_password host) as [secret|e]; cbn [bind].
    - specialize (Hfail secret eq_refl).
      destruct (decryptKey node (trim secret) encrypted); [discriminate|].
      now rewrite Hinc.
    - now rewrite Hinc. }
  unfold open. now rewrite Hdb, Hfile, Hkey.
Qed.

(** ** The handler's reading of an open failure *)

Lemma userMessage_of_lock_error :
  userMessage (message (open_failed (lib_error "database is locked")))
  = "Signal database is locked. Please close Signal Desktop before accessing messages. "
    +++ "Failed to open Signal database: database is locked. "
    +++ "Make sure Signal Desktop is closed before accessing.".
Proof. vm_compute. reflexivity. Qed.

(** * The claims of the specification *)

(** C2.  For every password and plaintext string, [decryptKey] applied to
    the hexadecimal form of the blob made of the tag "v10" and the
    AES-128-CBC, PKCS-padded encryption of the plaintext under the PBKDF2
    key (salt "saltysalt", 1003 iterations, SHA-1, 16 bytes) with an IV of 16
    spaces returns that plaintext; and on any blob whose first three bytes
    are not "v10" it throws the malformed-key-blob error.  The block cipher
    and the key derivation are the library's: decryption is taken to invert
    encryption on 16-byte blocks, the derived key to have the length asked
    for, and the plaintext to be a string its UTF-8 bytes decode back to. *)
Theorem decryptKey_unwraps_reference_blobs
    (node : Runtime) (enc : Buffer -> Buffer -> Buffer) :
  (forall k b, length k = 16%nat -> length b = block_size ->
               length (enc k b) = block_size) ->
  (forall k b, length k = 16%nat -> length b = block_size ->
               aes128_decrypt_block node k (enc k b) = b) ->
  (forall password,
      length (pbkdf2Sync node password (Buffer_from "saltysalt") 1003 16 "sha1")
      = 16%nat) ->
  (forall password t,
      Buffer_toString_utf8 node (Buffer_from t) = t ->
      decryptKey node password
        (JStr (Buffer_toString_hex (reference_key_blob node enc password t)))
      = Ok t)
  /\ (forall password hex,
         firstn 3 (Buffer_from_hex hex) <> Buffer_from "v10" ->
         decryptKey node password (JStr hex)
         = Err (Throw MalformedKeyBlob "Encrypted key does not start with v10")).
Proof.
  intros Hlen Hinv Hkdf. split.
  - intros password t Hutf8.
    unfold decryptKey, reference_key_blob. cbn [Buffer_from_hex_value bind].
    rewrite Buffer_from_hex_toString.
    change 3%nat with (length (Buffer_from "v10")).
    rewrite subarray_tag, subarray_from_tag, Buffer_equals_refl. cbn [negb].
    rewrite aes_128_cbc_decipher_encrypt
      by (auto; unfold Buffer_alloc; apply repeat_length).
    cbn [bind]. now rewrite Hutf8.
  - intros password hex Htag.
    unfold decryptKey. cbn [Buffer_from_hex_value bind].
    unfold subarray. rewrite Nat.sub_0_r, skipn_O.
    now rewrite Buffer_equals_neq.
Qed.

Lemma stand_in_encrypt_length (k b : Buffer) :
  length k = 16%nat -> length b = block_size ->
  length (stand_in_encrypt k b) = block_size.
Proof.
  intros Hk Hb. unfold stand_in_encrypt.
  rewrite xor_Buffer_length; unfold block_size in *; congruence.
Qed.

Lemma stand_in_decrypt_encrypt (k b : Buffer) :
  length k = 16%nat -> length b = block_size ->
  aes128_decrypt_block sample_node k (stand_in_encrypt k b) = b.
Proof.
  intros Hk Hb. cbn [aes128_decrypt_block sample_node]. unfold stand_in_encrypt.
  apply xor_Buffer_cancel. unfold block_size in *; congruence.
Qed.

Lemma stand_in_pbkdf2_length (password : string) :
  length (pbkdf2Sync sample_node password (Buffer_from "saltysalt") 1003 16 "sha1")
  = 16%nat.
Proof.
  cbn [pbkdf2Sync sample_node]. unfold stand_in_pbkdf2.
  rewrite length_firstn, !length_app, repeat_length. lia.
Qed.

Lemma decryptKey_unwraps_reference_blobs_witness :
  Buffer_toString_utf8 sample_node (Buffer_from "ffeeddccbbaa99887766554433221100")
  = "ffeeddccbbaa99887766554433221100"
  /\ firstn 3 (Buffer_from_hex "763131ab") <> Buffer_from "v10"
  /\ decryptKey sample_node "safe storage"
       (JStr (Buffer_toString_hex
                (reference_key_blob sample_node stand_in_encrypt "safe storage"
                   "ffeeddccbbaa99887766554433221100")))
     = Ok "ffeeddccbbaa99887766554433221100"
  /\ decryptKey sample_node "safe storage" (JStr "763131ab")
     = Err (Throw MalformedKeyBlob "Encrypted key does not start with v10").
Proof.
  destruct (decryptKey_unwraps_reference_blobs sample_node stand_in_encrypt
              stand_in_encrypt_length stand_in_decrypt_encrypt stand_in_pbkdf2_length)
    as [Hunwrap Htag].
  assert (Hne : firstn 3 (Buffer_from_hex "763131ab") <> Buffer_from "v10")
    by (vm_compute; discriminate).
  split; [reflexivity|]. split; [exact Hne|]. split.
  - apply Hunwrap. reflexivity.
  - apply Htag. exact Hne.
Defined.

(** C1, as amended.  For a conversation resolvable by name that holds [N]
    messages, on a database that opens and whose rows [formatMessage] can
    project: [getChatMessages] with a limit [k] and an offset [o] that the
    engine reads as integers, [1 <= k < 2^63] and [0 <= o < 2^63], returns
    exactly [min k (max 0 (N - o))] formatted messages, the projections of
    rows of the conversation taken in non-increasing timestamp order; with
    no limit and the offset 0 or absent it returns exactly [N] formatted
    messages in that order. *)
Theorem getChatMessages_page
    node host this this' h convs msgs chatName conversation :
  open node host this = (this', Ok h) ->
  table_conversations host h = Ok convs ->
  table_messages host h = Ok msgs ->
  find_conversation chatName convs = Some conversation ->
  projectable node this' (shown_name node conversation)
    (messages_of (conv_id conversation) msgs) = true ->
  (forall k o, 0 < k < 2 ^ 63 -> 0 <= o < 2 ^ 63 ->
     exists rows out,
       getChatMessages node host chatName (Some (Integer k)) (Some (Integer o)) this
       = (this', Ok out)
       /\ formatted node this' (shown_name node conversation) rows out
       /\ descending msg_timestamp rows
       /\ incl rows (messages_of (conv_id conversation) msgs)
       /\ Z.of_nat (length out)
          = Z.min k (Z.max 0 (Z.of_nat (length (messages_of (conv_id conversation) msgs)) - o)))
  /\ (forall offset,
        offset = None \/ offset = Some (Integer 0) ->
        exists rows out,
          getChatMessages node host chatName None offset this = (this', Ok out)
          /\ formatted node this' (shown_name node conversation) rows out
          /\ descending msg_timestamp rows
          /\ incl rows (messages_of (conv_id conversation) msgs)
          /\ length out = length (messages_of (conv_id conversation) msgs)).
Proof.
  intros Hopen Hconvs Hmsgs Hfind Hproj.
  destruct (listing_projects node this' (shown_name node conversation)
              (conv_id conversation) msgs Hproj) as (all_out & Hall & Hfmt).
  split.
  - intros k o Hk Ho.
    exists (sql_window k o (all_messages (conv_id conversation) msgs)),
           (sql_window k o all_out).
    rewrite (getChatMessages_rows _ _ _ _ _ _ _ _ _ _ _ Hopen Hconvs Hmsgs Hfind).
    fold (shown_name node conversation).
    rewrite select_messages_limit by (unfold sql_range; lia). cbn [bind].
    rewrite (map_result_window _ k o _ _ Hall).
    split; [reflexivity|]. split; [|split; [|split]].
    + apply map_result_Ok, map_result_window, Hall.
    + apply descending_window, all_messages_descending.
    + intros m Hm. apply incl_window in Hm. now apply all_messages_incl.
    + rewrite sql_window_length by lia.
      now rewrite <- (Forall2_length Hfmt), all_messages_length.
  - intros offset Hoffset.
    exists (all_messages (conv_id conversation) msgs), all_out.
    rewrite (getChatMessages_rows _ _ _ _ _ _ _ _ _ _ _ Hopen Hconvs Hmsgs Hfind).
    fold (shown_name node conversation).
    rewrite select_messages_all by auto. cbn [bind]. rewrite Hall.
    split; [reflexivity|]. split; [exact Hfmt|]. split; [|split].
    + apply all_messages_descending.
    + apply all_messages_incl.
    + now rewrite <- (Forall2_length Hfmt), all_messages_length.
Qed.

Lemma getChatMessages_page_witness :
  open sample_node alice_host (fresh explicit_key)
  = (opened (JStr "owner-aci"), Ok opened_handle)
  /\ table_conversations alice_host opened_handle = Ok [alice]
  /\ table_messages alice_host opened_handle = Ok three_messages
  /\ find_conversation "Alice" [alice] = Some alice
  /\ projectable sample_node (opened (JStr "owner-aci")) (shown_name sample_node alice)
       (messages_of (conv_id alice) three_messages) = true
  /\ 0 < 2 < 2 ^ 63 /\ 0 <= 2 < 2 ^ 63
  /\ exists out,
       getChatMessages sample_node alice_host "Alice" (Some (Integer 2)) (Some (Integer 2))
         (fresh explicit_key)
       = (opened (JStr "owner-aci"), Ok out)
       /\ Z.of_nat (length out) = Z.min 2 (Z.max 0 (3 - 2)).
Proof.
  assert (Hopen : open sample_node alice_host (fresh explicit_key)
                  = (opened (JStr "owner-aci"), Ok opened_handle))
    by (vm_compute; reflexivity).
  assert (Hproj : projectable sample_node (opened (JStr "owner-aci"))
                    (shown_name sample_node alice)
                    (messages_of (conv_id alice) three_messages) = true)
    by (vm_compute; reflexivity).
  repeat (split; [first [exact Hopen | exact Hproj | reflexivity | lia]|]).
  destruct (getChatMessages_page sample_node alice_host (fresh explicit_key)
              (opened (JStr "owner-aci")) opened_handle [alice] three_messages
              "Alice" alice Hopen eq_refl eq_refl eq_refl Hproj) as [Hpage _].
  destruct (Hpage 2 2 ltac:(lia) ltac:(lia)) as (rows & out & Hrun & _ & _ & _ & Hlen).
  exists out. split; [exact Hrun|exact Hlen].
Defined.

(** C1 as stated fails for the limit 0: the conversation holds two messages
    and the claim promises [min 0 (max 0 (2 - 0)) = 0] of them, but the query
    is built without a LIMIT clause and both are returned. *)
Lemma getChatMessages_limit_zero_returns_all :
  length (messages_of "c1" [m_hello; m_reply]) = 2%nat
  /\ Z.min 0 (Z.max 0 (2 - 0)) = 0
  /\ snd (getChatMessages sample_node two_message_host "Alice"
            (Some (Integer 0)) (Some (Integer 0)) (fresh explicit_key))
     = Ok [ formatted_message "2023-11-14T22:14:20.000Z" "Me" "hi Alice";
            formatted_message "2023-11-14T22:13:20.000Z" "Alice" "hello" ].
Proof. vm_compute. repeat split. Qed.

(** C5, evaluated where it fails.  The message carries the identifier of the
    session owner, so the claim promises the sender "Me"; its payload column
    holds the JSON text [null], which parses, and [formatMessage] throws on
    the first property it reads from the parsed value.  [getChatMessages]
    then throws for the whole conversation. *)
Lemma formatMessage_throws_on_null_payload :
  of_text (msg_sourceServiceId m_null_payload) = selfServiceId (opened (JStr "owner-aci"))
  /\ msg_json m_null_payload = Some "null"
  /\ formatMessage sample_node (opened (JStr "owner-aci")) m_null_payload (JStr "Alice")
     = Err (lib_error "Cannot read properties of null (reading 'reactions')")
  /\ snd (getChatMessages sample_node
            (linux_host (Some (Some owner_item)) [m_hello; m_null_payload])
            "Alice" None None (fresh explicit_key))
     = Err (lib_error "Cannot read properties of null (reading 'reactions')").
Proof. vm_compute. repeat split. Qed.

(** [loadSelfContact] never throws: a failing query, a missing row, a
    payload that does not parse or has no [value] all leave the method
    returning normally. *)
Lemma loadSelfContact_returns node host this :
  snd (loadSelfContact node host this) = Ok tt.
Proof.
  unfold loadSelfContact. destruct (db this) as [h|]; [|reflexivity].
  destruct (select_uuid_id host h) as [[json|]|e]; cbn [bind]; try reflexivity.
  destruct (JSON_parse node (json_text json)) as [data|e]; cbn [bind]; [|reflexivity].
  destruct (get data "value") as [v|e]; reflexivity.
Qed.

(** C6, evaluated where it fails.  The database has no [uuid_id] item, so
    [open] succeeds and leaves the owner identifier [null]; a received
    message whose sender service identifier is NULL then compares equal to
    it ([null === null]) and is attributed to "Me" although its type tag is
    "incoming". *)
Lemma unidentified_sender_becomes_Me :
  select_uuid_id ownerless_host opened_handle = Ok None
  /\ msg_sourceServiceId m_unidentified = None
  /\ msg_type m_unidentified = "incoming"
  /\ getChatMessages sample_node ownerless_host "Alice" None None (fresh explicit_key)
     = (opened JNull,
        Ok [ formatted_message "2023-11-14T22:17:20.000Z" "Me" "are you there?" ]).
Proof. vm_compute. repeat split. Qed.

(** C3, evaluated where it fails.  The query "50%" is spliced into the LIKE
    pattern "%50%%" without escaping, so its percent sign is a wildcard: the
    message "room 501", which does not contain the text "50%", is returned. *)
Lemma searchChat_wildcard_in_query :
  includes "room 501" "50%" = false
  /\ includes "hello" "50%" = false
  /\ snd (searchChat sample_node room_host "Alice" "50%" None (fresh explicit_key))
     = Ok [ formatted_message "2023-11-14T22:18:20.000Z" "Alice" "room 501" ].
Proof. vm_compute. repeat split. Qed.

(** C4, as amended.  On a database that opens and whose rows project,
    [searchChat] with the empty string as query returns the projections of
    exactly those messages of the conversation whose body is not NULL, most
    recent first; with a limit [k], [1 <= k < 2^63], it returns the first [k]
    entries of that result, all of them when there are fewer. *)
Theorem searchChat_empty_query
    node host this this' h convs msgs chatName conversation :
  open node host this = (this', Ok h) ->
  table_conversations host h = Ok convs ->
  table_messages host h = Ok msgs ->
  find_conversation chatName convs = Some conversation ->
  projectable node this' (shown_name node conversation)
    (messages_of (conv_id conversation) msgs) = true ->
  exists rows out,
    searchChat node host chatName EmptyString None this = (this', Ok out)
    /\ formatted node this' (shown_name node conversation) rows out
    /\ descending msg_timestamp rows
    /\ Permutation rows (filter has_body (messages_of (conv_id conversation) msgs))
    /\ forall k,
         0 < k < 2 ^ 63 ->
         searchChat node host chatName EmptyString (Some (Integer k)) this
         = (this', Ok (firstn (Z.to_nat k) out))
         /\ formatted node this' (shown_name node conversation)
              (firstn (Z.to_nat k) rows) (firstn (Z.to_nat k) out)
         /\ Z.of_nat (length (firstn (Z.to_nat k) out))
            = Z.min k (Z.of_nat (length (filter has_body
                                           (messages_of (conv_id conversation) msgs)))).
Proof.
  intros Hopen Hconvs Hmsgs Hfind Hproj.
  set (rows := order_by_desc msg_timestamp
                 (filter has_body (messages_of (conv_id conversation) msgs))).
  destruct (map_result_Forall2
              (fun msg => formatMessage node this' msg (shown_name node conversation))
              rows) as (out & Hout & Hfmt).
  { eapply forallb_incl; [|exact Hproj].
    intros m Hm. apply order_by_desc_In, filter_In in Hm. tauto. }
  exists rows, out.
  split; [|split; [exact Hfmt|split; [apply order_by_desc_descending|split]]].
  - rewrite (searchChat_rows _ _ _ _ _ _ _ _ _ _ _ Hopen Hconvs Hmsgs Hfind).
    fold (shown_name node conversation).
    rewrite search_messages_unlimited, matching_messages_empty_query by auto.
    cbn [bind]. fold rows. now rewrite Hout.
  - symmetry. apply order_by_desc_perm.
  - intros k Hk.
    rewrite (searchChat_rows _ _ _ _ _ _ _ _ _ _ _ Hopen Hconvs Hmsgs Hfind).
    fold (shown_name node conversation).
    rewrite search_messages_limit, matching_messages_empty_query
      by (unfold sql_range; lia).
    cbn [bind]. fold rows.
    rewrite (map_result_firstn _ (Z.to_nat k) _ _ Hout).
    split; [reflexivity|]. split.
    + apply map_result_Ok, map_result_firstn, Hout.
    + rewrite length_firstn, <- (Forall2_length Hfmt). unfold rows.
      rewrite order_by_desc_length. lia.
Qed.

Lemma searchChat_empty_query_witness :
  open sample_node alice_host (fresh explicit_key)
  = (opened (JStr "owner-aci"), Ok opened_handle)
  /\ table_conversations alice_host opened_handle = Ok [alice]
  /\ table_messages alice_host opened_handle = Ok three_messages
  /\ find_conversation "Alice" [alice] = Some alice
  /\ projectable sample_node (opened (JStr "owner-aci")) (shown_name sample_node alice)
       (messages_of (conv_id alice) three_messages) = true
  /\ 0 < 1 < 2 ^ 63
  /\ exists out,
       searchChat sample_node alice_host "Alice" EmptyString None (fresh explicit_key)
       = (opened (JStr "owner-aci"), Ok out)
       /\ searchChat sample_node alice_host "Alice" EmptyString (Some (Integer 1))
            (fresh explicit_key)
          = (opened (JStr "owner-aci"), Ok (firstn (Z.to_nat 1) out)).
Proof.
  assert (Hopen : open sample_node alice_host (fresh explicit_key)
                  = (opened (JStr "owner-aci"), Ok opened_handle))
    by (vm_compute; reflexivity).
  assert (Hproj : projectable sample_node (opened (JStr "owner-aci"))
                    (shown_name sample_node alice)
                    (messages_of (conv_id alice) three_messages) = true)
    by (vm_compute; reflexivity).
  split; [exact Hopen|]. do 3 (split; [reflexivity|]).
  split; [exact Hproj|]. split; [lia|].
  destruct (searchChat_empty_query sample_node alice_host (fresh explicit_key)
              (opened (JStr "owner-aci")) opened_handle [alice] three_messages
              "Alice" alice Hopen eq_refl eq_refl eq_refl Hproj)
    as (rows & out & Hrun & _ & _ & _ & Hcut).
  destruct (Hcut 1 ltac:(lia)) as (Hfirst & _ & _).
  exists out. split; [exact Hrun|exact Hfirst].
Defined.

(** C4 as stated fails on a message without a body: the conversation holds
    three messages, one of them an attachment whose body is NULL, and the
    empty query returns the other two only. *)
Lemma searchChat_empty_query_skips_null_body :
  length (messages_of "c1" three_messages) = 3%nat
  /\ msg_body m_photo = None
  /\ snd (searchChat sample_node alice_host "Alice" EmptyString None (fresh explicit_key))
     = Ok [ formatted_message "2023-11-14T22:14:20.000Z" "Me" "hi Alice";
            formatted_message "2023-11-14T22:13:20.000Z" "Alice" "hello" ].
Proof. vm_compute. repeat split. Qed.

(** C7, as amended.  [open] does not close the session on its error paths;
    the session is closed by [close], which the tool-call handler runs in a
    [finally] block: whatever the tool, the arguments and the host, a tool
    call that constructed an instance ends with no database handle in it, on
    the paths where the operation threw as on those where it returned, and
    reports the outcome of the operation unchanged. *)
Theorem tool_call_closes_the_session node host name args :
  (forall this, db (fst (close this)) = None)
  /\ match constructor node host
             (or_optional (arg_source_dir args) (env_SIGNAL_SOURCE_DIR host))
             None
             (or_optional (arg_key args) (env_SIGNAL_KEY host)) with
     | Ok this0 =>
         exists this1,
           callTool node host name args
           = (Some this1, snd (dispatch node host name args this0))
           /\ db this1 = None
     | Err e => callTool node host name args = (None, Err e)
     end.
Proof.
  split; [intros this; apply close_releases|].
  unfold callTool.
  destruct (constructor node host _ None _) as [this0|e]; [|reflexivity].
  destruct (finally_close (dispatch node host name args) this0) as [Hdb Hret].
  destruct (finally (dispatch node host name args) close this0) as [this1 r].
  cbn [fst snd] in *. exists this1. now rewrite Hret.
Qed.

(** C7 as stated fails when the probe query is rejected: [open] throws and
    the connection it created, with the five pragmas applied, is still held
    by the instance. *)
Lemma open_failure_keeps_the_handle :
  open sample_node wrong_key_host (fresh explicit_key)
  = (left_open,
     Err (Throw DatabaseOpenFailed
            ("Failed to open Signal database: file is not a database. "
             +++ "Make sure Signal Desktop is closed before accessing.")))
  /\ db left_open = Some opened_handle.
Proof. vm_compute. split; reflexivity. Qed.

(** C8, as amended.  [open] on an instance without a handle fails with
    [DatabaseNotFound] when the database file is absent, and wraps every
    exception raised while the connection is created, configured and probed,
    a busy or locked database like any other, in the one class
    [DatabaseOpenFailed]; the message of the engine is embedded in the
    message of the error, and two such errors differ exactly when the
    messages of the engine differ. *)
Theorem open_failure_classes node host this :
  db this = None ->
  (existsSync host (join node [sourceDir this; "sql"; "db.sqlite"]) = false ->
   open node host this
   = (this,
      Err (Throw DatabaseNotFound
             ("Signal database not found at: "
              +++ join node [sourceDir this; "sql"; "db.sqlite"]))))
  /\ (forall encKey this' error,
         existsSync host (join node [sourceDir this; "sql"; "db.sqlite"]) = true ->
         getEncryptionKey node host (sourceDir this)
           (or_optional (key this) (env_SIGNAL_KEY host)) = Ok encKey ->
         truthy encKey = true ->
         open_session node host (join node [sourceDir this; "sql"; "db.sqlite"])
           encKey this = (this', Err error) ->
         open node host this = (this', Err (open_failed error))
         /\ thrownAt (open_failed error) = DatabaseOpenFailed)
  /\ (forall e1 e2,
         message (open_failed e1) = message (open_failed e2) <-> message e1 = message e2).
Proof.
  intros Hdb. split; [|split].
  - intros Hfile. unfold open. now rewrite Hdb, Hfile.
  - intros encKey this' error Hfile Hkey Htruthy Hsession.
    unfold open. rewrite Hdb, Hfile, Hkey, Htruthy. cbn [negb].
    now rewrite Hsession.
  - intros e1 e2. unfold open_failed. cbn [message]. split.
    + intros H. now apply append_cancel_l, append_cancel_r in H.
    + now intros ->.
Qed.

Lemma open_failure_classes_witness :
  db (fresh explicit_key) = None
  /\ existsSync locked_host (join sample_node [signal_dir; "sql"; "db.sqlite"]) = true
  /\ truthy (JStr "00112233445566778899aabbccddeeff") = true
  /\ open sample_node locked_host (fresh explicit_key)
     = (left_open, Err (open_failed (lib_error "database is locked"))).
Proof.
  destruct (open_failure_classes sample_node locked_host (fresh explicit_key) eq_refl)
    as (_ & Hwrap & _).
  split; [reflexivity|]. split; [reflexivity|]. split; [reflexivity|].
  apply (Hwrap (JStr "00112233445566778899aabbccddeeff")); reflexivity.
Defined.

(** C8 as stated fails on a locked database: the error [open] throws has
    the class of the error it throws for a wrong key; the two differ in the
    embedded message only. *)
Lemma locked_database_is_an_open_failure :
  snd (open sample_node locked_host (fresh explicit_key))
  = Err (Throw DatabaseOpenFailed
           ("Failed to open Signal database: database is locked. "
            +++ "Make sure Signal Desktop is closed before accessing."))
  /\ snd (open sample_node wrong_key_host (fresh explicit_key))
     = Err (Throw DatabaseOpenFailed
              ("Failed to open Signal database: file is not a database. "
               +++ "Make sure Signal Desktop is closed before accessing."))
  /\ failure_class (snd (open sample_node locked_host (fresh explicit_key)))
     = failure_class (snd (open sample_node wrong_key_host (fresh explicit_key))).
Proof. vm_compute. repeat split. Qed.

(** C9, as amended.  The key is resolved from the sources in a fixed order:
    (1) a non-empty explicit key is returned whatever the configuration
    holds; (2) without one, a truthy [key] field of config.json is returned;
    (3) when that field is missing and config.json has an [encryptedKey]
    field on macOS, the secret the keychain returns for "Signal Safe
    Storage", trimmed, is the password [decryptKey] unwraps the field with,
    and the result is returned; (4) when there is no explicit key and
    config.json is missing, has neither field to use, or cannot be read or
    parsed with an error whose message does not contain "Keychain", [open]
    fails with [KeyNotFound]; (5) when source (3) applies and the keychain
    lookup fails, or its secret does not unwrap the field, [open] fails with
    the keychain error instead. *)
Theorem key_resolution_order node host dir :
  (forall k,
      k <> EmptyString ->
      getEncryptionKey node host dir (Some k) = Ok (JStr k))
  /\ (forall providedKey text config plain,
         provided providedKey = false ->
         existsSync host (join node [dir; "config.json"]) = true ->
         readFileSync host (join node [dir; "config.json"]) = Ok text ->
         JSON_parse node text = Ok config ->
         get config "key" = Ok plain ->
         truthy plain = true ->
         getEncryptionKey node host dir providedKey = Ok plain)
  /\ (forall providedKey text config plain encrypted secret k,
         provided providedKey = false ->
         existsSync host (join node [dir; "config.json"]) = true ->
         readFileSync host (join node [dir; "config.json"]) = Ok text ->
         JSON_parse node text = Ok config ->
         get config "key" = Ok plain ->
         truthy plain = false ->
         get config "encryptedKey" = Ok encrypted ->
         truthy encrypted = true ->
         platform host = "darwin" ->
         security_find_generic_password host = Ok secret ->
         decryptKey node (trim secret) encrypted = Ok k ->
         getEncryptionKey node host dir providedKey = Ok (JStr k))
  /\ (forall this,
         db this = None ->
         existsSync host (join node [sourceDir this; "sql"; "db.sqlite"]) = true ->
         provided (or_optional (key this) (env_SIGNAL_KEY host)) = false ->
         existsSync host (join node [sourceDir this; "config.json"]) = false
         \/ (exists e,
                readFileSync host (join node [sourceDir this; "config.json"]) = Err e
                /\ includes (message e) "Keychain" = false)
         \/ (exists text e,
                readFileSync host (join node [sourceDir this; "config.json"]) = Ok text
                /\ JSON_parse node text = Err e
                /\ includes (message e) "Keychain" = false)
         \/ (exists text config plain encrypted,
                readFileSync host (join node [sourceDir this; "config.json"]) = Ok text
                /\ JSON_parse node text = Ok config
                /\ get config "key" = Ok plain
                /\ truthy plain = false
                /\ get config "encryptedKey" = Ok encrypted
                /\ (truthy encrypted = false \/ platform host <> "darwin")) ->
         getEncryptionKey node host (sourceDir this) (or_optional (key this) (env_SIGNAL_KEY host))
         = Ok JNull
         /\ open node host this
            = (this,
               Err (Throw KeyNotFound
                      ("Could not find Signal encryption key. "
                       +++ "Make sure config.json exists in " +++ sourceDir this
                       +++ " or provide the key manually."))))
  /\ (forall this text config plain encrypted,
         db this = None ->
         existsSync host (join node [sourceDir this; "sql"; "db.sqlite"]) = true ->
         provided (or_optional (key this) (env_SIGNAL_KEY host)) = false ->
         existsSync host (join node [sourceDir this; "config.json"]) = true ->
         readFileSync host (join node [sourceDir this; "config.json"]) = Ok text ->
         JSON_parse node text = Ok config ->
         get config "key" = Ok plain ->
         truthy plain = false ->
         get config "encryptedKey" = Ok encrypted ->
         truthy encrypted = true ->
         platform host = "darwin" ->
         (forall secret,
             security_find_generic_password host = Ok secret ->
             is_Ok (decryptKey node (trim secret) encrypted) = false) ->
         open node host this = (this, Err keychain_error)
         /\ thrownAt keychain_error = KeychainDenied).
Proof.
  split; [|split; [|split; [|split]]].
  - intros k Hk. unfold getEncryptionKey. cbn [provided].
    destruct (String.eqb_spec k EmptyString); [contradiction|reflexivity].
  - intros providedKey text config plain Hnone Hfile Hread Hparse Hget Hplain.
    unfold getEncryptionKey, read_config_key.
    rewrite Hnone, Hfile, Hread. cbn [bind]. rewrite Hparse. cbn [bind].
    rewrite Hget. cbn [bind]. now rewrite Hplain.
  - intros providedKey text config plain encrypted secret k
           Hnone Hfile Hread Hparse Hget Hplain Hget' Henc Hos Hsecret Hdecrypt.
    unfold getEncryptionKey, read_config_key.
    rewrite Hnone, Hfile, Hread. cbn [bind]. rewrite Hparse. cbn [bind].
    rewrite Hget. cbn [bind]. rewrite Hplain, Hget'. cbn [bind].
    rewrite Henc, Hos, Hsecret. cbn [bind andb String.eqb Ascii.eqb Bool.eqb].
    now rewrite Hdecrypt.
  - intros this Hdb Hfile Hnone Hconfig.
    assert (Hkey : getEncryptionKey node host (sourceDir this)
                     (or_optional (key this) (env_SIGNAL_KEY host)) = Ok JNull).
    { unfold getEncryptionKey, read_config_key. rewrite Hnone.
      destruct Hconfig
        as [Habsent|[(e & Hread & He)|[(text & e & Hread & Hparse & He)
           |(text & config & plain & encrypted & Hread & Hparse & Hget & Hplain
             & Hget' & Henc)]]].
      - now rewrite Habsent.
      - destruct (existsSync host (join node [_; "config.json"])); [|reflexivity].
        rewrite Hread. cbn [bind]. now rewrite He.
      - destruct (existsSync host (join node [_; "config.json"])); [|reflexivity].
        rewrite Hread. cbn [bind]. rewrite Hparse. cbn [bind]. now rewrite He.
      - destruct (existsSync host (join node [_; "config.json"])); [|reflexivity].
        rewrite Hread. cbn [bind]. rewrite Hparse. cbn [bind].
        rewrite Hget. cbn [bind]. rewrite Hplain, Hget'. cbn [bind].
        destruct Henc as [->|Hos]; [reflexivity|].
        destruct (String.eqb_spec (platform host) "darwin"); [contradiction|].
        now rewrite andb_false_r. }
    split; [exact Hkey|].
    unfold open. now rewrite Hdb, Hfile, Hkey.
  - intros this text config plain encrypted
           Hdb Hfile Hnone Hconfig Hread Hparse Hget Hplain Hget' Henc Hos Hfail.
    split; [|reflexivity].
    eapply keychain_failure_rethrown; eassumption.
Qed.

Lemma key_resolution_order_witness :
  getEncryptionKey sample_node config_key_host signal_dir (Some "a1b2c3")
  = Ok (JStr "a1b2c3")
  /\ getEncryptionKey sample_node config_key_host signal_dir None
     = Ok (JStr "00112233445566778899aabbccddeeff")
  /\ getEncryptionKey sample_node keychain_host signal_dir None
     = Ok (JStr "ffeeddccbbaa99887766554433221100")
  /\ open sample_node keyless_host (fresh None)
     = (fresh None,
        Err (Throw KeyNotFound
               ("Could not find Signal encryption key. "
                +++ "Make sure config.json exists in /home/alice/.config/Signal"
                +++ " or provide the key manually.")))
  /\ security_find_generic_password sandboxed_mac = no_keychain
  /\ open sample_node sandboxed_mac (fresh None) = (fresh None, Err keychain_error).
Proof.
  destruct (key_resolution_order sample_node config_key_host signal_dir)
    as (Hexplicit & Hplain & _ & _ & _).
  destruct (key_resolution_order sample_node keychain_host signal_dir)
    as (_ & _ & Hkeychain & _ & _).
  destruct (key_resolution_order sample_node keyless_host signal_dir)
    as (_ & _ & _ & Hnone & _).
  destruct (key_resolution_order sample_node sandboxed_mac signal_dir)
    as (_ & _ & _ & _ & Hdenied).
  split; [|split; [|split; [|split; [|split]]]].
  - apply Hexplicit. discriminate.
  - apply (Hplain None config_with_key
             (JObj [("key", JStr "00112233445566778899aabbccddeeff")])
             (JStr "00112233445566778899aabbccddeeff")); reflexivity.
  - apply (Hkeychain None config_with_encryptedKey
             (JObj [("encryptedKey", JStr sample_encryptedKey)])
             JUndefined (JStr sample_encryptedKey) ("safe storage" +++ newline)
             "ffeeddccbbaa99887766554433221100");
      try reflexivity; vm_compute; reflexivity.
  - apply (Hnone (fresh None)); try reflexivity. left. reflexivity.
  - reflexivity.
  - apply (Hdenied (fresh None) config_with_encryptedKey
             (JObj [("encryptedKey", JStr sample_encryptedKey)])
             JUndefined (JStr sample_encryptedKey)); try reflexivity.
    intros secret Hsecret. discriminate Hsecret.
Defined.

(** C9 as stated fails on two machines where no source yields a key.  On
    a Mac whose keychain refuses the lookup, [open] fails with the keychain
    error, not with [KeyNotFound].  On a machine where reading config.json
    fails with an error whose message contains the word "Keychain", here
    through the path of the file, [open] rethrows the error of the file
    system. *)
Lemma no_key_is_not_always_KeyNotFound :
  provided (or_optional (key (fresh None)) (env_SIGNAL_KEY sandboxed_mac)) = false
  /\ security_find_generic_password sandboxed_mac
     = Err (lib_error "Command failed: security find-generic-password")
  /\ snd (open sample_node sandboxed_mac (fresh None)) = Err keychain_error
  /\ failure_class (snd (open sample_node sandboxed_mac (fresh None)))
     = Some KeychainDenied
  /\ provided (or_optional (key restored) (env_SIGNAL_KEY restored_mac)) = false
  /\ readFileSync restored_mac (join sample_node [sourceDir restored; "config.json"])
     = Err unreadable_config
  /\ open sample_node restored_mac restored
     = (restored,
        Err (Throw LibraryError
               ("EACCES: permission denied, open "
                +++ "'/Users/alice/Keychain backup/Signal/config.json'")))
  /\ failure_class (snd (open sample_node restored_mac restored)) = Some LibraryError.
Proof. vm_compute. repeat split. Qed.




(** * Further properties of the repository, the session and the handler *)

(** ** What a repository method read *)

(** What a repository method returned was read on the handle [open]
    returned, from the conversation the name resolves to. *)
Lemma getChatMessages_Ok node host chatName limit offset this this' out :
  getChatMessages node host chatName limit offset this = (this', Ok out) ->
  exists h convs,
    open node host this = (this', Ok h)
    /\ table_conversations host h = Ok convs
    /\ match find_conversation chatName convs with
       | None => out = []
       | Some conversation =>
           exists msgs rows,
             table_messages host h = Ok msgs
             /\ select_messages limit offset (conv_id conversation) msgs = Ok rows
             /\ map_result
                  (fun msg => formatMessage node this' msg (shown_name node conversation))
                  rows
                = Ok out
       end.
Proof.
  unfold getChatMessages, mbind, the_fields, lift.
  destruct (open node host this) as [this1 [h|e]]; [|discriminate].
  destruct (table_conversations host h) as [convs|e] eqn:Hconvs; cbn [bind];
    [|discriminate].
  intros H. exists h, convs.
  destruct (find_conversation chatName convs) as [conversation|].
  - destruct (table_messages host h) as [msgs|e] eqn:Hmsgs; cbn [bind] in H;
      [|discriminate].
    destruct (select_messages limit offset (conv_id conversation) msgs)
      as [rows|e] eqn:Hrows; cbn [bind] in H; [|discriminate].
    injection H as <- H. repeat split; eauto.
  - injection H as <- <-. repeat split; auto.
Qed.

Lemma searchChat_Ok node host chatName query limit this this' out :
  searchChat node host chatName query limit this = (this', Ok out) ->
  exists h convs,
    open node host this = (this', Ok h)
    /\ table_conversations host h = Ok convs
    /\ match find_conversation chatName convs with
       | None => out = []
       | Some conversation =>
           exists msgs rows,
             table_messages host h = Ok msgs
             /\ search_messages query limit (conv_id conversation) msgs = Ok rows
             /\ map_result
                  (fun msg => formatMessage node this' msg (shown_name node conversation))
                  rows
                = Ok out
       end.
Proof.
  unfold searchChat, mbind, the_fields, lift.
  destruct (open node host this) as [this1 [h|e]]; [|discriminate].
  destruct (table_conversations host h) as [convs|e] eqn:Hconvs; cbn [bind];
    [|discriminate].
  intros H. exists h, convs.
  destruct (find_conversation chatName convs) as [conversation|].
  - destruct (table_messages host h) as [msgs|e] eqn:Hmsgs; cbn [bind] in H;
      [|discriminate].
    destruct (search_messages query limit (conv_id conversation) msgs)
      as [rows|e] eqn:Hrows; cbn [bind] in H; [|discriminate].
    injection H as <- H. repeat split; eauto.
  - injection H as <- <-. repeat split; auto.
Qed.

(** ** Unknown conversations *)

(** X1.  On a database that opens, a chat name that matches neither the
    name nor the profile name of a conversation makes [getChatMessages] and
    [searchChat] return the empty list, whatever the limit, the offset and
    the query: no error is raised and the messages table is not read. *)
Theorem unknown_chat_yields_no_messages node host this this' h convs chatName :
  open node host this = (this', Ok h) ->
  table_conversations host h = Ok convs ->
  find_conversation chatName convs = None ->
  (forall limit offset,
      getChatMessages node host chatName limit offset this = (this', Ok []))
  /\ (forall query limit,
         searchChat node host chatName query limit this = (this', Ok [])).
Proof.
  intros Hopen Hconvs Hfind. split; intros;
    unfold getChatMessages, searchChat, mbind, the_fields, lift;
    rewrite Hopen, Hconvs; cbn [bind]; now rewrite Hfind.
Qed.

Lemma unknown_chat_yields_no_messages_witness :
  open sample_node alice_host (fresh explicit_key)
  = (opened (JStr "owner-aci"), Ok opened_handle)
  /\ table_conversations alice_host opened_handle = Ok [alice]
  /\ find_conversation "Bob" [alice] = None
  /\ getChatMessages sample_node alice_host "Bob" (Some (Integer 5)) None
       (fresh explicit_key)
     = (opened (JStr "owner-aci"), Ok [])
  /\ searchChat sample_node alice_host "Bob" "hello" None (fresh explicit_key)
     = (opened (JStr "owner-aci"), Ok []).
Proof.
  assert (Hopen : open sample_node alice_host (fresh explicit_key)
                  = (opened (JStr "owner-aci"), Ok opened_handle))
    by (vm_compute; reflexivity).
  destruct (unknown_chat_yields_no_messages sample_node alice_host (fresh explicit_key)
              (opened (JStr "owner-aci")) opened_handle [alice] "Bob"
              Hopen eq_refl eq_refl) as [Hget Hsearch].
  split; [exact Hopen|]. do 2 (split; [reflexivity|]).
  split; [apply Hget|apply Hsearch].
Defined.

(** ** Pages *)

Lemma firstn_plus {A} (a b : nat) (l : list A) :
  firstn (a + b) l = firstn a l ++ firstn b (skipn a l).
Proof.
  revert l; induction a as [|a IH]; intros l; [reflexivity|].
  destruct l as [|x l]; cbn [Nat.add firstn skipn app].
  - now rewrite firstn_nil.
  - now rewrite IH.
Qed.

(** The listing of a conversation, as [getChatMessages] returns it without
    a limit and without an offset. *)
Lemma getChatMessages_listing
    node host this this' h convs msgs chatName conversation :
  open node host this = (this', Ok h) ->
  table_conversations host h = Ok convs ->
  table_messages host h = Ok msgs ->
  find_conversation chatName convs = Some conversation ->
  projectable node this' (shown_name node conversation)
    (messages_of (conv_id conversation) msgs) = true ->
  exists listing,
    map_result (fun msg => formatMessage node this' msg (shown_name node conversation))
      (all_messages (conv_id conversation) msgs) = Ok listing
    /\ getChatMessages node host chatName None None this = (this', Ok listing)
    /\ formatted node this' (shown_name node conversation)
         (all_messages (conv_id conversation) msgs) listing.
Proof.
  intros Hopen Hconvs Hmsgs Hfind Hproj.
  destruct (listing_projects node this' (shown_name node conversation)
              (conv_id conversation) msgs Hproj) as (listing & Hall & Hfmt).
  exists listing. split; [exact Hall|]. split; [|exact Hfmt].
  rewrite (getChatMessages_rows _ _ _ _ _ _ _ _ _ _ _ Hopen Hconvs Hmsgs Hfind).
  fold (shown_name node conversation).
  rewrite select_messages_all by auto. cbn [bind]. now rewrite Hall.
Qed.

(** X2.  Pages are consecutive windows of one listing.  On a database that
    opens and whose rows project, [getChatMessages] without limit and offset
    returns a listing that holds the projection of every message of the
    conversation exactly once, and with a limit [k] and an offset [o],
    [1 <= k < 2^63] and [0 <= o < 2^63], it returns the entries
    [o .. o + k - 1] of that listing.  So the page of [k1] messages at offset
    [o] followed by the page of [k2] messages at offset [o + k1] is the page
    of [k1 + k2] messages at offset [o]: paging through a conversation
    neither skips nor repeats a message. *)
Theorem getChatMessages_pages_compose
    node host this this' h convs msgs chatName conversation :
  open node host this = (this', Ok h) ->
  table_conversations host h = Ok convs ->
  table_messages host h = Ok msgs ->
  find_conversation chatName convs = Some conversation ->
  projectable node this' (shown_name node conversation)
    (messages_of (conv_id conversation) msgs) = true ->
  exists listing,
    getChatMessages node host chatName None None this = (this', Ok listing)
    /\ formatted node this' (shown_name node conversation)
         (all_messages (conv_id conversation) msgs) listing
    /\ Permutation (all_messages (conv_id conversation) msgs)
         (messages_of (conv_id conversation) msgs)
    /\ (forall k o,
           0 < k < 2 ^ 63 -> 0 <= o < 2 ^ 63 ->
           getChatMessages node host chatName (Some (Integer k)) (Some (Integer o)) this
           = (this', Ok (firstn (Z.to_nat k) (skipn (Z.to_nat o) listing))))
    /\ (forall k1 k2 o,
           0 < k1 -> 0 < k2 -> 0 <= o -> k1 + k2 < 2 ^ 63 -> o + k1 < 2 ^ 63 ->
           getChatMessages node host chatName (Some (Integer (k1 + k2))) (Some (Integer o))
             this
           = (this',
              Ok (firstn (Z.to_nat k1) (skipn (Z.to_nat o) listing)
                  ++ firstn (Z.to_nat k2) (skipn (Z.to_nat (o + k1)) listing)))).
Proof.
  intros Hopen Hconvs Hmsgs Hfind Hproj.
  destruct (getChatMessages_listing node host this this' h convs msgs chatName
              conversation Hopen Hconvs Hmsgs Hfind Hproj)
    as (listing & Hall & Hrun & Hfmt).
  exists listing. split; [exact Hrun|]. split; [exact Hfmt|].
  split; [apply all_messages_perm|].
  assert (Hpage : forall k o,
             0 < k < 2 ^ 63 -> 0 <= o < 2 ^ 63 ->
             getChatMessages node host chatName (Some (Integer k)) (Some (Integer o)) this
             = (this', Ok (firstn (Z.to_nat k) (skipn (Z.to_nat o) listing)))).
  { intros k o Hk Ho.
    rewrite (getChatMessages_rows _ _ _ _ _ _ _ _ _ _ _ Hopen Hconvs Hmsgs Hfind).
    fold (shown_name node conversation).
    rewrite select_messages_limit by (unfold sql_range; lia). cbn [bind].
    rewrite sql_window_page by lia.
    now rewrite (map_result_firstn _ _ _ _ (map_result_skipn _ _ _ _ Hall)). }
  split; [exact Hpage|].
  intros k1 k2 o Hk1 Hk2 Ho Hsum Hnext.
  rewrite Hpage by lia. do 2 f_equal.
  rewrite !Z2Nat.inj_add by lia.
  rewrite firstn_plus, skipn_skipn.
  now rewrite (Nat.add_comm (Z.to_nat k1) (Z.to_nat o)).
Qed.

Lemma getChatMessages_pages_compose_witness :
  open sample_node alice_host (fresh explicit_key)
  = (opened (JStr "owner-aci"), Ok opened_handle)
  /\ table_conversations alice_host opened_handle = Ok [alice]
  /\ table_messages alice_host opened_handle = Ok three_messages
  /\ find_conversation "Alice" [alice] = Some alice
  /\ projectable sample_node (opened (JStr "owner-aci")) (shown_name sample_node alice)
       (messages_of (conv_id alice) three_messages) = true
  /\ 0 < 1 < 2 ^ 63 /\ 0 <= 1 < 2 ^ 63
  /\ exists listing,
       getChatMessages sample_node alice_host "Alice" None None (fresh explicit_key)
       = (opened (JStr "owner-aci"), Ok listing)
       /\ getChatMessages sample_node alice_host "Alice" (Some (Integer 1)) (Some (Integer 1))
            (fresh explicit_key)
          = (opened (JStr "owner-aci"),
             Ok (firstn (Z.to_nat 1) (skipn (Z.to_nat 1) listing))).
Proof.
  assert (Hopen : open sample_node alice_host (fresh explicit_key)
                  = (opened (JStr "owner-aci"), Ok opened_handle))
    by (vm_compute; reflexivity).
  assert (Hproj : projectable sample_node (opened (JStr "owner-aci"))
                    (shown_name sample_node alice)
                    (messages_of (conv_id alice) three_messages) = true)
    by (vm_compute; reflexivity).
  split; [exact Hopen|]. do 3 (split; [reflexivity|]). split; [exact Hproj|].
  do 2 (split; [lia|]).
  destruct (getChatMessages_pages_compose sample_node alice_host (fresh explicit_key)
              (opened (JStr "owner-aci")) opened_handle [alice] three_messages "Alice"
              alice Hopen eq_refl eq_refl eq_refl Hproj)
    as (listing & Hrun & _ & _ & Hpage & _).
  exists listing. split; [exact Hrun|].
  apply Hpage; lia.
Defined.

(** ** Searching is filtering the listing *)

Lemma insert_desc_head {A} (key : A -> Z) (x : A) (l : list A) :
  (forall y, In y l -> key y <= key x) ->
  insert_desc key x l = x :: l.
Proof.
  intros Hle. destruct l as [|y l]; [reflexivity|]. cbn [insert_desc].
  destruct (Z.leb_spec (key y) (key x)) as [_|Hgt]; [reflexivity|].
  specialize (Hle y (or_introl eq_refl)). lia.
Qed.

Lemma descending_filter {A} (key : A -> Z) (p : A -> bool) (l : list A) :
  descending key l -> descending key (filter p l).
Proof.
  unfold descending. induction 1 as [|z s Hs IHs Hz]; cbn [filter]; [constructor|].
  destruct (p z); [|exact IHs]. constructor; [exact IHs|].
  rewrite Forall_forall in *. intros w Hw. apply Hz.
  now apply filter_In in Hw.
Qed.

Lemma filter_insert_desc {A} (key : A -> Z) (p : A -> bool) (x : A) (l : list A) :
  descending key l ->
  filter p (insert_desc key x l)
  = if p x then insert_desc key x (filter p l) else filter p l.
Proof.
  intros Hsorted. induction Hsorted as [|y l Hl IH Hy].
  - cbn. now destruct (p x).
  - cbn [insert_desc]. destruct (Z.leb_spec (key y) (key x)) as [Hle|Hgt].
    + change (filter p (x :: y :: l))
        with (if p x then x :: filter p (y :: l) else filter p (y :: l)).
      destruct (p x); [|reflexivity].
      symmetry. apply insert_desc_head.
      intros z Hz. apply filter_In in Hz as [[<-|Hz] _]; [exact Hle|].
      rewrite Forall_forall in Hy. specialize (Hy z Hz). lia.
    + cbn [filter]. rewrite IH. destruct (p y), (p x); try reflexivity.
      cbn [insert_desc]. destruct (Z.leb_spec (key y) (key x)); [lia|reflexivity].
Qed.

(** Sorting the rows that pass a test is keeping the rows that pass it in
    the sorted table: the rows keep their relative order, ties included. *)
Lemma order_by_desc_filter {A} (key : A -> Z) (p : A -> bool) (l : list A) :
  order_by_desc key (filter p l) = filter p (order_by_desc key l).
Proof.
  induction l as [|x l IH]; [reflexivity|].
  cbn [filter order_by_desc].
  rewrite filter_insert_desc by apply order_by_desc_descending.
  destruct (p x); [|exact IH]. cbn [order_by_desc]. now rewrite IH.
Qed.

Lemma matching_messages_filter query cid msgs :
  pattern_fits query ->
  matching_messages query cid msgs
  = Ok (filter (body_like query) (all_messages cid msgs)).
Proof.
  intros Hfits. rewrite matching_messages_fits by exact Hfits.
  unfold all_messages. now rewrite order_by_desc_filter.
Qed.

Lemma filtered_rows_project node this contactName query cid msgs :
  projectable node this contactName (messages_of cid msgs) = true ->
  exists hits,
    map_result (fun msg => formatMessage node this msg contactName)
      (filter (body_like query) (all_messages cid msgs)) = Ok hits
    /\ formatted node this contactName
         (filter (body_like query) (all_messages cid msgs)) hits.
Proof.
  intros Hproj. apply map_result_Forall2.
  eapply forallb_incl; [|exact Hproj].
  intros m Hm. apply filter_In in Hm as [Hm _]. now apply all_messages_incl.
Qed.

(** X4.  On a database that opens and whose rows project, and for a query
    whose pattern the LIKE operator accepts (the query is at most 49998
    bytes long), what [searchChat] returns is what [getChatMessages] lists
    for the conversation, restricted to the rows whose body is LIKE the
    pattern built from the query and kept in the order of the listing; a
    limit [k], [1 <= k < 2^63], keeps the first [k] of them, so at most [k]
    messages are returned. *)
Theorem searchChat_filters_the_listing
    node host this this' h convs msgs chatName conversation query :
  open node host this = (this', Ok h) ->
  table_conversations host h = Ok convs ->
  table_messages host h = Ok msgs ->
  find_conversation chatName convs = Some conversation ->
  projectable node this' (shown_name node conversation)
    (messages_of (conv_id conversation) msgs) = true ->
  pattern_fits query ->
  exists out hits,
    getChatMessages node host chatName None None this = (this', Ok out)
    /\ formatted node this' (shown_name node conversation)
         (all_messages (conv_id conversation) msgs) out
    /\ searchChat node host chatName query None this = (this', Ok hits)
    /\ formatted node this' (shown_name node conversation)
         (filter (body_like query) (all_messages (conv_id conversation) msgs)) hits
    /\ (forall k,
           0 < k < 2 ^ 63 ->
           searchChat node host chatName query (Some (Integer k)) this
           = (this', Ok (firstn (Z.to_nat k) hits))
           /\ formatted node this' (shown_name node conversation)
                (firstn (Z.to_nat k)
                   (filter (body_like query) (all_messages (conv_id conversation) msgs)))
                (firstn (Z.to_nat k) hits)
           /\ Z.of_nat (length (firstn (Z.to_nat k) hits)) <= k).
Proof.
  intros Hopen Hconvs Hmsgs Hfind Hproj Hfits.
  destruct (getChatMessages_listing node host this this' h convs msgs chatName
              conversation Hopen Hconvs Hmsgs Hfind Hproj)
    as (out & _ & Hrun & Hfmt).
  destruct (filtered_rows_project node this' (shown_name node conversation) query
              (conv_id conversation) msgs Hproj) as (hits & Hhits & Hsome).
  exists out, hits. split; [exact Hrun|]. split; [exact Hfmt|].
  split; [|split; [exact Hsome|]].
  - rewrite (searchChat_rows _ _ _ _ _ _ _ _ _ _ _ Hopen Hconvs Hmsgs Hfind).
    fold (shown_name node conversation).
    rewrite search_messages_unlimited, matching_messages_filter by auto.
    cbn [bind]. now rewrite Hhits.
  - intros k Hk.
    rewrite (searchChat_rows _ _ _ _ _ _ _ _ _ _ _ Hopen Hconvs Hmsgs Hfind).
    fold (shown_name node conversation).
    rewrite search_messages_limit by (unfold sql_range; lia).
    rewrite matching_messages_filter by exact Hfits. cbn [bind].
    rewrite (map_result_firstn _ (Z.to_nat k) _ _ Hhits).
    split; [reflexivity|]. split.
    + apply map_result_Ok, map_result_firstn, Hhits.
    + rewrite length_firstn. lia.
Qed.

Lemma searchChat_filters_the_listing_witness :
  open sample_node alice_host (fresh explicit_key)
  = (opened (JStr "owner-aci"), Ok opened_handle)
  /\ table_conversations alice_host opened_handle = Ok [alice]
  /\ table_messages alice_host opened_handle = Ok three_messages
  /\ find_conversation "Alice" [alice] = Some alice
  /\ projectable sample_node (opened (JStr "owner-aci")) (shown_name sample_node alice)
       (messages_of (conv_id alice) three_messages) = true
  /\ pattern_fits "h"
  /\ 0 < 1 < 2 ^ 63
  /\ exists hits,
       searchChat sample_node alice_host "Alice" "h" None (fresh explicit_key)
       = (opened (JStr "owner-aci"), Ok hits)
       /\ searchChat sample_node alice_host "Alice" "h" (Some (Integer 1))
            (fresh explicit_key)
          = (opened (JStr "owner-aci"), Ok (firstn (Z.to_nat 1) hits))
       /\ Z.of_nat (length (firstn (Z.to_nat 1) hits)) <= 1.
Proof.
  assert (Hopen : open sample_node alice_host (fresh explicit_key)
                  = (opened (JStr "owner-aci"), Ok opened_handle))
    by (vm_compute; reflexivity).
  assert (Hproj : projectable sample_node (opened (JStr "owner-aci"))
                    (shown_name sample_node alice)
                    (messages_of (conv_id alice) three_messages) = true)
    by (vm_compute; reflexivity).
  assert (Hfits : pattern_fits "h") by (unfold pattern_fits; cbn; lia).
  split; [exact Hopen|]. do 3 (split; [reflexivity|]). split; [exact Hproj|].
  split; [exact Hfits|]. split; [lia|].
  destruct (searchChat_filters_the_listing sample_node alice_host (fresh explicit_key)
              (opened (JStr "owner-aci")) opened_handle [alice] three_messages "Alice"
              alice "h" Hopen eq_refl eq_refl eq_refl Hproj Hfits)
    as (out & hits & _ & _ & Hrun & _ & Hcut).
  destruct (Hcut 1 ltac:(lia)) as (Hfirst & _ & Hlen).
  exists hits. split; [exact Hrun|]. split; [exact Hfirst|exact Hlen].
Defined.

(** X3.  When the query holds no percent sign, no underscore and no NUL
    byte, and is at most 49998 bytes long, [searchChat] without a limit
    returns the projections of exactly the messages of the conversation
    whose body, read up to its first NUL byte, contains the characters of
    the query, letters A-Z and a-z matching regardless of case, most recent
    first; a message without a body is never returned. *)
Theorem searchChat_literal_query
    node host this this' h convs msgs chatName conversation query :
  open node host this = (this', Ok h) ->
  table_conversations host h = Ok convs ->
  table_messages host h = Ok msgs ->
  find_conversation chatName convs = Some conversation ->
  projectable node this' (shown_name node conversation)
    (messages_of (conv_id conversation) msgs) = true ->
  wildcard_free (list_byte_of_string query) ->
  pattern_fits query ->
  exists rows hits,
    searchChat node host chatName query None this = (this', Ok hits)
    /\ formatted node this' (shown_name node conversation) rows hits
    /\ descending msg_timestamp rows
    /\ rows = filter (body_contains query) (all_messages (conv_id conversation) msgs)
    /\ (forall m, In m rows <->
                  In m (messages_of (conv_id conversation) msgs)
                  /\ body_contains query m = true)
    /\ (forall m, In m rows -> msg_body m <> None).
Proof.
  intros Hopen Hconvs Hmsgs Hfind Hproj Hq Hfits.
  destruct (filtered_rows_project node this' (shown_name node conversation) query
              (conv_id conversation) msgs Hproj) as (hits & Hhits & Hsome).
  assert (Hsame : filter (body_like query) (all_messages (conv_id conversation) msgs)
                  = filter (body_contains query)
                      (all_messages (conv_id conversation) msgs)).
  { apply filter_ext. intros m. now apply body_like_literal. }
  exists (filter (body_contains query) (all_messages (conv_id conversation) msgs)), hits.
  split; [|split; [now rewrite <- Hsame|split; [|split; [reflexivity|split]]]].
  - rewrite (searchChat_rows _ _ _ _ _ _ _ _ _ _ _ Hopen Hconvs Hmsgs Hfind).
    fold (shown_name node conversation).
    rewrite search_messages_unlimited, matching_messages_filter by auto.
    cbn [bind]. now rewrite Hhits.
  - apply descending_filter, all_messages_descending.
  - intros m. rewrite filter_In. unfold all_messages.
    now rewrite order_by_desc_In.
  - intros m Hm Hnone. apply filter_In in Hm as [_ Hbody].
    unfold body_contains in Hbody. now rewrite Hnone in Hbody.
Qed.

Lemma searchChat_literal_query_witness :
  open sample_node alice_host (fresh explicit_key)
  = (opened (JStr "owner-aci"), Ok opened_handle)
  /\ table_conversations alice_host opened_handle = Ok [alice]
  /\ table_messages alice_host opened_handle = Ok three_messages
  /\ find_conversation "Alice" [alice] = Some alice
  /\ projectable sample_node (opened (JStr "owner-aci")) (shown_name sample_node alice)
       (messages_of (conv_id alice) three_messages) = true
  /\ wildcard_free (list_byte_of_string "HELLO")
  /\ pattern_fits "HELLO"
  /\ exists rows hits,
       searchChat sample_node alice_host "Alice" "HELLO" None (fresh explicit_key)
       = (opened (JStr "owner-aci"), Ok hits)
       /\ formatted sample_node (opened (JStr "owner-aci")) (shown_name sample_node alice)
            rows hits
       /\ (In m_hello rows <->
           In m_hello (messages_of (conv_id alice) three_messages)
           /\ body_contains "HELLO" m_hello = true).
Proof.
  assert (Hopen : open sample_node alice_host (fresh explicit_key)
                  = (opened (JStr "owner-aci"), Ok opened_handle))
    by (vm_compute; reflexivity).
  assert (Hproj : projectable sample_node (opened (JStr "owner-aci"))
                    (shown_name sample_node alice)
                    (messages_of (conv_id alice) three_messages) = true)
    by (vm_compute; reflexivity).
  assert (Hq : wildcard_free (list_byte_of_string "HELLO"))
    by (repeat constructor; discriminate).
  assert (Hfits : pattern_fits "HELLO") by (unfold pattern_fits; cbn; lia).
  split; [exact Hopen|]. do 3 (split; [reflexivity|]). split; [exact Hproj|].
  split; [exact Hq|]. split; [exact Hfits|].
  destruct (searchChat_literal_query sample_node alice_host (fresh explicit_key)
              (opened (JStr "owner-aci")) opened_handle [alice] three_messages "Alice"
              alice "HELLO" Hopen eq_refl eq_refl eq_refl Hproj Hq Hfits)
    as (rows & hits & Hrun & Hfmt & _ & _ & Hiff & _).
  exists rows, hits. split; [exact Hrun|]. split; [exact Hfmt|apply Hiff].
Defined.

(** ** Listing the chats *)

Lemma strict_eq_JStr (i : string) (v : jsval) :
  strict_eq (JStr i) v = true <-> v = JStr i.
Proof.
  destruct v; cbn; split; try discriminate.
  - intros H. apply String.eqb_eq in H. now subst.
  - intros H. injection H as ->. apply String.eqb_refl.
Qed.

(** X5.  On a database that opens, [listChats] returns: every chat it lists
    comes from a conversation row of type "private" or "group", carries as
    [totalMessages] the number of message rows of that conversation, and has
    at least one message unless [includeEmpty] is true; and without a
    [chats] filter every private or group conversation that has a message,
    or any such conversation when [includeEmpty] is true, is listed. *)
Theorem listChats_counts node host this this' h convs msgs chats includeEmpty :
  open node host this = (this', Ok h) ->
  table_conversations host h = Ok convs ->
  table_messages host h = Ok msgs ->
  exists listed,
    listChats node host chats includeEmpty this = (this', Ok listed)
    /\ (forall c,
           In c listed ->
           (chat_type c = "private" \/ chat_type c = "group")
           /\ totalMessages c = Z.of_nat (length (messages_of (chat_id c) msgs))
           /\ (includeEmpty <> Some true -> 0 < totalMessages c)
           /\ exists conv, In conv convs /\ conv_id conv = chat_id c)
    /\ (provided chats = false ->
        forall conv,
          In conv convs ->
          conv_type conv = "private" \/ conv_type conv = "group" ->
          includeEmpty = Some true
          \/ messages_of (conv_id conv) msgs <> [] ->
          exists c,
            In c listed
            /\ chat_id c = conv_id conv
            /\ chat_name c = js_or (displayName node conv) JNull).
Proof.
  intros Hopen Hconvs Hmsgs.
  unfold listChats, mbind, lift. rewrite Hopen, Hconvs. cbn [bind].
  rewrite Hmsgs. cbn [bind].
  match goal with
  | |- context [flat_map ?f ?l] => set (infos := flat_map f l)
  end.
  assert (Hinfo : forall c,
             In c infos ->
             (chat_type c = "private" \/ chat_type c = "group")
             /\ totalMessages c = Z.of_nat (length (messages_of (chat_id c) msgs))
             /\ (includeEmpty <> Some true -> 0 < totalMessages c)
             /\ exists conv, In conv convs /\ conv_id conv = chat_id c).
  { intros c Hc. apply in_flat_map in Hc as (conv & Hconv & Hc).
    apply filter_In in Hconv as [Hconv Htype].
    destruct (negb match includeEmpty with Some b => b | None => false end
              && (Z.of_nat (length (messages_of (conv_id conv) msgs)) =? 0)) eqn:Hskip;
      [destruct Hc|].
    destruct Hc as [<-|[]]. cbn [chat_type chat_id totalMessages].
    split; [|split; [reflexivity|split; [|eauto]]].
    - apply orb_true_iff in Htype as [H|H]; apply String.eqb_eq in H; auto.
    - intros Hinc. apply andb_false_iff in Hskip as [Hskip|Hskip].
      + destruct includeEmpty as [[|]|]; cbn in Hskip; congruence.
      + apply Z.eqb_neq in Hskip. lia. }
  destruct (provided chats) eqn:Hchats.
  - eexists. split; [reflexivity|]. split; [|discriminate].
    intros c Hc. apply filter_In in Hc as [Hc _]. auto.
  - exists infos. split; [reflexivity|]. split; [exact Hinfo|].
    intros _ conv Hconv Htype Hkeep.
    exists {| chat_id := conv_id conv;
              chat_serviceId := js_or (of_text (conv_serviceId conv)) (JStr (conv_id conv));
              chat_name := js_or (displayName node conv) JNull;
              chat_number := conv_e164 conv;
              chat_profileName := conv_profileName conv;
              chat_type := conv_type conv;
              totalMessages := Z.of_nat (length (messages_of (conv_id conv) msgs)) |}.
    split; [|split; reflexivity].
    apply in_flat_map. exists conv. split.
    + apply filter_In. split; [exact Hconv|].
      destruct Htype as [-> | ->]; reflexivity.
    + destruct Hkeep as [-> |Hne]; cbn [negb andb]; [now left|].
      destruct (Z.eqb_spec (Z.of_nat (length (messages_of (conv_id conv) msgs))) 0)
        as [Hzero|_].
      * destruct (messages_of (conv_id conv) msgs); [contradiction|discriminate].
      * rewrite andb_false_r. now left.
Qed.

Lemma listChats_counts_witness :
  open sample_node three_chat_host (fresh explicit_key)
  = (opened (JStr "owner-aci"), Ok opened_handle)
  /\ table_conversations three_chat_host opened_handle
     = Ok [alice; book_club; release_notes]
  /\ table_messages three_chat_host opened_handle = Ok three_messages
  /\ exists listed,
       listChats sample_node three_chat_host None None (fresh explicit_key)
       = (opened (JStr "owner-aci"), Ok listed)
       /\ (forall c, In c listed -> 0 < totalMessages c)
       /\ exists c, In c listed /\ chat_id c = "c1".
Proof.
  assert (Hopen : open sample_node three_chat_host (fresh explicit_key)
                  = (opened (JStr "owner-aci"), Ok opened_handle))
    by (vm_compute; reflexivity).
  split; [exact Hopen|]. do 2 (split; [reflexivity|]).
  destruct (listChats_counts sample_node three_chat_host (fresh explicit_key)
              (opened (JStr "owner-aci")) opened_handle
              [alice; book_club; release_notes] three_messages None None
              Hopen eq_refl eq_refl) as (listed & Hrun & Hall & Hcomplete).
  exists listed. split; [exact Hrun|]. split.
  - intros c Hc. apply Hall in Hc as (_ & _ & Hpos & _). apply Hpos. discriminate.
  - destruct (Hcomplete eq_refl alice (or_introl eq_refl) (or_introl eq_refl))
      as (c & Hc & Hid & _).
    + right. discriminate.
    + exists c. split; [exact Hc|exact Hid].
Defined.

(** X6.  The [chats] option of [listChats] only narrows the listing: with
    a comma-separated list of identifiers, each trimmed of white space, it
    returns exactly the chats of the unfiltered listing whose identifier or
    service identifier is one of them; an empty string filters nothing. *)
Theorem listChats_filter node host this this' h convs msgs ids includeEmpty :
  open node host this = (this', Ok h) ->
  table_conversations host h = Ok convs ->
  table_messages host h = Ok msgs ->
  ids <> EmptyString ->
  exists everything selected,
    listChats node host None includeEmpty this = (this', Ok everything)
    /\ listChats node host (Some EmptyString) includeEmpty this = (this', Ok everything)
    /\ listChats node host (Some ids) includeEmpty this = (this', Ok selected)
    /\ (forall c,
           In c selected <->
           In c everything
           /\ (In (chat_id c) (map trim (split_comma ids))
               \/ exists i, In i (map trim (split_comma ids))
                            /\ chat_serviceId c = JStr i)).
Proof.
  intros Hopen Hconvs Hmsgs Hids.
  unfold listChats, mbind, lift. rewrite Hopen, Hconvs. cbn [bind].
  rewrite Hmsgs. cbn [bind].
  match goal with
  | |- context [flat_map ?f ?l] => set (infos := flat_map f l)
  end.
  assert (Hgiven : provided (Some ids) = true).
  { cbn. destruct (String.eqb_spec ids EmptyString); [contradiction|reflexivity]. }
  rewrite Hgiven. cbn [provided String.eqb negb text_of].
  eexists; eexists. do 3 (split; [reflexivity|]).
  intros c. rewrite filter_In, orb_true_iff, !existsb_exists. split.
  - intros [Hc [(i & Hi & Heq)|(i & Hi & Heq)]]; (split; [exact Hc|]).
    + left. apply String.eqb_eq in Heq. now subst.
    + right. exists i. split; [exact Hi|]. now apply strict_eq_JStr.
  - intros [Hc [Hid|(i & Hi & Heq)]]; (split; [exact Hc|]).
    + left. exists (chat_id c). split; [exact Hid|apply String.eqb_refl].
    + right. exists i. split; [exact Hi|]. now apply strict_eq_JStr.
Qed.

Lemma listChats_filter_witness :
  open sample_node three_chat_host (fresh explicit_key)
  = (opened (JStr "owner-aci"), Ok opened_handle)
  /\ table_conversations three_chat_host opened_handle
     = Ok [alice; book_club; release_notes]
  /\ table_messages three_chat_host opened_handle = Ok three_messages
  /\ "c2, alice-aci" <> EmptyString
  /\ exists everything selected,
       listChats sample_node three_chat_host None (Some true) (fresh explicit_key)
       = (opened (JStr "owner-aci"), Ok everything)
       /\ listChats sample_node three_chat_host (Some "c2, alice-aci") (Some true)
            (fresh explicit_key)
          = (opened (JStr "owner-aci"), Ok selected)
       /\ (forall c,
              In c selected <->
              In c everything
              /\ (In (chat_id c) (map trim (split_comma "c2, alice-aci"))
                  \/ exists i, In i (map trim (split_comma "c2, alice-aci"))
                               /\ chat_serviceId c = JStr i)).
Proof.
  assert (Hopen : open sample_node three_chat_host (fresh explicit_key)
                  = (opened (JStr "owner-aci"), Ok opened_handle))
    by (vm_compute; reflexivity).
  assert (Hids : "c2, alice-aci" <> EmptyString) by discriminate.
  split; [exact Hopen|]. do 2 (split; [reflexivity|]). split; [exact Hids|].
  destruct (listChats_filter sample_node three_chat_host (fresh explicit_key)
              (opened (JStr "owner-aci")) opened_handle
              [alice; book_club; release_notes] three_messages "c2, alice-aci"
              (Some true) Hopen eq_refl eq_refl Hids)
    as (everything & selected & Hall & _ & Hsel & Hiff).
  exists everything, selected. auto.
Defined.

(** ** The session *)

(** X7.  A successful [open] on an instance without a handle leaves the
    instance holding the handle it returns: a connection on
    [<sourceDir>/sql/db.sqlite] that received exactly the five pragmas, the
    resolved key first, and on which the probe query succeeded; the key and
    the directory of the instance are unchanged.  From then on [open] returns
    that same handle without consulting the files, the key sources or the
    engine again, whatever they have become. *)
Theorem open_configures_the_session node host this this' h :
  db this = None ->
  open node host this = (this', Ok h) ->
  (exists encKey,
      getEncryptionKey node host (sourceDir this)
        (or_optional (key this) (env_SIGNAL_KEY host)) = Ok encKey
      /\ truthy encKey = true
      /\ h = {| handle_path := join node [sourceDir this; "sql"; "db.sqlite"];
                handle_pragmas :=
                  [ PragmaKey encKey;
                    PragmaSet "cipher_page_size = 4096";
                    PragmaSet "kdf_iter = 64000";
                    PragmaSet "cipher_hmac_algorithm = HMAC_SHA512";
                    PragmaSet "cipher_kdf_algorithm = PBKDF2_HMAC_SHA512" ] |})
  /\ db this' = Some h
  /\ select_1 host h = Ok tt
  /\ key this' = key this
  /\ sourceDir this' = sourceDir this
  /\ (forall node' host', open node' host' this' = (this', Ok h)).
Proof.
  intros Hdb Hopen. unfold open in Hopen. rewrite Hdb in Hopen.
  destruct (existsSync host _); [|discriminate]. cbn [negb] in Hopen.
  destruct (getEncryptionKey node host _ _) as [encKey|e] eqn:Hkey; [|discriminate].
  destruct (truthy encKey) eqn:Htruthy; [|discriminate]. cbn [negb] in Hopen.
  destruct (open_session node host _ encKey this) as [s [h0|e]] eqn:Hsession;
    [|discriminate].
  injection Hopen as <- <-.
  apply open_session_Ok in Hsession as (Hh & Hheld & Hprobe & Hk & _ & Hdir).
  split; [exists encKey; auto|].
  repeat split; auto.
  intros node' host'. unfold open. now rewrite Hheld.
Qed.

Lemma open_configures_the_session_witness :
  db (fresh explicit_key) = None
  /\ open sample_node alice_host (fresh explicit_key)
     = (opened (JStr "owner-aci"), Ok opened_handle)
  /\ db (opened (JStr "owner-aci")) = Some opened_handle
  /\ open sample_node locked_host (opened (JStr "owner-aci"))
     = (opened (JStr "owner-aci"), Ok opened_handle).
Proof.
  assert (Hopen : open sample_node alice_host (fresh explicit_key)
                  = (opened (JStr "owner-aci"), Ok opened_handle))
    by (vm_compute; reflexivity).
  destruct (open_configures_the_session sample_node alice_host (fresh explicit_key)
              (opened (JStr "owner-aci")) opened_handle eq_refl Hopen)
    as (_ & Hheld & _ & _ & _ & Hagain).
  split; [reflexivity|]. split; [exact Hopen|]. split; [exact Hheld|apply Hagain].
Defined.

(** ** Key resolution failures *)

(** X8.  On macOS, without an explicit key and with a config.json that has
    an [encryptedKey] field but no [key] field, a keychain lookup that fails,
    or a secret that does not unwrap the field, makes [open] throw the
    keychain error: it is not reported as a missing key nor wrapped as an
    open failure, the instance is left as it was, and the message carries
    the command to run by hand. *)
Theorem keychain_failure_is_reported node host this text config plain encrypted :
  db this = None ->
  existsSync host (join node [sourceDir this; "sql"; "db.sqlite"]) = true ->
  provided (or_optional (key this) (env_SIGNAL_KEY host)) = false ->
  existsSync host (join node [sourceDir this; "config.json"]) = true ->
  readFileSync host (join node [sourceDir this; "config.json"]) = Ok text ->
  JSON_parse node text = Ok config ->
  get config "key" = Ok plain ->
  truthy plain = false ->
  get config "encryptedKey" = Ok encrypted ->
  truthy encrypted = true ->
  platform host = "darwin" ->
  (forall secret,
      security_find_generic_password host = Ok secret ->
      is_Ok (decryptKey node (trim secret) encrypted) = false) ->
  open node host this = (this, Err keychain_error)
  /\ thrownAt keychain_error = KeychainDenied
  /\ includes (message keychain_error)
       ("security find-generic-password -ws " +++ dquote +++ "Signal Safe Storage"
        +++ dquote) = true.
Proof.
  intros Hdb Hfile Hnone Hconfig Hread Hparse Hget Hplain Hget' Henc Hos Hfail.
  split; [|split; [reflexivity|vm_compute; reflexivity]].
  eapply keychain_failure_rethrown; eassumption.
Qed.

Lemma keychain_failure_is_reported_witness :
  db (fresh None) = None
  /\ existsSync sandboxed_mac (join sample_node [signal_dir; "sql"; "db.sqlite"]) = true
  /\ platform sandboxed_mac = "darwin"
  /\ security_find_generic_password sandboxed_mac = no_keychain
  /\ open sample_node sandboxed_mac (fresh None) = (fresh None, Err keychain_error).
Proof.
  split; [reflexivity|]. do 3 (split; [reflexivity|]).
  apply (keychain_failure_is_reported sample_node sandboxed_mac (fresh None)
           config_with_encryptedKey
           (JObj [("encryptedKey", JStr sample_encryptedKey)])
           JUndefined (JStr sample_encryptedKey)); try reflexivity.
  intros secret Hsecret. discriminate Hsecret.
Defined.

(** X9.  [decryptKey] never returns a key for a blob that carries the tag
    "v10" but whose ciphertext is empty or not a whole number of 16-byte
    blocks: the decipher throws. *)
Theorem decryptKey_rejects_partial_blocks node password hex :
  firstn 3 (Buffer_from_hex hex) = Buffer_from "v10" ->
  length (Buffer_from_hex hex) = 3%nat
  \/ Nat.modulo (length (Buffer_from_hex hex) - 3) 16 <> 0%nat ->
  exists msg, decryptKey node password (JStr hex) = Err (Throw LibraryError msg).
Proof.
  intros Htag Hlen. unfold decryptKey. cbn [Buffer_from_hex_value bind].
  unfold subarray. rewrite Nat.sub_0_r, skipn_O, Htag, Buffer_equals_refl.
  cbn [negb]. unfold aes_128_cbc_decipher, subarray_from, Buffer_alloc.
  rewrite repeat_length, length_skipn.
  destruct (Nat.eqb (length (pbkdf2Sync node password _ _ _ _)) 16); cbn [negb];
    [|eexists; reflexivity].
  unfold block_size. cbn [Nat.eqb negb].
  destruct (Nat.eqb_spec (Nat.modulo (length (Buffer_from_hex hex) - 3) 16) 0)
    as [Hzero|Hnz]; cbn [negb bind]; [|eexists; reflexivity].
  destruct Hlen as [Hthree|Hmod]; [|contradiction].
  rewrite Hthree. cbn [Nat.sub Nat.div blocks cbc_decrypt_blocks].
  change (Nat.div 0 16) with 0%nat. cbn [blocks cbc_decrypt_blocks pkcs_unpad rev bind].
  eexists; reflexivity.
Qed.

Lemma decryptKey_rejects_partial_blocks_witness :
  firstn 3 (Buffer_from_hex "763130") = Buffer_from "v10"
  /\ length (Buffer_from_hex "763130") = 3%nat
  /\ exists msg,
       decryptKey sample_node "safe storage" (JStr "763130")
       = Err (Throw LibraryError msg).
Proof.
  split; [reflexivity|]. split; [reflexivity|].
  apply decryptKey_rejects_partial_blocks; [reflexivity|left; reflexivity].
Defined.

(** ** Projection of a row *)

(** X10.  A row whose payload column is NULL, empty, not valid JSON or the
    empty object is projected with no reactions, an empty quote and an empty
    sticker; its body is the body column, or the empty string when that is
    NULL, and its attachment marker is "yes" exactly when the flag is set. *)
Theorem formatMessage_without_payload node this msg contactName d :
  message_date node msg = Ok d ->
  provided (msg_json msg) = false
  \/ is_Ok (JSON_parse node (json_text (msg_json msg))) = false
  \/ JSON_parse node (json_text (msg_json msg)) = Ok (JObj []) ->
  formatMessage node this msg contactName
  = Ok {| date := d;
          sender := if strict_eq (of_text (msg_sourceServiceId msg)) (selfServiceId this)
                       || String.eqb (msg_type msg) "outgoing"
                    then JStr "Me" else contactName;
          body := text_of (msg_body msg);
          quote := JStr EmptyString;
          sticker := JStr EmptyString;
          reactions := JArr [];
          attachments := if msg_hasAttachments msg then "yes" else EmptyString |}.
Proof.
  intros Hdate Hpayload.
  assert (Hempty : message_payload node msg = JObj []).
  { unfold message_payload. destruct Hpayload as [-> |[Hbad| ->]]; [reflexivity| |].
    - destruct (provided (msg_json msg)); [|reflexivity].
      destruct (JSON_parse node _); [discriminate|reflexivity].
    - now destruct (provided (msg_json msg)). }
  unfold formatMessage. rewrite Hdate, Hempty. reflexivity.
Qed.

Lemma formatMessage_without_payload_witness :
  message_date sample_node m_bare = Ok "2023-11-14T22:13:20.000Z"
  /\ provided (msg_json m_bare) = false
  /\ formatMessage sample_node (opened (JStr "owner-aci")) m_bare (JStr "Alice")
     = Ok {| date := "2023-11-14T22:13:20.000Z"; sender := JStr "Alice";
             body := EmptyString; quote := JStr EmptyString;
             sticker := JStr EmptyString; reactions := JArr [];
             attachments := "yes" |}.
Proof.
  split; [reflexivity|]. split; [reflexivity|].
  apply (formatMessage_without_payload sample_node (opened (JStr "owner-aci")) m_bare
           (JStr "Alice") "2023-11-14T22:13:20.000Z"); [reflexivity|left; reflexivity].
Defined.

Lemma js_or_default (v : jsval) :
  truthy (js_or v (JStr EmptyString)) = true \/ js_or v (JStr EmptyString) = JStr EmptyString.
Proof. unfold js_or. destruct (truthy v) eqn:E; auto. Qed.

Lemma shown_name_truthy node (conversation : ConversationRow) :
  truthy (shown_name node conversation) = true.
Proof.
  unfold shown_name, js_or.
  destruct (truthy (displayName node conversation)) eqn:E; [exact E|reflexivity].
Qed.

Lemma formatMessage_shape node this msg contactName fm :
  truthy contactName = true ->
  formatMessage node this msg contactName = Ok fm ->
  well_shaped fm.
Proof.
  intros Hname. unfold formatMessage, well_shaped.
  destruct (message_date node msg) as [d|e]; [|discriminate]. cbn [bind].
  destruct (get (message_payload node msg) "reactions") as [r|e]; [|discriminate].
  cbn [bind].
  destruct (get (message_payload node msg) "quote") as [q|e]; [|discriminate].
  cbn [bind].
  assert (Hquote : forall qv,
             (if truthy q then t <- get q "text";; Ok (js_or t (JStr EmptyString))
              else Ok (JStr EmptyString)) = Ok qv ->
             truthy qv = true \/ qv = JStr EmptyString).
  { intros qv. destruct (truthy q).
    - destruct (get q "text") as [t|e]; [|discriminate]. cbn [bind].
      intros H. injection H as <-. apply js_or_default.
    - intros H. injection H as <-. now right. }
  destruct (if truthy q then _ else _) as [qv|e]; [|discriminate]. cbn [bind].
  specialize (Hquote qv eq_refl).
  destruct (get (message_payload node msg) "sticker") as [s|e]; [|discriminate].
  cbn [bind].
  assert (Hsticker : forall sv,
             (if truthy s
              then e <- get s "emoji";; p <- get s "packId";;
                   Ok (js_or (js_or e p) (JStr EmptyString))
              else Ok (JStr EmptyString)) = Ok sv ->
             truthy sv = true \/ sv = JStr EmptyString).
  { intros sv. destruct (truthy s).
    - destruct (get s "emoji") as [e|e]; [|discriminate]. cbn [bind].
      destruct (get s "packId") as [p|e']; [|discriminate]. cbn [bind].
      intros H. injection H as <-. apply js_or_default.
    - intros H. injection H as <-. now right. }
  destruct (if truthy s then _ else _) as [sv|e]; [|discriminate]. cbn [bind].
  specialize (Hsticker sv eq_refl).
  intros H. injection H as <-. cbn [sender reactions quote sticker attachments].
  repeat split; auto.
  - destruct (_ || _); [reflexivity|exact Hname].
  - destruct (truthy r) eqn:Hr; [exact Hr|reflexivity].
  - destruct (msg_hasAttachments msg); auto.
Qed.

(** X11.  Every message [getChatMessages] or [searchChat] returns is well
    shaped: its sender is a non-empty value ("Me", the display name or
    "Unknown"), its reactions are never missing, its quote and its sticker
    are a value of the payload or the empty string, and its attachment
    marker is "yes" or the empty string. *)
Theorem returned_messages_are_well_shaped node host chatName this this' out :
  (exists limit offset,
      getChatMessages node host chatName limit offset this = (this', Ok out))
  \/ (exists query limit,
         searchChat node host chatName query limit this = (this', Ok out)) ->
  Forall well_shaped out.
Proof.
  assert (Hshape : forall conversation rows,
             map_result
               (fun msg => formatMessage node this' msg (shown_name node conversation))
               rows = Ok out ->
             Forall well_shaped out).
  { intros conversation rows Hrows. apply map_result_Ok in Hrows.
    induction Hrows as [|m fm rows out' Hfm _ IH]; constructor; [|exact IH].
    eapply formatMessage_shape; [apply shown_name_truthy|exact Hfm]. }
  intros [(limit & offset & Hrun)|(query & limit & Hrun)].
  - apply getChatMessages_Ok in Hrun as (h & convs & _ & _ & Hrows).
    destruct (find_conversation chatName convs) as [conversation|].
    + destruct Hrows as (msgs & rows & _ & _ & Hrows). eauto.
    + subst out. constructor.
  - apply searchChat_Ok in Hrun as (h & convs & _ & _ & Hrows).
    destruct (find_conversation chatName convs) as [conversation|].
    + destruct Hrows as (msgs & rows & _ & _ & Hrows). eauto.
    + subst out. constructor.
Qed.

Lemma returned_messages_are_well_shaped_witness :
  getChatMessages sample_node alice_host "Alice" None None (fresh explicit_key)
  = (opened (JStr "owner-aci"),
     Ok [ formatted_message "2023-11-14T22:15:20.000Z" "Alice" EmptyString;
          formatted_message "2023-11-14T22:14:20.000Z" "Me" "hi Alice";
          formatted_message "2023-11-14T22:13:20.000Z" "Alice" "hello" ])
  /\ Forall well_shaped
       [ formatted_message "2023-11-14T22:15:20.000Z" "Alice" EmptyString;
         formatted_message "2023-11-14T22:14:20.000Z" "Me" "hi Alice";
         formatted_message "2023-11-14T22:13:20.000Z" "Alice" "hello" ].
Proof.
  assert (Hrun : getChatMessages sample_node alice_host "Alice" None None
                   (fresh explicit_key)
                 = (opened (JStr "owner-aci"),
                    Ok [ formatted_message "2023-11-14T22:15:20.000Z" "Alice" EmptyString;
                         formatted_message "2023-11-14T22:14:20.000Z" "Me" "hi Alice";
                         formatted_message "2023-11-14T22:13:20.000Z" "Alice" "hello" ]))
    by (vm_compute; reflexivity).
  split; [exact Hrun|].
  apply (returned_messages_are_well_shaped sample_node alice_host "Alice"
           (fresh explicit_key) (opened (JStr "owner-aci"))).
  left. exists None, None. exact Hrun.
Defined.

(** ** The tool-call handler *)

Lemma constructor_Ok node host dir pw k this :
  constructor node host dir pw k = Ok this ->
  db this = None /\ key this = k /\ selfServiceId this = JNull.
Proof.
  unfold constructor.
  destruct (match or_optional dir (env_SIGNAL_SOURCE_DIR host) with
            | Some d => _
            | None => _
            end) as [d|e]; [|discriminate].
  cbn [bind]. intros H. injection H as <-. auto.
Qed.

Lemma close_without_handle this : db this = None -> close this = (this, Ok tt).
Proof. intros H. unfold close. now rewrite H. Qed.

Lemma callTool_rejected node host name args this0 e :
  constructor node host
    (or_optional (arg_source_dir args) (env_SIGNAL_SOURCE_DIR host)) None
    (or_optional (arg_key args) (env_SIGNAL_KEY host)) = Ok this0 ->
  dispatch node host name args this0 = (this0, Err e) ->
  callTool node host name args = (Some this0, Err e).
Proof.
  intros Hnew Hrun. unfold callTool, finally. rewrite Hnew, Hrun.
  apply constructor_Ok in Hnew as (Hdb & _). now rewrite (close_without_handle _ Hdb).
Qed.

(** X12.  The handler checks the arguments of a tool before it touches the
    database: a call of signal_get_chat_messages or signal_search_chat
    without a chat name, a call of signal_search_chat without a query (the
    empty string counts as none), and a call of an unknown tool are answered
    with the request error and leave the fresh instance without a handle,
    whatever the host holds. *)
Theorem tool_arguments_are_checked_first node host name args this0 :
  constructor node host
    (or_optional (arg_source_dir args) (env_SIGNAL_SOURCE_DIR host)) None
    (or_optional (arg_key args) (env_SIGNAL_KEY host)) = Ok this0 ->
  (name = "signal_get_chat_messages" \/ name = "signal_search_chat" ->
   provided (arg_chat_name args) = false ->
   callTool node host name args
   = (Some this0, Err (Throw InvalidRequest "chat_name is required")))
  /\ (name = "signal_search_chat" ->
      provided (arg_chat_name args) = true ->
      provided (arg_query args) = false ->
      callTool node host name args
      = (Some this0, Err (Throw InvalidRequest "query is required")))
  /\ (name <> "signal_list_chats" ->
      name <> "signal_get_chat_messages" ->
      name <> "signal_search_chat" ->
      callTool node host name args
      = (Some this0, Err (Throw InvalidRequest ("Unknown tool: " +++ name))))
  /\ db this0 = None.
Proof.
  intros Hnew. repeat split.
  - intros Hname Hchat. apply callTool_rejected; [exact Hnew|].
    unfold dispatch. destruct Hname as [-> | ->]; cbn [String.eqb Ascii.eqb Bool.eqb];
      now rewrite Hchat.
  - intros -> Hchat Hquery. apply callTool_rejected; [exact Hnew|].
    unfold dispatch. cbn [String.eqb Ascii.eqb Bool.eqb]. now rewrite Hchat, Hquery.
  - intros H1 H2 H3. apply callTool_rejected; [exact Hnew|].
    unfold dispatch.
    destruct (String.eqb_spec name "signal_list_chats"); [contradiction|].
    destruct (String.eqb_spec name "signal_get_chat_messages"); [contradiction|].
    destruct (String.eqb_spec name "signal_search_chat"); [contradiction|].
    reflexivity.
  - now apply constructor_Ok in Hnew.
Qed.

Lemma tool_arguments_are_checked_first_witness :
  constructor sample_node alice_host
    (or_optional (arg_source_dir no_args) (env_SIGNAL_SOURCE_DIR alice_host)) None
    (or_optional (arg_key no_args) (env_SIGNAL_KEY alice_host)) = Ok (fresh None)
  /\ provided (arg_chat_name no_args) = false
  /\ callTool sample_node alice_host "signal_search_chat" no_args
     = (Some (fresh None), Err (Throw InvalidRequest "chat_name is required"))
  /\ callTool sample_node alice_host "signal_delete_chat" no_args
     = (Some (fresh None),
        Err (Throw InvalidRequest "Unknown tool: signal_delete_chat")).
Proof.
  destruct (tool_arguments_are_checked_first sample_node alice_host
              "signal_search_chat" no_args (fresh None) eq_refl) as (Hchat & _).
  destruct (tool_arguments_are_checked_first sample_node alice_host
              "signal_delete_chat" no_args (fresh None) eq_refl) as (_ & _ & Hunknown & _).
  split; [reflexivity|]. split; [reflexivity|]. split.
  - apply Hchat; [right; reflexivity|reflexivity].
  - apply Hunknown; discriminate.
Defined.

Lemma starts_with_app (needle haystack rest : list byte) :
  starts_with needle haystack = true -> starts_with needle (haystack ++ rest) = true.
Proof.
  revert haystack; induction needle as [|n needle IH]; intros [|c haystack]; cbn;
    try reflexivity; try discriminate.
  intros H. apply andb_true_iff in H as [-> H]. now apply IH.
Qed.

Lemma contains_app (needle haystack rest : list byte) :
  contains needle haystack = true -> contains needle (haystack ++ rest) = true.
Proof.
  induction haystack as [|c haystack IH]; cbn [contains app]; intros H.
  - rewrite orb_false_r in H. destruct needle; [|discriminate].
    destruct rest; reflexivity.
  - apply orb_true_iff in H as [H|H].
    + change (c :: haystack ++ rest) with ((c :: haystack) ++ rest).
      now rewrite (starts_with_app _ _ rest H).
    + rewrite (IH H). apply orb_true_r.
Qed.

Lemma includes_append (haystack rest needle : string) :
  includes haystack needle = true -> includes (haystack +++ rest) needle = true.
Proof.
  unfold includes. rewrite list_byte_of_string_append. apply contains_app.
Qed.

Lemma open_without_file node host this :
  db this = None ->
  existsSync host (join node [sourceDir this; "sql"; "db.sqlite"]) = false ->
  open node host this
  = (this,
     Err (Throw DatabaseNotFound
            ("Signal database not found at: "
             +++ join node [sourceDir this; "sql"; "db.sqlite"]))).
Proof. intros Hdb Hfile. unfold open. now rewrite Hdb, Hfile. Qed.

(** X13.  When the database file is absent from the directory of the fresh
    instance, each of the three tools, called with the arguments it requires,
    fails with the not-found error, and the text the handler answers with is
    the not-found advice followed by the path that was looked up. *)
Theorem missing_database_is_explained node host name args this0 :
  constructor node host
    (or_optional (arg_source_dir args) (env_SIGNAL_SOURCE_DIR host)) None
    (or_optional (arg_key args) (env_SIGNAL_KEY host)) = Ok this0 ->
  existsSync host (join node [sourceDir this0; "sql"; "db.sqlite"]) = false ->
  name = "signal_list_chats"
  \/ (name = "signal_get_chat_messages" /\ provided (arg_chat_name args) = true)
  \/ (name = "signal_search_chat" /\ provided (arg_chat_name args) = true
      /\ provided (arg_query args) = true) ->
  exists e,
    callTool node host name args = (Some this0, Err e)
    /\ thrownAt e = DatabaseNotFound
    /\ errorResponse e
       = "Error: Signal database not found. Make sure Signal Desktop is installed "
         +++ "and has been run at least once. Signal database not found at: "
         +++ join node [sourceDir this0; "sql"; "db.sqlite"].
Proof.
  intros Hnew Hfile Hname.
  destruct (constructor_Ok _ _ _ _ _ _ Hnew) as (Hdb & _).
  pose proof (open_without_file node host this0 Hdb Hfile) as Hopen.
  exists (Throw DatabaseNotFound
            ("Signal database not found at: "
             +++ join node [sourceDir this0; "sql"; "db.sqlite"])).
  split; [|split; [reflexivity|]].
  - apply callTool_rejected; [exact Hnew|].
    unfold dispatch, listChats, getChatMessages, searchChat, mbind.
    destruct Hname as [-> |[(-> & Hchat)|(-> & Hchat & Hquery)]];
      cbn [String.eqb Ascii.eqb Bool.eqb];
      rewrite ?Hchat, ?Hquery; cbn [negb]; rewrite Hopen; reflexivity.
  - unfold errorResponse, userMessage. cbn [message].
    assert (Hinc : includes ("Signal database not found at: "
                             +++ join node [sourceDir this0; "sql"; "db.sqlite"])
                     "database not found" = true)
      by (apply includes_append; reflexivity).
    now rewrite Hinc.
Qed.

Lemma missing_database_is_explained_witness :
  constructor sample_node alice_host
    (or_optional (arg_source_dir elsewhere_args) (env_SIGNAL_SOURCE_DIR alice_host)) None
    (or_optional (arg_key elsewhere_args) (env_SIGNAL_KEY alice_host)) = Ok elsewhere
  /\ existsSync alice_host (join sample_node [sourceDir elsewhere; "sql"; "db.sqlite"])
     = false
  /\ provided (arg_chat_name elsewhere_args) = true
  /\ exists e,
       callTool sample_node alice_host "signal_get_chat_messages" elsewhere_args
       = (Some elsewhere, Err e)
       /\ errorResponse e
          = "Error: Signal database not found. Make sure Signal Desktop is installed "
            +++ "and has been run at least once. Signal database not found at: "
            +++ "/tmp/empty/sql/db.sqlite".
Proof.
  split; [reflexivity|]. split; [reflexivity|]. split; [reflexivity|].
  destruct (missing_database_is_explained sample_node alice_host
              "signal_get_chat_messages" elsewhere_args elsewhere eq_refl eq_refl)
    as (e & Hrun & _ & Htext).
  - right. left. split; reflexivity.
  - exists e. split; [exact Hrun|exact Htext].
Defined.

(** ** Construction *)

(** X14.  A [SignalDatabase] can always be constructed when a directory is
    given, as argument or through SIGNAL_SOURCE_DIR, the argument taking
    precedence: the platform is not consulted.  Without one the constructor
    succeeds on win32, darwin and linux and fails, with the unsupported-OS
    error naming the platform, on every other platform.  A constructed
    instance holds no handle and no owner identifier. *)
Theorem construction_needs_a_directory_or_a_known_platform node host dir pw k :
  (forall d,
      or_optional dir (env_SIGNAL_SOURCE_DIR host) = Some d ->
      d <> EmptyString ->
      constructor node host dir pw k
      = Ok {| password := pw; key := k; db := None; sourceDir := d;
              selfServiceId := JNull |})
  /\ (forall d, dir = Some d -> d <> EmptyString ->
                or_optional dir (env_SIGNAL_SOURCE_DIR host) = Some d)
  /\ (provided (or_optional dir (env_SIGNAL_SOURCE_DIR host)) = false ->
      (platform host = "win32" \/ platform host = "darwin" \/ platform host = "linux" ->
       exists this, constructor node host dir pw k = Ok this
                    /\ db this = None /\ selfServiceId this = JNull)
      /\ (platform host <> "win32" -> platform host <> "darwin" ->
          platform host <> "linux" ->
          constructor node host dir pw k
          = Err (Throw UnsupportedOS ("Unsupported OS: " +++ platform host)))).
Proof.
  split; [|split].
  - intros d Hd Hne. unfold constructor. rewrite Hd.
    destruct (String.eqb_spec d EmptyString); [contradiction|reflexivity].
  - intros d -> Hne. cbn [or_optional].
    destruct (String.eqb_spec d EmptyString); [contradiction|reflexivity].
  - intros Hnone.
    assert (Hdefault : constructor node host dir pw k
                       = (d <- getDefaultSignalDir node host ;;
                          Ok {| password := pw; key := k; db := None; sourceDir := d;
                                selfServiceId := JNull |})).
    { unfold constructor. unfold provided in Hnone.
      destruct (or_optional dir (env_SIGNAL_SOURCE_DIR host)) as [d|]; [|reflexivity].
      destruct (String.eqb d EmptyString); [reflexivity|discriminate]. }
    rewrite Hdefault. unfold getDefaultSignalDir. split.
    + intros [-> |[-> | ->]]; cbn [String.eqb Ascii.eqb Bool.eqb];
        try (destruct (existsSync host _)); cbn [bind]; eexists; repeat split.
    + intros H1 H2 H3.
      destruct (String.eqb_spec (platform host) "win32"); [contradiction|].
      destruct (String.eqb_spec (platform host) "darwin"); [contradiction|].
      destruct (String.eqb_spec (platform host) "linux"); [contradiction|].
      reflexivity.
Qed.

Lemma construction_needs_a_directory_or_a_known_platform_witness :
  or_optional (Some "/tmp/empty") (env_SIGNAL_SOURCE_DIR bsd_host) = Some "/tmp/empty"
  /\ constructor sample_node bsd_host (Some "/tmp/empty") None explicit_key = Ok elsewhere
  /\ provided (or_optional None (env_SIGNAL_SOURCE_DIR bsd_host)) = false
  /\ constructor sample_node bsd_host None None None
     = Err (Throw UnsupportedOS "Unsupported OS: freebsd").
Proof.
  destruct (construction_needs_a_directory_or_a_known_platform sample_node bsd_host
              (Some "/tmp/empty") None explicit_key) as (Hgiven & _ & _).
  destruct (construction_needs_a_directory_or_a_known_platform sample_node bsd_host
              None None None) as (_ & _ & Hdefault).
  split; [reflexivity|]. split; [|split; [reflexivity|]].
  - apply Hgiven; [reflexivity|discriminate].
  - apply (Hdefault eq_refl); discriminate.
Defined.

(** ** Loading the owner identifier *)

(** X15.  [loadSelfContact] is best effort: it never throws and changes no
    field but the owner identifier.  When the [uuid_id] item exists, its JSON
    parses and [value] can be read, the identifier becomes that value, or
    null when the value is falsy; in every other case (no handle, failing
    query, no row, malformed JSON, JSON null) it keeps what it was. *)
Theorem loadSelfContact_is_best_effort node host this :
  snd (loadSelfContact node host this) = Ok tt
  /\ db (fst (loadSelfContact node host this)) = db this
  /\ key (fst (loadSelfContact node host this)) = key this
  /\ sourceDir (fst (loadSelfContact node host this)) = sourceDir this
  /\ (forall h json data value,
         db this = Some h ->
         select_uuid_id host h = Ok (Some json) ->
         JSON_parse node (json_text json) = Ok data ->
         get data "value" = Ok value ->
         selfServiceId (fst (loadSelfContact node host this)) = js_or value JNull)
  /\ (db this = None
      \/ (exists h,
             db this = Some h
             /\ (is_Ok (select_uuid_id host h) = false
                 \/ select_uuid_id host h = Ok None
                 \/ exists json,
                      select_uuid_id host h = Ok (Some json)
                      /\ (is_Ok (JSON_parse node (json_text json)) = false
                          \/ exists data,
                               JSON_parse node (json_text json) = Ok data
                               /\ is_Ok (get data "value") = false))) ->
      selfServiceId (fst (loadSelfContact node host this)) = selfServiceId this).
Proof.
  destruct (loadSelfContact_fields node host this) as (Hret & Hdb & Hkey & _ & Hdir).
  do 4 (split; [assumption|]). split.
  - intros h json data value Hh Hrow Hparse Hvalue.
    unfold loadSelfContact. rewrite Hh, Hrow. cbn [bind].
    rewrite Hparse. cbn [bind]. now rewrite Hvalue.
  - intros [Hnone|(h & Hh & Hcase)]; unfold loadSelfContact.
    + now rewrite Hnone.
    + rewrite Hh.
      destruct Hcase as [Hfail|[Hrow|(json & Hrow & Hcase)]].
      * destruct (select_uuid_id host h); [discriminate|reflexivity].
      * now rewrite Hrow.
      * rewrite Hrow. cbn [bind].
        destruct Hcase as [Hfail|(data & Hparse & Hfail)].
        -- destruct (JSON_parse node (json_text json)); [discriminate|reflexivity].
        -- rewrite Hparse. cbn [bind].
           destruct (get data "value"); [discriminate|reflexivity].
Qed.

Lemma loadSelfContact_is_best_effort_witness :
  db (opened JNull) = Some opened_handle
  /\ select_uuid_id alice_host opened_handle = Ok (Some (Some owner_item))
  /\ JSON_parse sample_node (json_text (Some owner_item))
     = Ok (JObj [("value", JStr "owner-aci")])
  /\ get (JObj [("value", JStr "owner-aci")]) "value" = Ok (JStr "owner-aci")
  /\ selfServiceId (fst (loadSelfContact sample_node alice_host (opened JNull)))
     = JStr "owner-aci"
  /\ select_uuid_id ownerless_host opened_handle = Ok None
  /\ selfServiceId (fst (loadSelfContact sample_node ownerless_host (opened (JStr "kept"))))
     = JStr "kept".
Proof.
  destruct (loadSelfContact_is_best_effort sample_node alice_host (opened JNull))
    as (_ & _ & _ & _ & Hloaded & _).
  destruct (loadSelfContact_is_best_effort sample_node ownerless_host
              (opened (JStr "kept"))) as (_ & _ & _ & _ & _ & Hkept).
  do 4 (split; [reflexivity|]). split; [|split; [reflexivity|]].
  - apply (Hloaded opened_handle (Some owner_item)
             (JObj [("value", JStr "owner-aci")]) (JStr "owner-aci")); reflexivity.
  - apply Hkept. right. exists opened_handle. split; [reflexivity|].
    right. left. reflexivity.
Defined.

(** ** Failures of open *)

(** X16.  A failed [open] leaves a handle behind only when the connection
    was created and a later step failed: when [open] on an instance without
    a handle throws anything but the open failure (database not found, key
    not found, keychain error), or when the engine refuses to create the
    connection, the instance is exactly as it was. *)
Theorem open_failure_before_the_connection node host this this' e :
  db this = None ->
  open node host this = (this', Err e) ->
  (thrownAt e <> DatabaseOpenFailed -> this' = this)
  /\ (is_Ok (Database_new host (join node [sourceDir this; "sql"; "db.sqlite"])) = false ->
      this' = this).
Proof.
  intros Hdb Hopen. unfold open in Hopen. rewrite Hdb in Hopen.
  destruct (existsSync host _).
  2:{ injection Hopen as <- _. auto. }
  cbn [negb] in Hopen.
  destruct (getEncryptionKey node host _ _) as [encKey|e'].
  2:{ injection Hopen as <- _. auto. }
  destruct (truthy encKey).
  2:{ injection Hopen as <- _. auto. }
  cbn [negb] in Hopen.
  destruct (open_session node host _ encKey this) as [s [h|error]] eqn:Hsession;
    [discriminate|].
  injection Hopen as <- <-. split.
  - intros Hclass. now contradiction Hclass.
  - intros Hnew. unfold open_session, mbind in Hsession.
    destruct (Database_new host _); [discriminate|].
    now injection Hsession as <- _.
Qed.

Lemma open_failure_before_the_connection_witness :
  db (fresh None) = None
  /\ open sample_node keyless_host (fresh None)
     = (fresh None,
        Err (Throw KeyNotFound
               ("Could not find Signal encryption key. "
                +++ "Make sure config.json exists in /home/alice/.config/Signal"
                +++ " or provide the key manually.")))
  /\ KeyNotFound <> DatabaseOpenFailed.
Proof.
  assert (Hopen : open sample_node keyless_host (fresh None)
                  = (fresh None,
                     Err (Throw KeyNotFound
                            ("Could not find Signal encryption key. "
                             +++ "Make sure config.json exists in /home/alice/.config/Signal"
                             +++ " or provide the key manually."))))
    by (vm_compute; reflexivity).
  destruct (open_failure_before_the_connection sample_node keyless_host (fresh None)
              (fresh None) _ eq_refl Hopen) as [Hsame _].
  split; [reflexivity|]. split; [exact Hopen|]. discriminate.
Defined.

(** ** Offsets without a limit *)

Lemma select_messages_unbounded limit o cid msgs :
  limit = None \/ (exists k, limit = Some (Integer k) /\ - 2 ^ 63 < k < 0) ->
  sql_range o ->
  select_messages limit (Some (Integer o)) cid msgs
  = Ok (skipn (Z.to_nat o) (all_messages cid msgs)).
Proof.
  intros [-> |(k & -> & Hk)] Ho; [now apply select_messages_offset|].
  rewrite select_messages_limit by (unfold sql_range in *; lia).
  now rewrite sql_window_unbounded by lia.
Qed.

(** X19.  With no limit, or a negative one above [-2^63], [getChatMessages]
    with an offset [o] of magnitude below [2^63] returns its listing of the
    conversation without the first [o] entries, the most recent ones:
    [max 0 (N - o)] messages, and the whole listing when the offset is zero
    or negative. *)
Theorem getChatMessages_offset_without_limit
    node host this this' h convs msgs chatName conversation :
  open node host this = (this', Ok h) ->
  table_conversations host h = Ok convs ->
  table_messages host h = Ok msgs ->
  find_conversation chatName convs = Some conversation ->
  projectable node this' (shown_name node conversation)
    (messages_of (conv_id conversation) msgs) = true ->
  exists listing,
    getChatMessages node host chatName None None this = (this', Ok listing)
    /\ length listing = length (messages_of (conv_id conversation) msgs)
    /\ forall limit o,
         limit = None \/ (exists k, limit = Some (Integer k) /\ - 2 ^ 63 < k < 0) ->
         - 2 ^ 63 < o < 2 ^ 63 ->
         getChatMessages node host chatName limit (Some (Integer o)) this
         = (this', Ok (skipn (Z.to_nat o) listing))
         /\ Z.of_nat (length (skipn (Z.to_nat o) listing))
            = Z.max 0 (Z.of_nat (length (messages_of (conv_id conversation) msgs))
                       - Z.max 0 o).
Proof.
  intros Hopen Hconvs Hmsgs Hfind Hproj.
  destruct (getChatMessages_listing node host this this' h convs msgs chatName
              conversation Hopen Hconvs Hmsgs Hfind Hproj)
    as (listing & Hall & Hrun & Hfmt).
  assert (Hlen : length listing = length (messages_of (conv_id conversation) msgs)).
  { now rewrite <- (Forall2_length Hfmt), all_messages_length. }
  exists listing. split; [exact Hrun|]. split; [exact Hlen|].
  intros limit o Hlimit Ho. split.
  - rewrite (getChatMessages_rows _ _ _ _ _ _ _ _ _ _ _ Hopen Hconvs Hmsgs Hfind).
    fold (shown_name node conversation).
    rewrite select_messages_unbounded by (auto; unfold sql_range; lia).
    cbn [bind]. now rewrite (map_result_skipn _ _ _ _ Hall).
  - rewrite length_skipn, Hlen. lia.
Qed.

Lemma getChatMessages_offset_without_limit_witness :
  open sample_node alice_host (fresh explicit_key)
  = (opened (JStr "owner-aci"), Ok opened_handle)
  /\ table_conversations alice_host opened_handle = Ok [alice]
  /\ table_messages alice_host opened_handle = Ok three_messages
  /\ find_conversation "Alice" [alice] = Some alice
  /\ projectable sample_node (opened (JStr "owner-aci")) (shown_name sample_node alice)
       (messages_of (conv_id alice) three_messages) = true
  /\ - 2 ^ 63 < 2 < 2 ^ 63
  /\ exists listing,
       getChatMessages sample_node alice_host "Alice" None None (fresh explicit_key)
       = (opened (JStr "owner-aci"), Ok listing)
       /\ getChatMessages sample_node alice_host "Alice" None (Some (Integer 2))
            (fresh explicit_key)
          = (opened (JStr "owner-aci"), Ok (skipn (Z.to_nat 2) listing))
       /\ Z.of_nat (length (skipn (Z.to_nat 2) listing)) = Z.max 0 (3 - Z.max 0 2).
Proof.
  assert (Hopen : open sample_node alice_host (fresh explicit_key)
                  = (opened (JStr "owner-aci"), Ok opened_handle))
    by (vm_compute; reflexivity).
  assert (Hproj : projectable sample_node (opened (JStr "owner-aci"))
                    (shown_name sample_node alice)
                    (messages_of (conv_id alice) three_messages) = true)
    by (vm_compute; reflexivity).
  split; [exact Hopen|]. do 3 (split; [reflexivity|]). split; [exact Hproj|].
  split; [lia|].
  destruct (getChatMessages_offset_without_limit sample_node alice_host
              (fresh explicit_key) (opened (JStr "owner-aci")) opened_handle [alice]
              three_messages "Alice" alice Hopen eq_refl eq_refl eq_refl Hproj)
    as (listing & Hrun & _ & Hskip).
  destruct (Hskip None 2 (or_introl eq_refl) ltac:(lia)) as [Hpage Hlen].
  exists listing. split; [exact Hrun|]. split; [exact Hpage|exact Hlen].
Defined.

(** ** Names *)

Lemma formatMessage_Ok_sender node this msg contactName fm :
  formatMessage node this msg contactName = Ok fm ->
  sender fm
  = if strict_eq (of_text (msg_sourceServiceId msg)) (selfServiceId this)
       || String.eqb (msg_type msg) "outgoing"
    then JStr "Me" else contactName.
Proof.
  unfold formatMessage.
  destruct (message_date node msg) as [d|e]; [|discriminate]. cbn [bind].
  destruct (get (message_payload node msg) "reactions") as [r|e]; [|discriminate].
  cbn [bind].
  destruct (get (message_payload node msg) "quote") as [q|e]; [|discriminate].
  cbn [bind].
  destruct (if truthy q then _ else _) as [qv|e]; [|discriminate]. cbn [bind].
  destruct (get (message_payload node msg) "sticker") as [s|e]; [|discriminate].
  cbn [bind].
  destruct (if truthy s then _ else _) as [sv|e]; [|discriminate]. cbn [bind].
  intros H. now injection H as <-.
Qed.

(** X17.  The display name of a conversation is its name column when that
    holds a non-empty string, else its profile name when that holds one;
    the JSON payload is consulted only when both are missing or empty, and a
    payload that is missing, empty or not valid JSON then leaves the
    conversation without a name: [listChats] reports the name null and the
    messages of the conversation are attributed to "Unknown". *)
Theorem displayName_fallback node (conv : ConversationRow) :
  (forall n, conv_name conv = Some n -> n <> EmptyString ->
             displayName node conv = JStr n)
  /\ (forall p,
         provided (conv_name conv) = false ->
         conv_profileName conv = Some p -> p <> EmptyString ->
         displayName node conv = JStr p)
  /\ (provided (conv_name conv) = false ->
      provided (conv_profileName conv) = false ->
      provided (conv_json conv) = false
      \/ is_Ok (JSON_parse node (json_text (conv_json conv))) = false ->
      truthy (displayName node conv) = false
      /\ js_or (displayName node conv) JNull = JNull
      /\ shown_name node conv = JStr "Unknown").
Proof.
  assert (Hfalsy : forall v, provided v = false -> truthy (of_text v) = false).
  { intros [s|]; cbn; [|reflexivity]. now destruct (String.eqb s EmptyString). }
  assert (Htruthy : forall s, s <> EmptyString -> truthy (JStr s) = true).
  { intros s Hs. cbn. now destruct (String.eqb_spec s EmptyString). }
  split; [|split].
  - intros n Hn Hne.
    assert (Hc : js_or (of_text (conv_name conv)) (of_text (conv_profileName conv))
                 = JStr n).
    { unfold js_or. rewrite Hn. cbn [of_text]. now rewrite (Htruthy n Hne). }
    unfold displayName. now rewrite Hc, (Htruthy n Hne).
  - intros p Hname Hp Hne.
    assert (Hc : js_or (of_text (conv_name conv)) (of_text (conv_profileName conv))
                 = JStr p).
    { unfold js_or. now rewrite (Hfalsy _ Hname), Hp. }
    unfold displayName. now rewrite Hc, (Htruthy p Hne).
  - intros Hname Hprofile Hjson.
    assert (Hname' : truthy (js_or (of_text (conv_name conv))
                               (of_text (conv_profileName conv))) = false).
    { unfold js_or. rewrite (Hfalsy _ Hname). now apply Hfalsy. }
    assert (Hd : truthy (displayName node conv) = false).
    { unfold displayName. rewrite Hname'. cbn [negb andb].
      destruct Hjson as [-> |Hbad]; [exact Hname'|].
      destruct (provided (conv_json conv)); [|exact Hname'].
      destruct (JSON_parse node _); [discriminate|exact Hname']. }
    unfold shown_name, js_or. rewrite Hd. auto.
Qed.

Lemma displayName_fallback_witness :
  provided (conv_name carol) = false
  /\ conv_profileName carol = Some "Carol"
  /\ displayName sample_node carol = JStr "Carol"
  /\ provided (conv_name nameless) = false
  /\ provided (conv_profileName nameless) = false
  /\ is_Ok (JSON_parse sample_node (json_text (conv_json nameless))) = false
  /\ shown_name sample_node nameless = JStr "Unknown".
Proof.
  destruct (displayName_fallback sample_node carol) as (_ & Hprofile & _).
  destruct (displayName_fallback sample_node nameless) as (_ & _ & Hnone).
  split; [reflexivity|]. split; [reflexivity|]. split.
  - apply Hprofile; [reflexivity|reflexivity|discriminate].
  - do 3 (split; [reflexivity|]).
    apply Hnone; [reflexivity|reflexivity|right; reflexivity].
Defined.

(** X18.  The sender of every message [getChatMessages] or [searchChat]
    returns for a conversation is either "Me" or the name shown for the
    conversation itself: the source columns of the row are not used, so in a
    group the messages of all other members carry the name of the group. *)
Theorem sender_is_me_or_the_conversation
    node host chatName this this' h convs conversation out :
  open node host this = (this', Ok h) ->
  table_conversations host h = Ok convs ->
  find_conversation chatName convs = Some conversation ->
  (exists limit offset,
      getChatMessages node host chatName limit offset this = (this', Ok out))
  \/ (exists query limit,
         searchChat node host chatName query limit this = (this', Ok out)) ->
  Forall (fun fm => sender fm = JStr "Me" \/ sender fm = shown_name node conversation) out.
Proof.
  intros Hopen Hconvs Hfind Hrun.
  assert (Hsender : forall rows listed,
             map_result
               (fun msg => formatMessage node this' msg (shown_name node conversation))
               rows = Ok listed ->
             Forall (fun fm => sender fm = JStr "Me"
                               \/ sender fm = shown_name node conversation) listed).
  { intros rows listed Hrows. apply map_result_Ok in Hrows.
    induction Hrows as [|m fm rows out' Hfm _ IH]; constructor; [|exact IH].
    apply formatMessage_Ok_sender in Hfm. rewrite Hfm.
    destruct (_ || _); auto. }
  destruct Hrun as [(limit & offset & Hrun)|(query & limit & Hrun)].
  - apply getChatMessages_Ok in Hrun as (h' & convs' & Hopen' & Hconvs' & Hrows).
    rewrite Hopen in Hopen'. injection Hopen' as <-.
    rewrite Hconvs in Hconvs'. injection Hconvs' as <-.
    rewrite Hfind in Hrows. destruct Hrows as (msgs & rows & _ & _ & Hrows). eauto.
  - apply searchChat_Ok in Hrun as (h' & convs' & Hopen' & Hconvs' & Hrows).
    rewrite Hopen in Hopen'. injection Hopen' as <-.
    rewrite Hconvs in Hconvs'. injection Hconvs' as <-.
    rewrite Hfind in Hrows. destruct Hrows as (msgs & rows & _ & _ & Hrows). eauto.
Qed.

Lemma sender_is_me_or_the_conversation_witness :
  open sample_node group_host (fresh explicit_key)
  = (opened (JStr "owner-aci"), Ok opened_handle)
  /\ table_conversations group_host opened_handle = Ok [alice; book_club]
  /\ find_conversation "Book club" [alice; book_club] = Some book_club
  /\ getChatMessages sample_node group_host "Book club" None None (fresh explicit_key)
     = (opened (JStr "owner-aci"),
        Ok [ formatted_message "2023-11-14T22:21:00.000Z" "Book club" "I am in";
             formatted_message "2023-11-14T22:20:00.000Z" "Book club" "chapter 3 tonight" ])
  /\ Forall (fun fm => sender fm = JStr "Me"
                       \/ sender fm = shown_name sample_node book_club)
       [ formatted_message "2023-11-14T22:21:00.000Z" "Book club" "I am in";
         formatted_message "2023-11-14T22:20:00.000Z" "Book club" "chapter 3 tonight" ].
Proof.
  assert (Hopen : open sample_node group_host (fresh explicit_key)
                  = (opened (JStr "owner-aci"), Ok opened_handle))
    by (vm_compute; reflexivity).
  assert (Hrun : getChatMessages sample_node group_host "Book club" None None
                   (fresh explicit_key)
                 = (opened (JStr "owner-aci"),
                    Ok [ formatted_message "2023-11-14T22:21:00.000Z" "Book club" "I am in";
                         formatted_message "2023-11-14T22:20:00.000Z" "Book club"
                           "chapter 3 tonight" ]))
    by (vm_compute; reflexivity).
  split; [exact Hopen|]. do 2 (split; [reflexivity|]). split; [exact Hrun|].
  apply (sender_is_me_or_the_conversation sample_node group_host "Book club"
           (fresh explicit_key) (opened (JStr "owner-aci")) opened_handle
           [alice; book_club] book_club _ Hopen eq_refl eq_refl).
  left. exists None, None. exact Hrun.
Defined.

(** ** The sender of a projected row *)

(** X20.  On every row it projects (the time value is in the range of
    [Date], the payload did not parse to [null]) [formatMessage] returns,
    and the sender is "Me" when the sender service identifier of the row
    equals the cached identifier of the session owner, whatever the type
    tag; otherwise "Me" when the type tag is "outgoing" and the supplied
    contact name when it is not. *)
Theorem formatMessage_sender node this msg contactName :
  is_Ok (message_date node msg) = true ->
  message_payload node msg <> JNull ->
  message_payload node msg <> JUndefined ->
  exists fm,
    formatMessage node this msg contactName = Ok fm
    /\ (strict_eq (of_text (msg_sourceServiceId msg)) (selfServiceId this) = true ->
        sender fm = JStr "Me")
    /\ (strict_eq (of_text (msg_sourceServiceId msg)) (selfServiceId this) = false ->
        sender fm = if String.eqb (msg_type msg) "outgoing" then JStr "Me"
                    else contactName).
Proof.
  intros Hdate Hnull Hundef.
  destruct (formatMessage_returns node this msg contactName Hdate Hnull Hundef)
    as (fm & Hfm & Hsender).
  exists fm. split; [exact Hfm|].
  split; intros Hself; rewrite Hself in Hsender; exact Hsender.
Qed.

Lemma formatMessage_sender_witness :
  is_Ok (message_date sample_node m_synced) = true
  /\ message_payload sample_node m_synced <> JNull
  /\ message_payload sample_node m_synced <> JUndefined
  /\ msg_type m_synced = "incoming"
  /\ exists fm,
       formatMessage sample_node (opened (JStr "owner-aci")) m_synced (JStr "Alice") = Ok fm
       /\ sender fm = JStr "Me".
Proof.
  assert (Hdate : is_Ok (message_date sample_node m_synced) = true) by reflexivity.
  assert (Hnull : message_payload sample_node m_synced <> JNull)
    by (vm_compute; discriminate).
  assert (Hundef : message_payload sample_node m_synced <> JUndefined)
    by (vm_compute; discriminate).
  split; [exact Hdate|]. split; [exact Hnull|]. split; [exact Hundef|].
  split; [reflexivity|].
  destruct (formatMessage_sender sample_node (opened (JStr "owner-aci")) m_synced
              (JStr "Alice") Hdate Hnull Hundef) as (fm & Hfm & Hself & _).
  exists fm. split; [exact Hfm|]. apply Hself. reflexivity.
Defined.

(** ** Numbers the engine refuses *)

Lemma sql_integer_refused (z : Z) :
  z <= - 2 ^ 63 \/ 2 ^ 63 <= z ->
  sql_integer (Integer z) = Err (lib_error "datatype mismatch").
Proof.
  intros Hz. unfold sql_integer.
  destruct (Z.ltb_spec (- 2 ^ 63) z); [|reflexivity].
  destruct (Z.ltb_spec z (2 ^ 63)); [lia|reflexivity].
Qed.

Lemma sql_limit_offset_refused {A} (k o : Z) (l : list A) :
  z_out_of_range k \/ z_out_of_range o ->
  sql_limit_offset (Integer k) (Integer o) l = Err (lib_error "datatype mismatch").
Proof.
  unfold z_out_of_range, sql_limit_offset. intros [Hk|Ho].
  - now rewrite sql_integer_refused.
  - rewrite (sql_integer_refused o Ho). unfold sql_integer.
    now destruct ((- 2 ^ 63 <? k) && (k <? 2 ^ 63)).
Qed.

(** X21.  The limit and the offset are spliced into the text of the query,
    and the engine refuses a LIMIT or OFFSET that is not an integer to it.
    On a database that opens, for a conversation the name resolves to:
    [getChatMessages] with a limit other than 0 throws the engine's
    "datatype mismatch" when the limit or the offset is an integer of
    magnitude [2^63] or more, or when the limit is not an integer; without a
    limit it throws when the offset is [2^63] or more; [searchChat] throws
    when its limit is [2^63] or more.  The session stays open. *)
Theorem query_numbers_must_be_integers
    node host this this' h convs msgs chatName conversation :
  open node host this = (this', Ok h) ->
  table_conversations host h = Ok convs ->
  table_messages host h = Ok msgs ->
  find_conversation chatName convs = Some conversation ->
  (forall k o,
      k <> 0 -> z_out_of_range k \/ z_out_of_range o ->
      getChatMessages node host chatName (Some (Integer k)) (Some (Integer o)) this
      = (this', Err (lib_error "datatype mismatch")))
  /\ (forall floor offset,
         getChatMessages node host chatName (Some (Fraction floor)) offset this
         = (this', Err (lib_error "datatype mismatch")))
  /\ (forall o,
         2 ^ 63 <= o ->
         getChatMessages node host chatName None (Some (Integer o)) this
         = (this', Err (lib_error "datatype mismatch")))
  /\ (forall query k,
         z_out_of_range k ->
         searchChat node host chatName query (Some (Integer k)) this
         = (this', Err (lib_error "datatype mismatch"))).
Proof.
  intros Hopen Hconvs Hmsgs Hfind.
  split; [|split; [|split]].
  - intros k o Hk Hrange.
    rewrite (getChatMessages_rows _ _ _ _ _ _ _ _ _ _ _ Hopen Hconvs Hmsgs Hfind).
    unfold select_messages. cbn [limit_given number_truthy].
    destruct (Z.eqb_spec k 0); [contradiction|]. cbn [negb].
    now rewrite sql_limit_offset_refused.
  - intros floor offset.
    rewrite (getChatMessages_rows _ _ _ _ _ _ _ _ _ _ _ Hopen Hconvs Hmsgs Hfind).
    reflexivity.
  - intros o Ho.
    rewrite (getChatMessages_rows _ _ _ _ _ _ _ _ _ _ _ Hopen Hconvs Hmsgs Hfind).
    unfold select_messages. cbn [limit_given number_positive].
    destruct (Z.ltb_spec 0 o); [|lia].
    rewrite sql_limit_offset_refused; [reflexivity|].
    right. unfold z_out_of_range. lia.
  - intros query k Hk.
    rewrite (searchChat_rows _ _ _ _ _ _ _ _ _ _ _ Hopen Hconvs Hmsgs Hfind).
    unfold search_messages. cbn [limit_given number_truthy].
    destruct (Z.eqb_spec k 0) as [->|_]; [unfold z_out_of_range in Hk; lia|].
    cbn [negb]. now rewrite (sql_integer_refused k Hk).
Qed.

Lemma query_numbers_must_be_integers_witness :
  open sample_node alice_host (fresh explicit_key)
  = (opened (JStr "owner-aci"), Ok opened_handle)
  /\ table_conversations alice_host opened_handle = Ok [alice]
  /\ table_messages alice_host opened_handle = Ok three_messages
  /\ find_conversation "Alice" [alice] = Some alice
  /\ 2 ^ 63 <> 0
  /\ z_out_of_range (2 ^ 63)
  /\ getChatMessages sample_node alice_host "Alice" (Some (Integer (2 ^ 63)))
       (Some (Integer 0)) (fresh explicit_key)
     = (opened (JStr "owner-aci"), Err (lib_error "datatype mismatch")).
Proof.
  assert (Hopen : open sample_node alice_host (fresh explicit_key)
                  = (opened (JStr "owner-aci"), Ok opened_handle))
    by (vm_compute; reflexivity).
  assert (Hrange : z_out_of_range (2 ^ 63)) by (unfold z_out_of_range; lia).
  destruct (query_numbers_must_be_integers sample_node alice_host (fresh explicit_key)
              (opened (JStr "owner-aci")) opened_handle [alice] three_messages "Alice"
              alice Hopen eq_refl eq_refl eq_refl) as (Hpage & _).
  split; [exact Hopen|]. do 3 (split; [reflexivity|]).
  split; [lia|]. split; [exact Hrange|].
  apply Hpage; [lia|]. left. exact Hrange.
Defined.
